(** * Unified resource search (src/tools/kubectl-unified-search.ts)

    A shallow embedding of the search engine of the Kubernetes MCP server
    and the properties its specification states about it.

    Conventions of the embedding.
    - A JavaScript string is a [string] of code units below 256, which
      covers Kubernetes object names; [toLowerCase] and white space are
      those of JavaScript on these code units.
    - A JavaScript number that holds a count or an index is a [nat]; one
      that may be negative ([limit], [maxNamespaces], priorities) is a [Z],
      so these parameters are taken to be integers; a score is an IEEE-754
      binary64 value, Rocq's primitive [float], which rounds exactly as the
      JavaScript arithmetic does.
    - [await] is sequential composition: within a batch the listing calls
      are issued in list order and merged in list order, and the result
      accumulator is only touched between batches.
    - An exception is a value of a sum type. *)

From Stdlib Require Import Bool Arith ZArith Lia List Ascii String.
From Stdlib Require Import DecimalString DecimalNat PrimFloat Uint63 Permutation Sorted.
Import ListNotations.

Set Warnings "-inexact-float".

Open Scope list_scope.
Open Scope string_scope.

(** ** Strings *)

Module Js.

(** The lower-case mapping of one code unit: A to Z, and the capital
    letters U+00C0 to U+00DE of Latin-1 without the multiplication sign
    U+00D7, move up by 32. *)
Definition lowerUnit (c : ascii) : ascii :=
  let n := nat_of_ascii c in
  if ((65 <=? n)%nat && (n <=? 90)%nat)
     || ((192 <=? n)%nat && (n <=? 222)%nat && negb (n =? 215)%nat)
  then ascii_of_nat (n + 32) else c.

(** [String.prototype.toLowerCase]. *)
Fixpoint toLowerCase (s : string) : string :=
  match s with
  | EmptyString => EmptyString
  | String c s' => String (lowerUnit c) (toLowerCase s')
  end.

(** [s.startsWith(p)]. *)
Definition startsWith (s p : string) : bool := String.prefix p s.

(** [s.includes(sub)]: [sub] occurs in [s] at some position. *)
Fixpoint includes (s sub : string) : bool :=
  String.prefix sub s ||
  match s with
  | EmptyString => false
  | String _ s' => includes s' sub
  end.

(** White space and line terminators of [trim], of [parseInt] and of the
    regex class \s: tab to carriage return, the space and the no-break
    space U+00A0. *)
Definition isSpace (c : ascii) : bool :=
  let n := nat_of_ascii c in
  ((9 <=? n)%nat && (n <=? 13)%nat) || (n =? 32)%nat || (n =? 160)%nat.

Fixpoint trimStart (s : string) : string :=
  match s with
  | EmptyString => EmptyString
  | String c s' => if isSpace c then trimStart s' else s
  end.

(** Drops trailing white space; the recursion keeps a character exactly
    when something other than white space follows it or it is not white
    space itself. *)
Fixpoint trimEnd (s : string) : string :=
  match s with
  | EmptyString => EmptyString
  | String c s' =>
      match trimEnd s' with
      | EmptyString => if isSpace c then EmptyString else String c EmptyString
      | t => String c t
      end
  end.

Definition trim (s : string) : string := trimEnd (trimStart s).

(** [s.split(sep)] for a separator given as a class of single characters:
    [split('\n')], [split('-')], [split(/[-_\s]/)]. *)
Fixpoint splitOn (sep : ascii -> bool) (s : string) : list string :=
  match s with
  | EmptyString => [EmptyString]
  | String c s' =>
      if sep c then EmptyString :: splitOn sep s'
      else match splitOn sep s' with
           | w :: ws => String c w :: ws
           | [] => [String c EmptyString]
           end
  end.

(** [s.replace(/pat/g, by)] for a literal, non-empty [pat]: occurrences are
    replaced left to right without overlap.  [skip] counts the characters
    of a matched occurrence still to drop. *)
Fixpoint replaceAllFrom (pat by_ : string) (skip : nat) (s : string) : string :=
  match s with
  | EmptyString => EmptyString
  | String c s' =>
      match skip with
      | S k => replaceAllFrom pat by_ k s'
      | O =>
          if String.prefix pat s
          then by_ ++ replaceAllFrom pat by_ (String.length pat - 1) s'
          else String c (replaceAllFrom pat by_ 0 s')
      end
  end.

Definition replaceAll (pat by_ s : string) : string := replaceAllFrom pat by_ 0 s.

(** [s.replace(pat, by)] with a string pattern: the first occurrence only. *)
Fixpoint replaceFirst (pat by_ s : string) : string :=
  if String.prefix pat s
  then by_ ++ String.substring (String.length pat) (String.length s) s
  else match s with
       | EmptyString => EmptyString
       | String c s' => String c (replaceFirst pat by_ s')
       end.

(** [Array.prototype.slice(0, e)]: a negative end counts from the back. *)
Definition slice0 {A} (l : list A) (e : Z) : list A :=
  if (e <? 0)%Z then firstn (Z.to_nat (Z.max (Z.of_nat (List.length l) + e) 0)) l
  else firstn (Z.to_nat e) l.

(** A count as a JavaScript number. *)
Definition num (n : nat) : float := PrimFloat.of_uint63 (Uint63.of_Z (Z.of_nat n)).

(** Template-literal rendering of a count. *)
Definition showNat (n : nat) : string := NilEmpty.string_of_uint (Nat.to_uint n).

End Js.

(** ** Edit distance *)

Section Levenshtein.

Definition indicator (c1 c2 : ascii) : nat := if Ascii.eqb c1 c2 then 0 else 1.

Definition min3 (a b c : nat) : nat := Nat.min (Nat.min a b) c.

(** The cells [matrix[j][1..]] of one row.  [diag] is [matrix[j-1][i-1]],
    [ups] the cells [matrix[j-1][i..]], [left] is [matrix[j][i-1]]. *)
Fixpoint rowCells (c2 : ascii) (str1 : list ascii) (diag : nat) (ups : list nat)
    (left : nat) : list nat :=
  match str1, ups with
  | c1 :: str1', up :: ups' =>
      let cell := min3 (left + 1) (up + 1) (diag + indicator c1 c2) in
      cell :: rowCells c2 str1' up ups' cell
  | _, _ => []
  end.

(** Row [j] from row [j-1]; [matrix[j][0] = j]. *)
Definition nextRow (c2 : ascii) (str1 : list ascii) (prev : list nat) (j : nat) : list nat :=
  match prev with
  | d0 :: ups => j :: rowCells c2 str1 d0 ups j
  | [] => []
  end.

(** Rows [j..] of the matrix, the last one returned. *)
Fixpoint fillRows (str1 str2 : list ascii) (prev : list nat) (j : nat) : list nat :=
  match str2 with
  | [] => prev
  | c2 :: str2' => fillRows str1 str2' (nextRow c2 str1 prev j) (S j)
  end.

(** [levenshteinDistance(str1, str2)]: row 0 is [0..str1.length]; the
    answer is the last cell of the last row. *)
Definition levenshteinDistance (str1 str2 : string) : nat :=
  let s1 := list_ascii_of_string str1 in
  let s2 := list_ascii_of_string str2 in
  last (fillRows s1 s2 (seq 0 (S (List.length s1))) 1) 0.

End Levenshtein.

(** ** Host built-ins

    The engine relies on three services of the JavaScript host whose
    behaviour is not part of the repository: the regular-expression engine,
    locale-aware string comparison and date parsing.  They are taken as an
    interface; every general theorem below holds for every host. *)

Class Host := {
  (** a compiled regular expression *)
  regex : Type;
  (** [new RegExp(source, 'i')]: [inl e] when the constructor throws, [e]
      being the error converted to a string *)
  RegExp_new : string -> string + regex;
  (** [regex.test(s)] *)
  RegExp_test : regex -> string -> bool;
  (** [a.localeCompare(b)] *)
  localeCompare : string -> string -> Z;
  (** [new Date(s).getTime()] *)
  Date_getTime : string -> float
}.

(** ** Data model *)

Module Resource.

(** [resource.metadata] of an object returned by the listing call. *)
Record metadata := {
  name : string;
  namespace : string;
  labels : option (list (string * string));
  annotations : option (list (string * string));
  creationTimestamp : string
}.

(** A listed object.  [fieldText path] stands for the dynamic lookup
    [getFieldValue(resource, path)]: [Some t] when the value found along the
    dotted path is truthy and [t] is its [toString()], [None] otherwise. *)
Record t := {
  meta : metadata;
  fieldText : string -> option string
}.

End Resource.

(** [interface SearchResult]. *)
Module Result.

Record t := {
  resource : Resource.t;
  resourceType : string;
  namespace : string;
  matchScore : float;
  matchReason : string;
  levenshteinDistance : nat
}.

Definition name (r : t) : string := Resource.name (Resource.meta (resource r)).

End Result.

(** [interface SearchConfig]. *)
Record SearchConfig := {
  maxDistance : nat;
  minScore : float
}.

(** The strategy object [{ type, selector }]; [type] stays a string, as a
    [searchMode] other than [auto] is passed through unchecked. *)
Record Strategy := {
  type : string;
  selector : string
}.

(** An entry of the local [matches] array: [{ score, reason, distance }]. *)
Record Match := {
  score : float;
  reason : string;
  distance : nat
}.

(** What a process or listing call gives back: it throws or it yields. *)
Inductive Exec (A : Type) :=
  | Throws (err : string)
  | Yields (out : A).
Arguments Throws {A} err.
Arguments Yields {A} out.

(** The listing collaborator for resources: the reply to the [n]-th call
    issued by one search, for a kind and a namespace.  [Throws] covers a
    failed command (also "No resources found") and unparsable output;
    [Yields items] is the parsed reply with its [items] property, if any. *)
Definition Listing := nat -> string -> string -> Exec (option (list Resource.t)).

(** ** Strategy selection *)

Definition determineSearchStrategy (query searchMode : string) : Strategy :=
  if negb (String.eqb searchMode "auto") then {| type := searchMode; selector := query |}
  else if Js.includes query "=" then
    if Js.includes query "metadata." || Js.includes query "status." || Js.includes query "spec."
    then {| type := "fields"; selector := query |}
    else {| type := "labels"; selector := query |}
  else if Js.includes query "*" || Js.includes query "?" then
    {| type := "exact"; selector := query |}
  else {| type := "fuzzy"; selector := query |}.

Definition getFuzzyConfig (tolerance : string) : SearchConfig :=
  if String.eqb tolerance "strict" then {| maxDistance := 1; minScore := 0.8 |}
  else if String.eqb tolerance "loose" then {| maxDistance := 4; minScore := 0.2 |}
  else {| maxDistance := 2; minScore := 0.4 |}.

(** ** Wildcard patterns *)

(** The source handed to [new RegExp(..., 'i')] for a wildcard pattern, the
    chain of four replacements that the file repeats for namespace patterns
    and for the [exact] strategy:
    [.replace(/\*/g, '.*').replace(/\?/g, '.').replace(/\./g, '\\.').replace(/\.\*/g, '.*')]. *)
Definition wildcardSource (pattern : string) : string :=
  Js.replaceAll ".*" ".*"
    (Js.replaceAll "." "\."
       (Js.replaceAll "?" "."
          (Js.replaceAll "*" ".*" pattern))).

(** ** Namespace resolution *)

Definition systemNamespaces : list string :=
  [ "kube-system"; "kube-public"; "kube-node-lease"; "default";
    "kubernetes-dashboard"; "ingress-nginx"; "cert-manager";
    "monitoring"; "logging"; "istio-system"; "linkerd" ].

Definition isNewline (c : ascii) : bool := Ascii.eqb c "010".

(** The names in the output of [kubectl get namespaces -o name]. *)
Definition parseNamespaces (stdout : string) : list string :=
  filter (fun ns => negb (String.eqb (Js.trim ns) ""))
    (map (fun line => Js.replaceFirst "namespace/" "" line)
       (Js.splitOn isNewline (Js.trim stdout))).

Definition isSystemNamespace (ns : string) : bool :=
  existsb (String.eqb ns) systemNamespaces
  || Js.startsWith ns "kube-" || Js.startsWith ns "openshift-".

(** [maxNamespaces ? l.slice(0, maxNamespaces) : l]. *)
Definition bounded (l : list string) (maxNamespaces : option Z) : list string :=
  match maxNamespaces with
  | Some m => if (m =? 0)%Z then l else Js.slice0 l m
  | None => l
  end.

Section Engine.

Context {H : Host}.

(** The [try] block of [getTargetNamespaces]: the cluster is asked for its
    namespaces, which are filtered.  [discovery] is what the listing command
    does when it is run.  An error thrown inside the block, by the command
    or by the regular-expression constructor, is caught and thrown again
    under the message "Failed to get namespaces". *)
Definition discoverNamespaces (discovery : Exec string) (namespacePattern : option string)
    (excludeSystemNamespaces : bool) (maxNamespaces : option Z) : string + list string :=
  match discovery with
  | Throws error => inl ("Failed to get namespaces: " ++ error)
  | Yields stdout =>
      let allNamespaces := parseNamespaces stdout in
      let allNamespaces :=
        if excludeSystemNamespaces
        then filter (fun ns => negb (isSystemNamespace ns)) allNamespaces
        else allNamespaces in
      match namespacePattern with
      | Some (String c p) =>
          match RegExp_new (wildcardSource (String c p)) with
          | inl error => inl ("Failed to get namespaces: " ++ error)
          | inr re => inr (bounded (filter (RegExp_test re) allNamespaces) maxNamespaces)
          end
      | _ => inr (bounded allNamespaces maxNamespaces)
      end
  end.

(** [getTargetNamespaces]: [inl msg] when it throws [new Error(msg)]. *)
Definition getTargetNamespaces (discovery : Exec string)
    (namespaces : option (list string)) (namespacePattern : option string)
    (excludeSystemNamespaces : bool) (query : option string)
    (maxNamespaces : option Z) : string + list string :=
  match namespaces with
  | Some (n :: ns) => inr (bounded (n :: ns) maxNamespaces)
  | _ => discoverNamespaces discovery namespacePattern excludeSystemNamespaces maxNamespaces
  end.

End Engine.

(** ** Matching *)

Section Matching.

Context {H : Host}.

Definition isDash (c : ascii) : bool := Ascii.eqb c "-".

(** The separator class of [split(/[-_\s]/)]. *)
Definition isWordBreak (c : ascii) : bool :=
  Ascii.eqb c "-" || Ascii.eqb c "_" || Js.isSpace c.

Definition lengthAtLeast {A} (l : list A) (bound : Z) : bool :=
  (bound <=? Z.of_nat (List.length l))%Z.

(** [quickScanResources]: the loop over [resources], its accumulator
    [results] and the [break] at [maxResults]. *)
Fixpoint quickScanLoop (resources : list Resource.t) (resourceType namespace queryLower : string)
    (maxResults : Z) (results : list Result.t) : list Result.t :=
  match resources with
  | [] => results
  | resource :: rest =>
      if lengthAtLeast results maxResults then results
      else
        let resourceName := Js.toLowerCase (Resource.name (Resource.meta resource)) in
        if Js.includes resourceName queryLower
        then quickScanLoop rest resourceType namespace queryLower maxResults
               (results ++ [ {| Result.resource := resource;
                                Result.resourceType := resourceType;
                                Result.namespace := namespace;
                                Result.matchScore := 1.0;
                                Result.matchReason := "exact substring match in name";
                                Result.levenshteinDistance := 0 |} ])%list
        else quickScanLoop rest resourceType namespace queryLower maxResults results
  end.

Definition quickScanResources (resources : list Resource.t)
    (resourceType namespace queryLower : string) (maxResults : Z) : list Result.t :=
  quickScanLoop resources resourceType namespace queryLower maxResults [].

(** The loop over [Object.entries(labels)] with its [break]: the first
    label whose lower-cased [key=value] text contains the query. *)
Fixpoint labelMatches (entries : list (string * string)) (queryLower : string)
    (labelScore : float) : list Match :=
  match entries with
  | [] => []
  | (key, value) :: rest =>
      if Js.includes (Js.toLowerCase (key ++ "=" ++ value)) queryLower
      then [ {| score := labelScore;
                reason := "label match (" ++ key ++ "=" ++ value ++ ")";
                distance := 0 |} ]
      else labelMatches rest queryLower labelScore
  end.

Definition absDiff (a b : nat) : nat := (a - b) + (b - a).

(** The unscaled relevance [1 - distance / Math.max(|query|, |name|)]. *)
Definition rawScore (d : nat) (queryLower resourceName : string) : float :=
  (1 - Js.num d / Js.num (Nat.max (String.length queryLower) (String.length resourceName)))%float.

(** Edit-distance rule of the fuzzy branch, with its length pre-check. *)
Definition editDistanceMatches (searchConfig : SearchConfig)
    (queryLower resourceName : string) : list Match :=
  let lengthDiff := absDiff (String.length queryLower) (String.length resourceName) in
  if (lengthDiff <=? maxDistance searchConfig)%nat then
    let d := levenshteinDistance queryLower resourceName in
    if (d <=? maxDistance searchConfig)%nat then
      let s := rawScore d queryLower resourceName in
      if (minScore searchConfig <=? s)%float then
        [ {| score := (s * 0.9)%float;
             reason := "fuzzy name match (distance: " ++ Js.showNat d ++ ")";
             distance := d |} ]
      else []
    else []
  else [].

(** Word-boundary rule: the first word that contains the query. *)
Definition wordBoundaryMatches (queryLower resourceName : string) : list Match :=
  if existsb (fun word => Js.includes word queryLower) (Js.splitOn isWordBreak resourceName)
  then [ {| score := 0.8; reason := "word boundary match in name"; distance := 0 |} ]
  else [].

(** [words.map(w => w[0]).join('')]: an empty word contributes nothing. *)
Definition acronymOf (words : list string) : string :=
  String.concat ""
    (map (fun w => match w with
                   | EmptyString => EmptyString
                   | String c _ => String c EmptyString
                   end) words).

Definition acronymMatches (queryLower resourceName : string) : list Match :=
  let words := Js.splitOn isDash resourceName in
  if (1 <? List.length words)%nat && Js.includes (acronymOf words) queryLower
  then [ {| score := 0.6; reason := "acronym match"; distance := 0 |} ]
  else [].

Definition isEmpty {A} (l : list A) : bool :=
  match l with [] => true | _ => false end.

(** The fuzzy branch: each later rule runs only while [matches] is empty. *)
Definition fuzzyMatches (resource : Resource.t) (queryLower : string)
    (searchConfig : SearchConfig) (includeLabels : bool) : list Match :=
  let resourceName := Js.toLowerCase (Resource.name (Resource.meta resource)) in
  let matches := editDistanceMatches searchConfig queryLower resourceName in
  let matches :=
    if isEmpty matches && (Js.includes resourceName "-" || Js.includes resourceName "_")
    then (matches ++ wordBoundaryMatches queryLower resourceName)%list else matches in
  let matches :=
    if isEmpty matches && Js.includes resourceName "-" && (String.length queryLower <=? 4)%nat
    then (matches ++ acronymMatches queryLower resourceName)%list else matches in
  let matches :=
    if isEmpty matches && includeLabels
    then match Resource.labels (Resource.meta resource) with
         | Some entries => (matches ++ labelMatches entries queryLower 0.7)%list
         | None => matches
         end
    else matches in
  matches.

(** The body of the loop of [deepSearchResources] up to "Get the best
    match": the [matches] of one resource, or the error thrown by the
    regular-expression constructor. *)
Definition resourceMatches (resource : Resource.t) (queryLower : string)
    (strategy : Strategy) (searchConfig : SearchConfig) (includeLabels : bool)
    : string + list Match :=
  let resourceName := Js.toLowerCase (Resource.name (Resource.meta resource)) in
  if String.eqb (type strategy) "labels" then
    match Resource.labels (Resource.meta resource) with
    | Some entries => inr (labelMatches entries queryLower 1.0)
    | None => inr []
    end
  else if String.eqb (type strategy) "fields" then
    match Resource.fieldText resource (selector strategy) with
    | Some text =>
        if Js.includes (Js.toLowerCase text) queryLower
        then inr [ {| score := 1.0;
                      reason := "field match (" ++ selector strategy ++ ")";
                      distance := 0 |} ]
        else inr []
    | None => inr []
    end
  else if String.eqb (type strategy) "exact" then
    match RegExp_new (wildcardSource (selector strategy)) with
    | inl error => inl error
    | inr re =>
        if RegExp_test re resourceName
        then inr [ {| score := 1.0; reason := "exact pattern match"; distance := 0 |} ]
        else inr []
    end
  else inr (fuzzyMatches resource queryLower searchConfig includeLabels).

(** [matches.reduce((best, current) => current.score > best.score ? current : best)]. *)
Definition bestOf (first : Match) (others : list Match) : Match :=
  fold_left (fun best current => if (score best <? score current)%float then current else best)
    others first.

(** [deepSearchResources]: the loop, its accumulator and its [break];
    [inl] when the loop body throws. *)
Fixpoint deepSearchLoop (resources : list Resource.t) (resourceType namespace queryLower : string)
    (strategy : Strategy) (searchConfig : SearchConfig) (includeLabels : bool)
    (maxResults : Z) (results : list Result.t) : string + list Result.t :=
  match resources with
  | [] => inr results
  | resource :: rest =>
      if lengthAtLeast results maxResults then inr results
      else
        match resourceMatches resource queryLower strategy searchConfig includeLabels with
        | inl error => inl error
        | inr [] =>
            deepSearchLoop rest resourceType namespace queryLower strategy searchConfig
              includeLabels maxResults results
        | inr (m :: ms) =>
            let bestMatch := bestOf m ms in
            deepSearchLoop rest resourceType namespace queryLower strategy searchConfig
              includeLabels maxResults
              (results ++ [ {| Result.resource := resource;
                               Result.resourceType := resourceType;
                               Result.namespace := namespace;
                               Result.matchScore := score bestMatch;
                               Result.matchReason := reason bestMatch;
                               Result.levenshteinDistance := distance bestMatch |} ])%list
        end
  end.

Definition deepSearchResources (resources : list Resource.t)
    (resourceType namespace query : string) (strategy : Strategy)
    (searchConfig : SearchConfig) (includeLabels includeAnnotations : bool)
    (maxResults : Z) : string + list Result.t :=
  deepSearchLoop resources resourceType namespace (Js.toLowerCase query) strategy
    searchConfig includeLabels maxResults [].

End Matching.

(** ** Prioritisation and sorting *)

(** [Array.prototype.sort(compare)], a stable sort; [after a b] is
    [compare(a, b) > 0], the case in which [a] has to come after [b]. *)
Section Sort.

Context {A : Type} (after : A -> A -> bool).

Fixpoint insertSorted (x : A) (l : list A) : list A :=
  match l with
  | [] => [x]
  | y :: l' => if after x y then y :: insertSorted x l' else x :: y :: l'
  end.

Fixpoint sortBy (l : list A) : list A :=
  match l with
  | [] => []
  | x :: l' => insertSorted x (sortBy l')
  end.

End Sort.

Definition prioritizeNamespaces (namespaces : list string) (query : string) : list string :=
  let queryLower := Js.toLowerCase query in
  let hinted (token namespaceLower : string) :=
    Js.includes queryLower token && Js.includes namespaceLower token in
  let isPrioritized (namespace : string) :=
    let namespaceLower := Js.toLowerCase namespace in
    Js.includes namespaceLower queryLower
    || (hinted "dev" namespaceLower || hinted "prod" namespaceLower
        || hinted "test" namespaceLower || hinted "demo" namespaceLower) in
  (filter isPrioritized namespaces ++ filter (fun ns => negb (isPrioritized ns)) namespaces)%list.

(** The [priority] object and an assignment [priority[key] = value].  A key
    holds a number once one was assigned to it; a key never assigned reads
    as [undefined] or as a member inherited from [Object.prototype], none
    of them a number: [None].  The key [__proto__] is the accessor of
    [Object.prototype]: assigning a number to it creates no property, so
    it never holds one. *)
Definition setPriority (key : string) (value : Z) (priority : string -> option Z)
    : string -> option Z :=
  fun k =>
    if String.eqb key "__proto__" then priority k
    else if String.eqb k key then Some value else priority k.

(** [resourceTypes.forEach((rt, index) => { priority[rt] = index })]. *)
Fixpoint defaultPriorities (resourceTypes : list string) (index : Z)
    (priority : string -> option Z) : string -> option Z :=
  match resourceTypes with
  | [] => priority
  | rt :: rest => defaultPriorities rest (index + 1) (setPriority rt index priority)
  end.

(** The comparator [(a, b) => priority[a] - priority[b]]; [None] is [NaN]. *)
Definition comparePriority (priority : string -> option Z) (a b : string) : option Z :=
  match priority a, priority b with
  | Some x, Some y => Some (x - y)%Z
  | _, _ => None
  end.

(** Whether [sort] has to put [a] after [b]: the comparator gives a
    positive number; [sort] takes [NaN] for 0. *)
Definition priorityAfter (priority : string -> option Z) (a b : string) : bool :=
  match comparePriority priority a b with
  | Some d => (0 <? d)%Z
  | None => false
  end.

(** With [__proto__] among the resource types the comparator is not a
    consistent one, and the language leaves the order of the result to the
    implementation; the order of [sortBy] is then one possible result. *)
Definition prioritizeResourceTypes (resourceTypes : list string) (query : string) : list string :=
  let queryLower := Js.toLowerCase query in
  let priority := defaultPriorities resourceTypes 0 (fun _ => None) in
  let priority :=
    if Js.includes queryLower "pod" || Js.includes queryLower "container"
    then setPriority "pods" (-10) priority else priority in
  let priority :=
    if Js.includes queryLower "service" || Js.includes queryLower "svc"
    then setPriority "services" (-9) priority else priority in
  let priority :=
    if Js.includes queryLower "deploy" || Js.includes queryLower "app"
    then setPriority "deployments" (-8) priority else priority in
  let priority :=
    if Js.includes queryLower "job"
    then setPriority "cronjobs" (-6) (setPriority "jobs" (-7) priority) else priority in
  sortBy (priorityAfter priority) resourceTypes.

Section Search.

Context {H : Host}.

Definition sortResults (results : list Result.t) (sortKey : string) : list Result.t :=
  if String.eqb sortKey "name" then
    sortBy (fun a b => (0 <? localeCompare (Result.name a) (Result.name b))%Z) results
  else if String.eqb sortKey "age" then
    sortBy (fun a b =>
              let ageA := Date_getTime (Resource.creationTimestamp (Resource.meta (Result.resource a))) in
              let ageB := Date_getTime (Resource.creationTimestamp (Resource.meta (Result.resource b))) in
              (0 <? ageB - ageA)%float) results
  else if String.eqb sortKey "namespace" then
    sortBy (fun a b => (0 <? localeCompare (Result.namespace a) (Result.namespace b))%Z) results
  else
    sortBy (fun a b => (0 <? Result.matchScore b - Result.matchScore a)%float) results.

(** ** Retrieval and the streaming search *)

(** [getResourcesWithPreFilter]: any failure degrades to an empty list,
    and so does a reply without [items]. *)
Definition getResourcesWithPreFilter (reply : Exec (option (list Resource.t))) : list Resource.t :=
  match reply with
  | Throws _ => []
  | Yields (Some items) => items
  | Yields None => []
  end.

(** The search parameters that stay fixed during one [streamingSearch]. *)
Record Params := {
  p_query : string;
  p_strategy : Strategy;
  p_searchConfig : SearchConfig;
  p_includeLabels : bool;
  p_includeAnnotations : bool;
  p_recent : bool;
  p_limit : Z
}.

(** The body of [batch.map(async (namespace) => ...)]: what one namespace
    contributes for one kind.  [found] is [results.length], which does not
    change while a batch is in flight.  The [catch] turns an error thrown
    by the deep scan into an empty contribution. *)
Definition namespaceResults (p : Params) (resourceType namespace : string)
    (resources : list Resource.t) (found : nat) : list Result.t :=
  if (List.length resources =? 0)%nat then []
  else
    let quickMatches :=
      quickScanResources resources resourceType namespace (Js.toLowerCase (p_query p))
        (Z.min 10 (p_limit p - Z.of_nat found)) in
    if (List.length quickMatches <? 5)%nat
       && (List.length quickMatches <? List.length resources)%nat
    then
      let remainingResources :=
        filter (fun r => negb (existsb (fun qm => String.eqb (Result.name qm)
                                                   (Resource.name (Resource.meta r)))
                                 quickMatches)) resources in
      match deepSearchResources remainingResources resourceType namespace (p_query p)
              (p_strategy p) (p_searchConfig p) (p_includeLabels p) (p_includeAnnotations p)
              (Z.min 3 (p_limit p - Z.of_nat found - Z.of_nat (List.length quickMatches))) with
      | inr deepMatches => (quickMatches ++ deepMatches)%list
      | inl _ => []
      end
    else quickMatches.

(** One batch: the listing calls are numbered in the order of the batch. *)
Fixpoint batchResults (listing : Listing) (p : Params) (resourceType : string)
    (batch : list string) (found calls : nat) : list (list Result.t) :=
  match batch with
  | [] => []
  | namespace :: rest =>
      namespaceResults p resourceType namespace
        (getResourcesWithPreFilter (listing calls resourceType namespace)) found
      :: batchResults listing p resourceType rest found (S calls)
  end.

(** "Flatten and add results", with its [break]. *)
Fixpoint mergeBatch (limit : Z) (perNamespace : list (list Result.t))
    (results : list Result.t) : list Result.t :=
  match perNamespace with
  | [] => results
  | namespaceResults :: rest =>
      let results := (results ++ namespaceResults)%list in
      if lengthAtLeast results limit then results else mergeBatch limit rest results
  end.

(** [for (let i = 0; i < l.length; i += size) ... l.slice(i, i + size)]. *)
Fixpoint batchesUpTo (steps size : nat) (l : list string) : list (list string) :=
  match steps, l with
  | S steps', _ :: _ => firstn size l :: batchesUpTo steps' size (skipn size l)
  | _, _ => []
  end.

Definition batchSize : nat := 50.

Definition batchesOf (l : list string) : list (list string) :=
  batchesUpTo (List.length l) batchSize l.

(** The loop over batches; the state is the accumulator and the number of
    listing calls issued so far. *)
Fixpoint batchLoop (listing : Listing) (p : Params) (resourceType : string)
    (batches : list (list string)) (state : list Result.t * nat) : list Result.t * nat :=
  match batches with
  | [] => state
  | batch :: rest =>
      let (results, calls) := state in
      if lengthAtLeast results (p_limit p) then state
      else
        let results :=
          mergeBatch (p_limit p)
            (batchResults listing p resourceType batch (List.length results) calls) results in
        let state := (results, (calls + List.length batch)%nat) in
        if lengthAtLeast results (p_limit p) then state
        else batchLoop listing p resourceType rest state
  end.

(** The loop over resource types. *)
Fixpoint typeLoop (listing : Listing) (p : Params) (resourceTypes : list string)
    (namespaces : list string) (state : list Result.t * nat) : list Result.t * nat :=
  match resourceTypes with
  | [] => state
  | resourceType :: rest =>
      if lengthAtLeast (fst state) (p_limit p) then state
      else
        let state := batchLoop listing p resourceType (batchesOf namespaces) state in
        if lengthAtLeast (fst state) (p_limit p) then state
        else typeLoop listing p rest namespaces state
  end.

Definition streamingSearch (listing : Listing) (resourceTypes namespaces : list string)
    (p : Params) : list Result.t :=
  let prioritizedNamespaces := prioritizeNamespaces namespaces (p_query p) in
  let prioritizedResourceTypes := prioritizeResourceTypes resourceTypes (p_query p) in
  let results := fst (typeLoop listing p prioritizedResourceTypes prioritizedNamespaces ([], 0%nat)) in
  Js.slice0 results (p_limit p).

(** ** The search command *)

(** The [input] object; an absent optional property is [None]. *)
Record Input := {
  query : string;
  resourceTypes : option (list string);
  namespaces : option (list string);
  namespacePattern : option string;
  excludeSystemNamespaces : option bool;
  searchMode : option string;
  fuzzyTolerance : option string;
  limit : option Z;
  includeLabels : option bool;
  includeAnnotations : option bool;
  sortKey : option string;
  output : option string;
  recent : option bool
}.

Definition orDefault {A} (o : option A) (d : A) : A :=
  match o with Some a => a | None => d end.

(** How [kubectlUnifiedSearch] ends: it throws [new Error(message)], or it
    returns the rendering of a result list; the list and the search-type
    label handed to [formatSearchResults] stand for that rendering. *)
Inductive Outcome :=
  | Threw (message : string)
  | Returned (results : list Result.t) (searchType : string).

Definition isBlank (s : string) : bool := (String.length (Js.trim s) =? 0)%nat.

Definition kubectlUnifiedSearch (discovery : Exec string) (listing : Listing)
    (input : Input) : Outcome :=
  if isBlank (query input) then Threw "Search query cannot be empty"
  else
    match getTargetNamespaces discovery (namespaces input) (namespacePattern input)
            (orDefault (excludeSystemNamespaces input) false) (Some (query input)) None with
    | inl message => Threw ("Search failed: " ++ message)
    | inr targetNamespaces =>
        if (List.length targetNamespaces =? 0)%nat
        then Returned [] "No namespaces to search"
        else
          let strategy := determineSearchStrategy (query input) (orDefault (searchMode input) "auto") in
          let searchConfig := getFuzzyConfig (orDefault (fuzzyTolerance input) "moderate") in
          let results :=
            streamingSearch listing
              (orDefault (resourceTypes input) ["pods"; "deployments"; "services"])
              targetNamespaces
              {| p_query := query input;
                 p_strategy := strategy;
                 p_searchConfig := searchConfig;
                 p_includeLabels := orDefault (includeLabels input) true;
                 p_includeAnnotations := orDefault (includeAnnotations input) false;
                 p_recent := orDefault (recent input) false;
                 p_limit := orDefault (limit input) 20%Z |} in
          Returned (sortResults results (orDefault (sortKey input) "relevance")) (type strategy)
    end.

End Search.

(** ** A regular-expression engine for the wildcard fragment

    The sources that [wildcardSource] produces from patterns made of
    ordinary characters, [*], [?] and [.] use only: an ordinary character,
    an escaped character, the dot, and a star after one of these.  This is
    the ECMAScript semantics of that fragment under the [i] flag, used to
    evaluate the engine on concrete patterns. *)

Module MiniRegExp.

Inductive atom :=
  | Lit (c : ascii)
  | AnyChar.

Record piece := {
  what : atom;
  starred : bool
}.

(** Characters with a syntactic role when they are not escaped. *)
Definition isSyntax (c : ascii) : bool :=
  existsb (Ascii.eqb c)
    (list_ascii_of_string "^$\.*+?()[]{}|").

(** Reads one atom at the head of the source, if the head is in the
    fragment. *)
Definition readAtom (src : list ascii) : option (atom * list ascii) :=
  match src with
  | [] => None
  | c :: rest =>
      if Ascii.eqb c "\" then
        match rest with
        | e :: rest' => if isSyntax e then Some (Lit e, rest') else None
        | [] => None
        end
      else if Ascii.eqb c "." then Some (AnyChar, rest)
      else if isSyntax c then None
      else Some (Lit c, rest)
  end.

Fixpoint parseUpTo (steps : nat) (src : list ascii) : option (list piece) :=
  match src with
  | [] => Some []
  | _ =>
      match steps with
      | O => None
      | S steps' =>
          match readAtom src with
          | None => None
          | Some (a, rest) =>
              let (st, rest) :=
                match rest with
                | q :: rest' => if Ascii.eqb q "*" then (true, rest') else (false, rest)
                | [] => (false, rest)
                end in
              match parseUpTo steps' rest with
              | Some ps => Some ({| what := a; starred := st |} :: ps)
              | None => None
              end
          end
      end
  end.

(** The pieces of a source of the fragment; [None] outside it. *)
Definition compile (src : string) : option (list piece) :=
  parseUpTo (String.length src) (list_ascii_of_string src).

Definition isLineTerminator (c : ascii) : bool :=
  Ascii.eqb c "010" || Ascii.eqb c "013".

(** One character against one atom, ignoring case. *)
Definition accepts (a : atom) (c : ascii) : bool :=
  match a with
  | Lit l => Ascii.eqb (Js.lowerUnit l) (Js.lowerUnit c)
  | AnyChar => negb (isLineTerminator c)
  end.

(** The pieces match a prefix of the text. *)
Fixpoint matchHere (re : list piece) (text : list ascii) : bool :=
  match re with
  | [] => true
  | p :: re' =>
      if starred p then
        (fix star (text : list ascii) : bool :=
           matchHere re' text
           || match text with
              | c :: text' => accepts (what p) c && star text'
              | [] => false
              end) text
      else
        match text with
        | c :: text' => accepts (what p) c && matchHere re' text'
        | [] => false
        end
  end.

(** The pieces match somewhere in the text: the expression is not anchored. *)
Fixpoint matchAnywhere (re : list piece) (text : list ascii) : bool :=
  matchHere re text
  || match text with
     | _ :: text' => matchAnywhere re text'
     | [] => false
     end.

Definition test (re : list piece) (s : string) : bool :=
  matchAnywhere re (list_ascii_of_string s).

(** Comparison by code units, standing in for the locale's collation. *)
Definition codeUnitCompare (a b : string) : Z :=
  match String.compare a b with
  | Lt => (-1)%Z
  | Eq => 0%Z
  | Gt => 1%Z
  end.

(** A host for evaluating the engine on concrete inputs: the fragment
    engine above, code-unit comparison, and no parsable date.  A source
    outside the fragment is reported as a construction error. *)
Definition host : Host := {|
  regex := list piece;
  RegExp_new := fun src =>
    match compile src with
    | Some re => inr re
    | None => inl "SyntaxError: Invalid regular expression"
    end;
  RegExp_test := test;
  localeCompare := codeUnitCompare;
  Date_getTime := fun _ => PrimFloat.nan
|}.

End MiniRegExp.

(** ** The translation the specification describes *)

(** Modelled on the specification's wording, for comparison with
    [wildcardSource]: literal dots are escaped, every [*] becomes [.*] and
    every [?] becomes [.]. *)
Fixpoint specWildcardSource (pattern : string) : string :=
  match pattern with
  | EmptyString => EmptyString
  | String c rest =>
      (if Ascii.eqb c "*" then ".*"
       else if Ascii.eqb c "?" then "."
       else if Ascii.eqb c "." then "\."
       else String c EmptyString) ++ specWildcardSource rest
  end.

(** ** The translation the code performs, character by character *)

(** Each character of [s] replaced by the string [f] gives for it. *)
Fixpoint perChar (f : ascii -> string) (s : string) : string :=
  match s with
  | EmptyString => EmptyString
  | String c rest => f c ++ perChar f rest
  end.

(** What the four replacements of [wildcardSource] make of one character
    of the pattern (see [wildcardSource_chars]). *)
Definition wildcardChar (c : ascii) : string :=
  if Ascii.eqb c "*" then "\.*"
  else if Ascii.eqb c "?" then "\."
  else if Ascii.eqb c "." then "\."
  else String c EmptyString.

(** ** Edit distance by its recurrence

    [lev a b] is the edit distance between [a] and [b] read from their
    heads; the matrix of [levenshteinDistance] holds these values for the
    reversed prefixes of its arguments. *)

Fixpoint lev (a b : list ascii) : nat :=
  match a with
  | [] => List.length b
  | x :: a' =>
      (fix levx (b : list ascii) : nat :=
         match b with
         | [] => S (List.length a')
         | y :: b' => min3 (lev a' b + 1) (levx b' + 1) (lev a' b' + indicator x y)
         end) b
  end.

(** The cells of a matrix row to the right of the column of [acc]: one per
    further character of [str1], against the fixed prefix [b] of [str2]. *)
Fixpoint rowTail (acc str1 b : list ascii) : list nat :=
  match str1 with
  | [] => []
  | c :: str1' => lev (c :: acc) b :: rowTail (c :: acc) str1' b
  end.

Definition rowOf (str1 b : list ascii) : list nat := lev [] b :: rowTail [] str1 b.

(** ** Failure recovery, as a transformation of the collaborator *)

(** The collaborator that answers with an empty list wherever [listing]
    fails, and as [listing] everywhere else. *)
Definition recovered (listing : Listing) : Listing :=
  fun call resourceType namespace =>
    match listing call resourceType namespace with
    | Throws _ => Yields (Some [])
    | reply => reply
    end.

(** Two collaborators that give the same candidate lists, call by call:
    the search sees a collaborator only through these. *)
Definition sameCandidates (l1 l2 : Listing) : Prop :=
  forall call resourceType namespace,
    getResourcesWithPreFilter (l1 call resourceType namespace)
    = getResourcesWithPreFilter (l2 call resourceType namespace).

(** ** Concrete inputs *)

Module Sample.

(** An object that has a name in namespace [default] and nothing else. *)
Definition named (n : string) : Resource.t := {|
  Resource.meta := {|
    Resource.name := n;
    Resource.namespace := "default";
    Resource.labels := None;
    Resource.annotations := None;
    Resource.creationTimestamp := "2024-05-01T10:00:00Z"
  |};
  Resource.fieldText := fun _ => None
|}.

Definition labelled (n : string) (ls : list (string * string)) : Resource.t := {|
  Resource.meta := {|
    Resource.name := n;
    Resource.namespace := "default";
    Resource.labels := Some ls;
    Resource.annotations := None;
    Resource.creationTimestamp := "2024-05-01T10:00:00Z"
  |};
  Resource.fieldText := fun _ => None
|}.

(** A result for [r], found among the pods of namespace [default]. *)
Definition pod (r : Resource.t) (s : float) (why : string) (d : nat) : Result.t := {|
  Result.resource := r;
  Result.resourceType := "pods";
  Result.namespace := "default";
  Result.matchScore := s;
  Result.matchReason := why;
  Result.levenshteinDistance := d
|}.

(** A cluster whose only objects are the pods [items] of namespace
    [default]; every other listing call fails. *)
Definition podsOf (items : list Resource.t) : Listing :=
  fun _ resourceType namespace =>
    if String.eqb resourceType "pods" && String.eqb namespace "default"
    then Yields (Some items)
    else Throws "Error: Command failed: No resources found".

(** A cluster in which listing the [jobs] of [ns1] throws, and in which
    every kind has one object, named [backup], in [ns2] and none elsewhere. *)
Definition jobsFailInNs1 : Listing :=
  fun _ resourceType namespace =>
    if String.eqb resourceType "jobs" && String.eqb namespace "ns1"
    then Throws "Error: Command failed: kubectl get jobs -n ns1 -o json"
    else if String.eqb namespace "ns2"
    then Yields (Some [ named "backup" ])
    else Yields (Some []).

(** The call [{ query, namespaces: ["default"] }], every other parameter
    left to its default. *)
Definition searchFor (q : string) : Input := {|
  query := q;
  resourceTypes := None;
  namespaces := Some [ "default" ];
  namespacePattern := None;
  excludeSystemNamespaces := None;
  searchMode := None;
  fuzzyTolerance := None;
  limit := None;
  includeLabels := None;
  includeAnnotations := None;
  sortKey := None;
  output := None;
  recent := None
|}.

Definition withLimit (l : Z) (i : Input) : Input := {|
  query := query i; resourceTypes := resourceTypes i; namespaces := namespaces i;
  namespacePattern := namespacePattern i;
  excludeSystemNamespaces := excludeSystemNamespaces i;
  searchMode := searchMode i; fuzzyTolerance := fuzzyTolerance i;
  limit := Some l;
  includeLabels := includeLabels i; includeAnnotations := includeAnnotations i;
  sortKey := sortKey i; output := output i; recent := recent i
|}.

Definition withMode (m : string) (i : Input) : Input := {|
  query := query i; resourceTypes := resourceTypes i; namespaces := namespaces i;
  namespacePattern := namespacePattern i;
  excludeSystemNamespaces := excludeSystemNamespaces i;
  searchMode := Some m; fuzzyTolerance := fuzzyTolerance i;
  limit := limit i;
  includeLabels := includeLabels i; includeAnnotations := includeAnnotations i;
  sortKey := sortKey i; output := output i; recent := recent i
|}.

Definition withNamespaces (ns : option (list string)) (i : Input) : Input := {|
  query := query i; resourceTypes := resourceTypes i; namespaces := ns;
  namespacePattern := namespacePattern i;
  excludeSystemNamespaces := excludeSystemNamespaces i;
  searchMode := searchMode i; fuzzyTolerance := fuzzyTolerance i;
  limit := limit i;
  includeLabels := includeLabels i; includeAnnotations := includeAnnotations i;
  sortKey := sortKey i; output := output i; recent := recent i
|}.

Definition withPattern (pat : string) (i : Input) : Input := {|
  query := query i; resourceTypes := resourceTypes i; namespaces := namespaces i;
  namespacePattern := Some pat;
  excludeSystemNamespaces := excludeSystemNamespaces i;
  searchMode := searchMode i; fuzzyTolerance := fuzzyTolerance i;
  limit := limit i;
  includeLabels := includeLabels i; includeAnnotations := includeAnnotations i;
  sortKey := sortKey i; output := output i; recent := recent i
|}.

Definition withTypes (ts : list string) (i : Input) : Input := {|
  query := query i; resourceTypes := Some ts; namespaces := namespaces i;
  namespacePattern := namespacePattern i;
  excludeSystemNamespaces := excludeSystemNamespaces i;
  searchMode := searchMode i; fuzzyTolerance := fuzzyTolerance i;
  limit := limit i;
  includeLabels := includeLabels i; includeAnnotations := includeAnnotations i;
  sortKey := sortKey i; output := output i; recent := recent i
|}.

End Sample.

(** ** Ages *)

(** Template-literal rendering of an integer; [-0] prints as [0]. *)
Definition showZ (z : Z) : string :=
  if (z <? 0)%Z then "-" ++ Js.showNat (Z.to_nat (- z)) else Js.showNat (Z.to_nat z).

(** [getResourceAge].  [now] and [created] are the [getTime()] values, in
    milliseconds, of the current instant and of the parsed creation time
    stamp.  [Math.floor(a / b)] is the floor division of [Z] and [%] the
    remainder with the sign of the dividend; the floating-point quotients
    agree with these as long as the two instants are less than 180 000
    years apart. *)
Definition getResourceAge (now created : Z) : string :=
  let diffMs := (now - created)%Z in
  let diffDays := (diffMs / (1000 * 60 * 60 * 24))%Z in
  let diffHours := (Z.rem diffMs (1000 * 60 * 60 * 24) / (1000 * 60 * 60))%Z in
  let diffMinutes := (Z.rem diffMs (1000 * 60 * 60) / (1000 * 60))%Z in
  if (0 <? diffDays)%Z then showZ diffDays ++ "d"
  else if (0 <? diffHours)%Z then showZ diffHours ++ "h"
  else showZ diffMinutes ++ "m".

(** ** Namespaces as resources *)

Section NamespaceSearch.

Context {H : Host}.

(** The [matches] of one namespace in [searchNamespaces]. *)
Definition namespaceMatches (queryLower namespace : string) (strategy : Strategy)
    (searchConfig : SearchConfig) : string + list Match :=
  let namespaceLower := Js.toLowerCase namespace in
  if String.eqb (type strategy) "fuzzy" then
    let matches :=
      if Js.includes namespaceLower queryLower
      then [ {| score := 1.0; reason := "exact substring match"; distance := 0 |} ]
      else [] in
    let d := levenshteinDistance queryLower namespaceLower in
    if (d <=? maxDistance searchConfig)%nat then
      let s := rawScore d queryLower namespaceLower in
      if (minScore searchConfig <=? s)%float
      then inr (matches ++ [ {| score := s;
                                reason := "fuzzy match (distance: " ++ Js.showNat d ++ ")";
                                distance := d |} ])%list
      else inr matches
    else inr matches
  else if String.eqb (type strategy) "exact" then
    match RegExp_new (wildcardSource (selector strategy)) with
    | inl error => inl error
    | inr re =>
        if RegExp_test re namespace
        then inr [ {| score := 1.0; reason := "pattern match"; distance := 0 |} ]
        else inr []
    end
  else inr [].

(** [searchNamespaces]; [now] is [new Date().toISOString()], read once per
    result.  [inl] when the regular-expression constructor throws. *)
Fixpoint searchNamespacesLoop (queryLower : string) (namespaces : list string)
    (strategy : Strategy) (searchConfig : SearchConfig) (now : string)
    (results : list Result.t) : string + list Result.t :=
  match namespaces with
  | [] => inr results
  | namespace :: rest =>
      match namespaceMatches queryLower namespace strategy searchConfig with
      | inl error => inl error
      | inr [] => searchNamespacesLoop queryLower rest strategy searchConfig now results
      | inr (m :: ms) =>
          let bestMatch := bestOf m ms in
          searchNamespacesLoop queryLower rest strategy searchConfig now
            (results ++ [ {| Result.resource :=
                               {| Resource.meta :=
                                    {| Resource.name := namespace;
                                       Resource.namespace := "";
                                       Resource.labels := None;
                                       Resource.annotations := None;
                                       Resource.creationTimestamp := now |};
                                  Resource.fieldText := fun _ => None |};
                             Result.resourceType := "namespace";
                             Result.namespace := namespace;
                             Result.matchScore := score bestMatch;
                             Result.matchReason := reason bestMatch;
                             Result.levenshteinDistance := distance bestMatch |} ])%list
      end
  end.

Definition searchNamespaces (query : string) (namespaces : list string)
    (strategy : Strategy) (searchConfig : SearchConfig) (now : string)
    : string + list Result.t :=
  searchNamespacesLoop (Js.toLowerCase query) namespaces strategy searchConfig now [].

End NamespaceSearch.

(** ** Reading integers *)

(** The value of a character as a digit in a radix up to 36. *)
Definition digitOf (radix : Z) (c : ascii) : option Z :=
  let n := Z.of_nat (nat_of_ascii c) in
  let v :=
    if ((48 <=? n) && (n <=? 57))%Z then Some (n - 48)%Z
    else if ((97 <=? n) && (n <=? 122))%Z then Some (n - 87)%Z
    else if ((65 <=? n) && (n <=? 90))%Z then Some (n - 55)%Z
    else None in
  match v with
  | Some d => if (d <? radix)%Z then Some d else None
  | None => None
  end.

(** The value of the longest prefix of digits, [acc] being the value read
    so far, if any digit was read. *)
Fixpoint readDigits (radix : Z) (s : string) (acc : option Z) : option Z :=
  match s with
  | EmptyString => acc
  | String c rest =>
      match digitOf radix c with
      | Some d =>
          readDigits radix rest
            (Some (match acc with Some a => a * radix + d | None => d end)%Z)
      | None => acc
      end
  end.

(** [parseInt(s)] without a radix: leading white space, a sign, the prefix
    [0x] or [0X] for base 16, then the longest run of digits; [None] is
    [NaN].  (Integers beyond 2^53 are not rounded.) *)
Definition parseInt (s : string) : option Z :=
  let s := Js.trimStart s in
  let signed :=
    match s with
    | String c rest =>
        if Ascii.eqb c "-" then ((-1)%Z, rest)
        else if Ascii.eqb c "+" then (1%Z, rest)
        else (1%Z, s)
    | EmptyString => (1%Z, s)
    end in
  let based :=
    match snd signed with
    | String z (String x rest) =>
        if Ascii.eqb z "0" && (Ascii.eqb x "x" || Ascii.eqb x "X") then (16%Z, rest)
        else (10%Z, snd signed)
    | _ => (10%Z, snd signed)
    end in
  option_map (Z.mul (fst signed)) (readDigits (fst based) (snd based) None).

(** [parseInt(s) || 0]. *)
Definition parseIntOr0 (s : string) : Z :=
  match parseInt s with Some z => z | None => 0%Z end.

(** ** The cluster overview *)

(** The entries of a [Map] keyed by strings, or the own properties of a
    plain object, in insertion order; [setKey] is [Map.prototype.set]. *)
Fixpoint setKey {V} (key : string) (value : V) (o : list (string * V)) : list (string * V) :=
  match o with
  | [] => [ (key, value) ]
  | (k, v) :: rest =>
      if String.eqb k key then (k, value) :: rest else (k, v) :: setKey key value rest
  end.

Fixpoint getKey {V} (key : string) (o : list (string * V)) : option V :=
  match o with
  | [] => None
  | (k, v) :: rest => if String.eqb k key then Some v else getKey key rest
  end.

(** An assignment [o[key] = value] of a number on a plain object: as
    [setKey], except that the key [__proto__] is the accessor of
    [Object.prototype], and a number assigned to it creates no property. *)
Definition setProperty (key : string) (value : Z) (o : list (string * Z)) : list (string * Z) :=
  if String.eqb key "__proto__" then o else setKey key value o.

(** [Object.values(o).reduce((sum, count) => sum + count, 0)]. *)
Definition sumValues (o : list (string * Z)) : Z :=
  fold_left (fun sum kv => (sum + snd kv)%Z) o 0%Z.

(** The counting collaborator: the output of the [n]-th counting command,
    for a kind and a namespace. *)
Definition Counting := nat -> string -> string -> Exec string.

(** [getResourceCount]: the count printed, 0 when the command fails or
    prints no number. *)
Definition getResourceCount (reply : Exec string) : Z :=
  match reply with
  | Throws _ => 0%Z
  | Yields result => parseIntOr0 (Js.trim result)
  end.

(** The per-namespace record [nsData]. *)
Record NsData := {
  ns_name : string;
  ns_resources : list (string * Z);
  ns_total : Z
}.

(** The [overview] object. *)
Record Overview := {
  totalNamespaces : nat;
  resourceCounts : list (string * Z);
  namespaceBreakdown : list (string * NsData)
}.

Section ClusterOverview.

Context {H : Host}.

(** [getFilteredNamespaces]: [inl msg] when it throws [new Error(msg)]. *)
Definition getFilteredNamespaces (discovery : Exec string) (namespacePattern : option string)
    (includeSystemNamespaces : bool) : string + list string :=
  match discovery with
  | Throws error => inl ("Failed to get namespaces: " ++ error)
  | Yields result =>
      let namespaces := parseNamespaces result in
      let namespaces :=
        if negb includeSystemNamespaces
        then filter (fun ns => negb (isSystemNamespace ns)) namespaces
        else namespaces in
      match namespacePattern with
      | Some (String c p) =>
          match RegExp_new (wildcardSource (String c p)) with
          | inl error => inl ("Failed to get namespaces: " ++ error)
          | inr re => inr (filter (RegExp_test re) namespaces)
          end
      | _ => inr namespaces
      end
  end.

(** The inner loop over the resource types for one namespace; the state is
    [overview.resourceCounts], [nsData.resources] and the number of
    counting commands run so far. *)
Fixpoint countTypes (counting : Counting) (namespace : string) (resourceTypes : list string)
    (state : list (string * Z) * list (string * Z) * nat)
    : list (string * Z) * list (string * Z) * nat :=
  match resourceTypes with
  | [] => state
  | resourceType :: rest =>
      let '(counts, resources, calls) := state in
      let count := getResourceCount (counting calls resourceType namespace) in
      let counts :=
        setProperty resourceType
          (match getKey resourceType counts with Some c => c | None => 0 end + count)%Z counts in
      countTypes counting namespace rest
        (counts, setProperty resourceType count resources, S calls)
  end.

(** The outer loop over the namespaces; the state is
    [overview.resourceCounts], [overview.namespaceBreakdown] and the number
    of counting commands run so far. *)
Fixpoint countNamespaces (counting : Counting) (resourceTypes namespaces : list string)
    (state : list (string * Z) * list (string * NsData) * nat)
    : list (string * Z) * list (string * NsData) * nat :=
  match namespaces with
  | [] => state
  | namespace :: rest =>
      let '(counts, breakdown, calls) := state in
      let '(counts, resources, calls) :=
        countTypes counting namespace resourceTypes (counts, [], calls) in
      let nsData := {| ns_name := namespace;
                       ns_resources := resources;
                       ns_total := sumValues resources |} in
      countNamespaces counting resourceTypes rest (counts, setKey namespace nsData breakdown, calls)
  end.

(** [resourceTypes.forEach(type => { overview.resourceCounts[type] = 0 })]. *)
Definition zeroCounts (resourceTypes : list string) : list (string * Z) :=
  fold_left (fun counts rt => setProperty rt 0%Z counts) resourceTypes [].

(** The namespaces [formatOverview] shows: the records of the breakdown by
    falling total, cut to [showTop]. *)
Definition topNamespaces (overview : Overview) (showTop : Z) : list NsData :=
  Js.slice0
    (sortBy (fun a b => (0 <? ns_total b - ns_total a)%Z) (map snd (namespaceBreakdown overview)))
    showTop.

(** [kubectlClusterOverview] up to the rendering: the [overview] it
    collects and the namespaces it shows, or the message of the error it
    throws. *)
Definition kubectlClusterOverview (discovery : Exec string) (counting : Counting)
    (includeSystemNamespaces : option bool) (namespacePattern : option string)
    (resourceTypes : option (list string)) (showTop : option Z)
    : string + Overview * list NsData :=
  match getFilteredNamespaces discovery namespacePattern
          (orDefault includeSystemNamespaces false) with
  | inl message => inl ("Cluster overview failed: " ++ message)
  | inr allNamespaces =>
      let types :=
        orDefault resourceTypes [ "pods"; "deployments"; "services"; "configmaps"; "secrets" ] in
      let '(counts, breakdown, _) :=
        countNamespaces counting types allNamespaces (zeroCounts types, [], 0) in
      let overview := {| totalNamespaces := List.length allNamespaces;
                         resourceCounts := counts;
                         namespaceBreakdown := breakdown |} in
      inr (overview, topNamespaces overview (orDefault showTop 10%Z))
  end.

End ClusterOverview.

(** The sum of the totals of the namespaces of a breakdown. *)
Definition sumTotals (breakdown : list (string * NsData)) : Z :=
  fold_left (fun sum kv => (sum + ns_total (snd kv))%Z) breakdown 0%Z.

(** ** Vocabulary of the further properties *)

(** A decimal digit, and a string of decimal digits only. *)
Definition isDecimalDigit (c : ascii) : bool :=
  (48 <=? nat_of_ascii c)%nat && (nat_of_ascii c <=? 57)%nat.

Fixpoint allDigits (s : string) : bool :=
  match s with
  | EmptyString => true
  | String c rest => isDecimalDigit c && allDigits rest
  end.


(** The result the quick scan builds for a candidate. *)
Definition quickResult (resourceType namespace : string) (resource : Resource.t) : Result.t := {|
  Result.resource := resource;
  Result.resourceType := resourceType;
  Result.namespace := namespace;
  Result.matchScore := 1.0;
  Result.matchReason := "exact substring match in name";
  Result.levenshteinDistance := 0
|}.

(** The lower-cased name of the candidate contains the lower-cased query. *)
Definition nameContains (queryLower : string) (resource : Resource.t) : bool :=
  Js.includes (Js.toLowerCase (Resource.name (Resource.meta resource))) queryLower.

(** The result is for one of the objects that some listing call returned
    for the kind and the namespace the result carries. *)
Definition listedBy (listing : Listing) (r : Result.t) : Prop :=
  exists call,
    In (Result.resource r)
      (getResourcesWithPreFilter (listing call (Result.resourceType r) (Result.namespace r))).

(** The reason the word-boundary rule gives. *)
Definition wordBoundaryReason : string := "word boundary match in name".

(** What [kubectl get namespaces -o name] prints for the namespaces
    [names]: one line [namespace/<name>] each. *)
Fixpoint namespaceLines (names : list string) : string :=
  match names with
  | [] => EmptyString
  | n :: rest => "namespace/" ++ n ++ String "010" (namespaceLines rest)
  end.

(** No character of the string is white space. *)
Fixpoint noSpace (s : string) : bool :=
  match s with
  | EmptyString => true
  | String c rest => negb (Js.isSpace c) && noSpace rest
  end.

(** * Properties *)

(** ** Strings *)

Lemma length_list_ascii (s : string) :
  List.length (list_ascii_of_string s) = String.length s.
Proof. induction s; simpl; congruence. Qed.

Lemma toLowerCase_length (s : string) : String.length (Js.toLowerCase s) = String.length s.
Proof. induction s; simpl; congruence. Qed.

Lemma slice0_length {A} (l : list A) (e : Z) :
  (0 <= e)%Z -> (Z.of_nat (List.length (Js.slice0 l e)) <= e)%Z.
Proof.
  intros He. unfold Js.slice0.
  destruct (Z.ltb_spec e 0); [lia|].
  rewrite length_firstn. lia.
Qed.

Lemma slice0_negative {A} (l : list A) (e : Z) :
  (e < 0)%Z -> List.length (Js.slice0 l e) = (List.length l - Z.to_nat (- e))%nat.
Proof.
  intros He. unfold Js.slice0.
  destruct (Z.ltb_spec e 0); [|lia].
  rewrite length_firstn. lia.
Qed.

(** ** Edit distance *)

Lemma lev_nil_r (a : list ascii) : lev a [] = List.length a.
Proof. destruct a; reflexivity. Qed.

Lemma lev_cons (x y : ascii) (a b : list ascii) :
  lev (x :: a) (y :: b) =
  min3 (lev a (y :: b) + 1) (lev (x :: a) b + 1) (lev a b + indicator x y).
Proof. reflexivity. Qed.

Lemma indicator_sym (x y : ascii) : indicator x y = indicator y x.
Proof. unfold indicator. rewrite Ascii.eqb_sym. reflexivity. Qed.

Lemma indicator_refl (x : ascii) : indicator x x = 0.
Proof. unfold indicator. rewrite Ascii.eqb_refl. reflexivity. Qed.

Lemma lev_sym (a b : list ascii) : lev a b = lev b a.
Proof.
  revert b. induction a as [|x a IHa]; intro b.
  - rewrite lev_nil_r. reflexivity.
  - induction b as [|y b IHb].
    + rewrite lev_nil_r. reflexivity.
    + rewrite !lev_cons, IHb, (IHa (y :: b)), (IHa b), (indicator_sym x y).
      unfold min3. lia.
Qed.

Lemma lev_refl (a : list ascii) : lev a a = 0.
Proof.
  induction a as [|x a IH]; [reflexivity|].
  rewrite lev_cons, IH, indicator_refl. unfold min3. lia.
Qed.

(** No sequence of edits is shorter than the difference of the lengths. *)
Lemma lev_length_diff (a b : list ascii) :
  absDiff (List.length a) (List.length b) <= lev a b.
Proof.
  unfold absDiff. revert b. induction a as [|x a IHa]; intro b.
  - simpl. lia.
  - induction b as [|y b IHb].
    + rewrite lev_nil_r. simpl. lia.
    + rewrite lev_cons. specialize (IHa (y :: b)) as H1. specialize (IHa b) as H2.
      unfold min3. simpl List.length in *. lia.
Qed.

(** One step of the inner loop computes the recurrence. *)
Lemma rowCells_rowTail (c2 : ascii) (str1 acc b : list ascii) :
  rowCells c2 str1 (lev acc b) (rowTail acc str1 b) (lev acc (c2 :: b))
  = rowTail acc str1 (c2 :: b).
Proof.
  revert acc. induction str1 as [|c str1 IH]; intro acc; [reflexivity|].
  cbn [rowTail rowCells]. rewrite IH. reflexivity.
Qed.

Lemma nextRow_rowOf (c2 : ascii) (str1 b : list ascii) :
  nextRow c2 str1 (rowOf str1 b) (S (List.length b)) = rowOf str1 (c2 :: b).
Proof.
  unfold nextRow, rowOf.
  change (S (List.length b)) with (lev [] (c2 :: b)) at 1.
  f_equal. change (List.length b) with (lev [] b) at 1.
  change (S (lev [] b)) with (lev [] (c2 :: b)).
  apply rowCells_rowTail.
Qed.

Lemma fillRows_rowOf (str1 str2 b : list ascii) :
  fillRows str1 str2 (rowOf str1 b) (S (List.length b)) = rowOf str1 (rev str2 ++ b)%list.
Proof.
  revert b. induction str2 as [|c2 str2 IH]; intro b; [reflexivity|].
  cbn [fillRows]. rewrite nextRow_rowOf.
  change (S (S (List.length b))) with (S (List.length (c2 :: b))).
  rewrite IH. cbn [rev]. rewrite <- app_assoc. reflexivity.
Qed.

Lemma rowTail_nil (acc str1 : list ascii) :
  rowTail acc str1 [] = seq (S (List.length acc)) (List.length str1).
Proof.
  revert acc. induction str1 as [|c str1 IH]; intro acc; [reflexivity|].
  cbn [rowTail List.length seq]. rewrite IH. reflexivity.
Qed.

Lemma firstRow_rowOf (str1 : list ascii) : seq 0 (S (List.length str1)) = rowOf str1 [].
Proof. unfold rowOf. rewrite rowTail_nil. reflexivity. Qed.

Lemma last_rowTail (acc str1 b : list ascii) :
  last (lev acc b :: rowTail acc str1 b) 0 = lev (rev str1 ++ acc)%list b.
Proof.
  revert acc. induction str1 as [|c str1 IH]; intro acc; [reflexivity|].
  cbn [rowTail rev]. rewrite <- app_assoc. cbn [app].
  rewrite <- IH. reflexivity.
Qed.

(** The matrix computes the recurrence, on the reversed arguments. *)
Lemma levenshteinDistance_lev (str1 str2 : string) :
  levenshteinDistance str1 str2
  = lev (rev (list_ascii_of_string str1)) (rev (list_ascii_of_string str2)).
Proof.
  unfold levenshteinDistance. cbv zeta.
  rewrite firstRow_rowOf.
  change 1 with (S (@List.length ascii [])).
  rewrite fillRows_rowOf. unfold rowOf. rewrite last_rowTail.
  rewrite !app_nil_r. reflexivity.
Qed.

Lemma levenshteinDistance_length_diff (a b : string) :
  absDiff (String.length a) (String.length b) <= levenshteinDistance a b.
Proof.
  rewrite levenshteinDistance_lev.
  rewrite <- (length_list_ascii a), <- (length_list_ascii b).
  rewrite <- (length_rev (list_ascii_of_string a)), <- (length_rev (list_ascii_of_string b)).
  apply lev_length_diff.
Qed.

(** C10. The distance of a string to itself is 0, the distance of the empty
    string to [s] is the length of [s], and the distance is symmetric. *)
Theorem levenshteinDistance_laws :
  (forall s : string, levenshteinDistance s s = 0)
  /\ (forall s : string, levenshteinDistance "" s = String.length s)
  /\ (forall a b : string, levenshteinDistance a b = levenshteinDistance b a).
Proof.
  split; [|split].
  - intro s. rewrite levenshteinDistance_lev. apply lev_refl.
  - intro s. rewrite levenshteinDistance_lev. cbn [list_ascii_of_string rev lev].
    rewrite length_rev. apply length_list_ascii.
  - intros a b. rewrite !levenshteinDistance_lev. apply lev_sym.
Qed.

(** ** The substring test *)

Lemma prefix_iff (p s : string) :
  String.prefix p s = true <-> exists rest, s = p ++ rest.
Proof.
  revert s. induction p as [|a p IH]; intro s.
  - destruct s; simpl; split; eauto.
  - destruct s as [|b s]; simpl.
    + split; [discriminate|]. intros [rest Hr]. discriminate.
    + destruct (ascii_dec a b) as [->|Hab].
      * rewrite IH. split; intros [rest Hr]; exists rest; [subst|injection Hr]; auto.
      * split; [discriminate|]. intros [rest Hr]. injection Hr. intros _ E. congruence.
Qed.

(** [includes s sub] holds exactly when [sub] occurs in [s]. *)
Lemma includes_iff (s sub : string) :
  Js.includes s sub = true <-> exists before rest, s = before ++ sub ++ rest.
Proof.
  induction s as [|c s IH]; cbn [Js.includes].
  - rewrite orb_false_r, prefix_iff. split.
    + intros [rest Hr]. exists "", rest. exact Hr.
    + intros [before [rest Hr]]. destruct before; [eauto|discriminate].
  - rewrite orb_true_iff, prefix_iff, IH. split.
    + intros [[rest Hr]|[before [rest Hr]]].
      * exists "", rest. exact Hr.
      * exists (String c before), rest. simpl. congruence.
    + intros [[|b before] [rest Hr]].
      * left. exists rest. exact Hr.
      * right. exists before, rest. simpl in Hr. congruence.
Qed.

(** ** Strategy selection *)

(** C6. With search mode [auto]: a query with [=] and one of [metadata.],
    [status.], [spec.] is searched by fields; a query with [=] and none of
    them by labels; a query with [*] or [?] and no [=] by pattern; any other
    query fuzzily.  The selector is the query in every case. *)
Theorem determineSearchStrategy_auto (q : string) :
  let s := determineSearchStrategy q "auto" in
  let pathLike :=
    Js.includes q "metadata." || Js.includes q "status." || Js.includes q "spec." in
  (Js.includes q "=" = true -> pathLike = true -> type s = "fields")
  /\ (Js.includes q "=" = true -> pathLike = false -> type s = "labels")
  /\ (Js.includes q "=" = false -> Js.includes q "*" || Js.includes q "?" = true ->
      type s = "exact")
  /\ (Js.includes q "=" = false -> Js.includes q "*" = false -> Js.includes q "?" = false ->
      type s = "fuzzy")
  /\ selector s = q.
Proof.
  cbv zeta. unfold determineSearchStrategy. cbn [String.eqb negb].
  change (String.eqb "auto" "auto") with true. cbn [negb].
  destruct (Js.includes q "=");
    destruct (Js.includes q "metadata." || Js.includes q "status." || Js.includes q "spec.");
    destruct (Js.includes q "*"); destruct (Js.includes q "?");
    cbn; repeat split; intros; congruence.
Qed.

(** The four cases of [determineSearchStrategy_auto] on four queries. *)
Lemma determineSearchStrategy_auto_witness :
  type (determineSearchStrategy "status.phase=Running" "auto") = "fields"
  /\ type (determineSearchStrategy "env=prod" "auto") = "labels"
  /\ type (determineSearchStrategy "web-*" "auto") = "exact"
  /\ type (determineSearchStrategy "webapp" "auto") = "fuzzy".
Proof.
  split; [|split; [|split]].
  - apply (determineSearchStrategy_auto "status.phase=Running"); reflexivity.
  - apply (determineSearchStrategy_auto "env=prod"); reflexivity.
  - apply (determineSearchStrategy_auto "web-*"); reflexivity.
  - apply (determineSearchStrategy_auto "webapp"); reflexivity.
Defined.

(** A mode other than [auto] is taken as given. *)
Lemma determineSearchStrategy_override (q mode : string) :
  mode <> "auto" -> determineSearchStrategy q mode = {| type := mode; selector := q |}.
Proof.
  intro Hm. unfold determineSearchStrategy.
  destruct (String.eqb_spec mode "auto"); [contradiction|reflexivity].
Qed.

(** ** Namespace resolution *)

Section NamespaceFacts.

Context {H : Host}.

(** C9, as the code has it.  A non-empty explicit namespace set is returned
    as it is, cut to [maxNamespaces] when one is given (and it is not 0),
    whatever the cluster would answer and whatever the pattern and the
    exclusion flag say. *)
Theorem getTargetNamespaces_explicit (discovery : Exec string) (n : string) (ns : list string)
    (namespacePattern : option string) (excludeSystemNamespaces : bool)
    (query : option string) (maxNamespaces : option Z) :
  getTargetNamespaces discovery (Some (n :: ns)) namespacePattern excludeSystemNamespaces
    query maxNamespaces = inr (bounded (n :: ns) maxNamespaces)
  /\ getTargetNamespaces discovery (Some (n :: ns)) namespacePattern excludeSystemNamespaces
       query None = inr (n :: ns).
Proof. split; reflexivity. Qed.

(** An empty explicit set is handled as no set at all. *)
Lemma getTargetNamespaces_empty (discovery : Exec string)
    (namespacePattern : option string) (excludeSystemNamespaces : bool)
    (query : option string) (maxNamespaces : option Z) :
  getTargetNamespaces discovery (Some []) namespacePattern excludeSystemNamespaces
    query maxNamespaces
  = getTargetNamespaces discovery None namespacePattern excludeSystemNamespaces
      query maxNamespaces.
Proof. reflexivity. Qed.

End NamespaceFacts.

(** C9, as stated, fails for the empty set: with [namespaces = []] the
    cluster is asked, its namespaces are returned instead of the empty set,
    and a failure of the listing call becomes an error. *)
Lemma getTargetNamespaces_empty_set_discovers :
  getTargetNamespaces (H := MiniRegExp.host) (Yields "namespace/prod") (Some []) None false None None
    = inr [ "prod" ]
  /\ getTargetNamespaces (H := MiniRegExp.host) (Yields "namespace/prod") (Some []) None false None None
    <> inr []
  /\ getTargetNamespaces (H := MiniRegExp.host) (Throws "boom") (Some []) None false None None
    = inl "Failed to get namespaces: boom".
Proof. repeat split; [discriminate]. Qed.

(** ** Sorting *)

Lemma insertSorted_perm {A} (after : A -> A -> bool) (x : A) (l : list A) :
  Permutation (insertSorted after x l) (x :: l).
Proof.
  induction l as [|y l IH]; simpl; [apply Permutation_refl|].
  destruct (after x y); [|apply Permutation_refl].
  eapply perm_trans; [apply perm_skip, IH|apply perm_swap].
Qed.

Lemma sortBy_perm {A} (after : A -> A -> bool) (l : list A) :
  Permutation (sortBy after l) l.
Proof.
  induction l as [|x l IH]; simpl; [apply perm_nil|].
  eapply perm_trans; [apply insertSorted_perm|apply perm_skip, IH].
Qed.

Section SearchFacts.

Context {H : Host}.

(** Sorting reorders the results and neither adds nor drops one. *)
Lemma sortResults_perm (results : list Result.t) (key : string) :
  Permutation (sortResults results key) results.
Proof.
  unfold sortResults.
  destruct (String.eqb key "name"); [apply sortBy_perm|].
  destruct (String.eqb key "age"); [apply sortBy_perm|].
  destruct (String.eqb key "namespace"); apply sortBy_perm.
Qed.

Lemma sortResults_length (results : list Result.t) (key : string) :
  List.length (sortResults results key) = List.length results.
Proof. apply Permutation_length, sortResults_perm. Qed.

(** ** Batches *)

(** The batches cover the namespaces, in order and without repetition. *)
Lemma batchesUpTo_concat (steps size : nat) (l : list string) :
  0 < size -> List.length l <= steps -> List.concat (batchesUpTo steps size l) = l.
Proof.
  intro Hs. revert l. induction steps as [|steps IH]; intros l Hl.
  - destruct l; [reflexivity|simpl in Hl; lia].
  - destruct l as [|x l]; [reflexivity|].
    cbn [batchesUpTo List.concat]. rewrite IH.
    + apply firstn_skipn.
    + rewrite length_skipn. lia.
Qed.

Lemma batchesOf_concat (l : list string) : List.concat (batchesOf l) = l.
Proof. apply batchesUpTo_concat; [unfold batchSize; lia|lia]. Qed.

(** ** The result limit *)

Lemma streamingSearch_length (listing : Listing) (resourceTypes namespaces : list string)
    (p : Params) :
  (0 <= p_limit p)%Z ->
  (Z.of_nat (List.length (streamingSearch listing resourceTypes namespaces p)) <= p_limit p)%Z.
Proof. intro Hl. unfold streamingSearch. apply slice0_length, Hl. Qed.

(** A limit that the accumulator has reached before the first listing call
    stops the search at once. *)
Lemma typeLoop_limit_reached (listing : Listing) (p : Params)
    (resourceTypes namespaces : list string) (state : list Result.t * nat) :
  lengthAtLeast (fst state) (p_limit p) = true ->
  typeLoop listing p resourceTypes namespaces state = state.
Proof. intro Hl. destruct resourceTypes; simpl; [|rewrite Hl]; reflexivity. Qed.

Lemma streamingSearch_negative_limit (listing : Listing)
    (resourceTypes namespaces : list string) (p : Params) :
  (p_limit p <= 0)%Z -> streamingSearch listing resourceTypes namespaces p = [].
Proof.
  intro Hl. unfold streamingSearch. rewrite typeLoop_limit_reached.
  - unfold Js.slice0. cbn [fst]. destruct (p_limit p <? 0)%Z; apply firstn_nil.
  - unfold lengthAtLeast. simpl. apply Z.leb_le. exact Hl.
Qed.

(** C1, as the code has it.  When the limit (20 by default) is not
    negative, a search that returns hands back at most that many results,
    whatever the other inputs and whatever the cluster answers. *)
Theorem kubectlUnifiedSearch_length (discovery : Exec string) (listing : Listing)
    (input : Input) (results : list Result.t) (searchType : string) :
  (0 <= orDefault (limit input) 20)%Z ->
  kubectlUnifiedSearch discovery listing input = Returned results searchType ->
  (Z.of_nat (List.length results) <= orDefault (limit input) 20)%Z.
Proof.
  intros Hl. unfold kubectlUnifiedSearch.
  destruct (isBlank (query input)); [discriminate|].
  destruct (getTargetNamespaces _ _ _ _ _ _) as [message|targetNamespaces]; [discriminate|].
  destruct (List.length targetNamespaces =? 0)%nat.
  - intro E. injection E as <- _. simpl. exact Hl.
  - intro E. injection E as <- _. rewrite sortResults_length.
    apply streamingSearch_length. exact Hl.
Qed.

End SearchFacts.

(** The limit 2 on a cluster with three matching pods. *)
Lemma kubectlUnifiedSearch_length_witness :
  let input := Sample.withLimit 2 (Sample.searchFor "web") in
  let listing :=
    Sample.podsOf [ Sample.named "web-1"; Sample.named "web-2"; Sample.named "web-3" ] in
  kubectlUnifiedSearch (H := MiniRegExp.host) (Throws "unused") listing input
    = Returned [ Sample.pod (Sample.named "web-1") 1.0 "exact substring match in name" 0;
                 Sample.pod (Sample.named "web-2") 1.0 "exact substring match in name" 0 ]
        "fuzzy"
  /\ (Z.of_nat 2 <= 2)%Z.
Proof.
  cbv zeta. split; [vm_compute; reflexivity|].
  apply (kubectlUnifiedSearch_length (H := MiniRegExp.host) (Throws "unused")
           (Sample.podsOf [ Sample.named "web-1"; Sample.named "web-2"; Sample.named "web-3" ])
           (Sample.withLimit 2 (Sample.searchFor "web"))
           [ Sample.pod (Sample.named "web-1") 1.0 "exact substring match in name" 0;
             Sample.pod (Sample.named "web-2") 1.0 "exact substring match in name" 0 ]
           "fuzzy").
  - vm_compute. discriminate.
  - vm_compute. reflexivity.
Defined.

(** C1, as stated, fails for a negative limit: the search returns the empty
    list, whose length 0 is above the limit -1. *)
Lemma kubectlUnifiedSearch_negative_limit :
  kubectlUnifiedSearch (H := MiniRegExp.host) (Throws "unused")
    (Sample.podsOf [ Sample.named "web-1" ]) (Sample.withLimit (-1) (Sample.searchFor "web"))
    = Returned [] "fuzzy"
  /\ ~ (Z.of_nat (@List.length Result.t []) <= -1)%Z.
Proof. split; [vm_compute; reflexivity|simpl; lia]. Qed.

(** ** Failing listing calls *)

Section Degradation.

Context {H : Host}.

Lemma getResourcesWithPreFilter_recovered (listing : Listing) (call : nat)
    (resourceType namespace : string) :
  getResourcesWithPreFilter (recovered listing call resourceType namespace)
  = getResourcesWithPreFilter (listing call resourceType namespace).
Proof.
  unfold recovered. destruct (listing call resourceType namespace) as [err|[items|]]; reflexivity.
Qed.

Lemma batchResults_ext (l1 l2 : Listing) (p : Params) (resourceType : string)
    (batch : list string) (found calls : nat) :
  sameCandidates l1 l2 ->
  batchResults l1 p resourceType batch found calls
  = batchResults l2 p resourceType batch found calls.
Proof.
  intro Hs. revert calls. induction batch as [|namespace batch IH]; intro calls; simpl.
  - reflexivity.
  - rewrite Hs, IH. reflexivity.
Qed.

Lemma batchLoop_ext (l1 l2 : Listing) (p : Params) (resourceType : string)
    (batches : list (list string)) (state : list Result.t * nat) :
  sameCandidates l1 l2 ->
  batchLoop l1 p resourceType batches state = batchLoop l2 p resourceType batches state.
Proof.
  intro Hs. revert state. induction batches as [|batch batches IH]; intros [results calls]; simpl.
  - reflexivity.
  - rewrite (batchResults_ext l1 l2) by exact Hs.
    destruct (lengthAtLeast results (p_limit p)); [reflexivity|].
    destruct (lengthAtLeast _ (p_limit p)); [reflexivity|]. apply IH.
Qed.

Lemma typeLoop_ext (l1 l2 : Listing) (p : Params) (resourceTypes namespaces : list string)
    (state : list Result.t * nat) :
  sameCandidates l1 l2 ->
  typeLoop l1 p resourceTypes namespaces state = typeLoop l2 p resourceTypes namespaces state.
Proof.
  intro Hs. revert state. induction resourceTypes as [|rt rts IH]; intro state; simpl.
  - reflexivity.
  - rewrite (batchLoop_ext l1 l2) by exact Hs.
    destruct (lengthAtLeast (fst state) (p_limit p)); [reflexivity|].
    destruct (lengthAtLeast _ (p_limit p)); [reflexivity|]. apply IH.
Qed.

Lemma streamingSearch_ext (l1 l2 : Listing) (resourceTypes namespaces : list string)
    (p : Params) :
  sameCandidates l1 l2 ->
  streamingSearch l1 resourceTypes namespaces p = streamingSearch l2 resourceTypes namespaces p.
Proof. intro Hs. unfold streamingSearch. rewrite (typeLoop_ext l1 l2) by exact Hs. reflexivity. Qed.

Lemma kubectlUnifiedSearch_ext (discovery : Exec string) (l1 l2 : Listing) (input : Input) :
  sameCandidates l1 l2 ->
  kubectlUnifiedSearch discovery l1 input = kubectlUnifiedSearch discovery l2 input.
Proof.
  intro Hs. unfold kubectlUnifiedSearch.
  destruct (isBlank (query input)); [reflexivity|].
  destruct (getTargetNamespaces _ _ _ _ _ _) as [m|targetNamespaces]; [reflexivity|].
  destruct (List.length targetNamespaces =? 0)%nat; [reflexivity|].
  cbv zeta. rewrite (streamingSearch_ext l1 l2) by exact Hs. reflexivity.
Qed.

(** No error of the search comes from the resource listing. *)
Lemma kubectlUnifiedSearch_error_any_listing (discovery : Exec string) (l1 l2 : Listing)
    (input : Input) (message : string) :
  kubectlUnifiedSearch discovery l1 input = Threw message ->
  kubectlUnifiedSearch discovery l2 input = Threw message.
Proof.
  unfold kubectlUnifiedSearch.
  destruct (isBlank (query input)); [auto|].
  destruct (getTargetNamespaces _ _ _ _ _ _) as [m|targetNamespaces]; [auto|].
  destruct (List.length targetNamespaces =? 0)%nat; discriminate.
Qed.

(** C8. A listing call that fails, "no resources found" included, gives the
    empty candidate list, and the unit contributes no result.  The search
    as a whole behaves exactly as on the cluster where each failing unit is
    empty instead: the other kinds and namespaces are searched, ranked and
    returned as if nothing had failed.  Whether the search throws, and
    what, does not depend on the resource listing at all. *)
Theorem failed_listing_degrades_to_empty (discovery : Exec string) (listing : Listing)
    (input : Input) :
  (forall call resourceType namespace err p found,
      listing call resourceType namespace = Throws err ->
      getResourcesWithPreFilter (listing call resourceType namespace) = []
      /\ namespaceResults p resourceType namespace
           (getResourcesWithPreFilter (listing call resourceType namespace)) found = [])
  /\ kubectlUnifiedSearch discovery listing input
     = kubectlUnifiedSearch discovery (recovered listing) input
  /\ (forall message other,
        kubectlUnifiedSearch discovery listing input = Threw message ->
        kubectlUnifiedSearch discovery other input = Threw message).
Proof.
  split; [|split].
  - intros call resourceType namespace err p found ->. split; reflexivity.
  - apply kubectlUnifiedSearch_ext. intros call resourceType namespace.
    symmetry. apply getResourcesWithPreFilter_recovered.
  - intros message other. apply kubectlUnifiedSearch_error_any_listing.
Qed.

End Degradation.

(** The scenario of the specification: listing the jobs of [ns1] throws;
    that unit contributes nothing, and the job and the pod of [ns2] are
    found all the same. *)
Lemma failed_listing_degrades_to_empty_witness :
  let input :=
    Sample.withTypes [ "jobs"; "pods" ]
      (Sample.withNamespaces (Some [ "ns1"; "ns2" ]) (Sample.searchFor "backup")) in
  getResourcesWithPreFilter (Sample.jobsFailInNs1 0 "jobs" "ns1") = []
  /\ map (fun r => (Result.name r, Result.resourceType r, Result.namespace r))
       (match kubectlUnifiedSearch (H := MiniRegExp.host) (Throws "unused")
                Sample.jobsFailInNs1 input with
        | Returned results _ => results
        | Threw _ => []
        end)
     = [ ("backup", "jobs", "ns2"); ("backup", "pods", "ns2") ].
Proof.
  cbv zeta. split.
  - refine (proj1 (proj1 (failed_listing_degrades_to_empty (H := MiniRegExp.host)
                            (Throws "unused") Sample.jobsFailInNs1 (Sample.searchFor "backup"))
                     0 "jobs" "ns1" _
                     {| p_query := "backup";
                        p_strategy := {| type := "fuzzy"; selector := "backup" |};
                        p_searchConfig := getFuzzyConfig "moderate";
                        p_includeLabels := true; p_includeAnnotations := false;
                        p_recent := false; p_limit := 20 |} 0 eq_refl)).
  - vm_compute. reflexivity.
Defined.

(** ** Errors of the search *)

Section ErrorFacts.

Context {H : Host}.

(** When the discovery of namespaces throws, and with what message. *)
Lemma discoverNamespaces_throws (discovery : Exec string) (namespacePattern : option string)
    (excludeSystemNamespaces : bool) (maxNamespaces : option Z) (message : string) :
  discoverNamespaces discovery namespacePattern excludeSystemNamespaces maxNamespaces
    = inl message
  <-> exists cause,
        message = "Failed to get namespaces: " ++ cause
        /\ (discovery = Throws cause
            \/ exists stdout pattern,
                 discovery = Yields stdout /\ namespacePattern = Some pattern
                 /\ pattern <> "" /\ RegExp_new (wildcardSource pattern) = inl cause).
Proof.
  unfold discoverNamespaces. split.
  - destruct discovery as [err|stdout].
    + intro E. injection E as <-. exists err. auto.
    + destruct namespacePattern as [[|c p]|]; try discriminate.
      destruct (RegExp_new (wildcardSource (String c p))) as [cause|re] eqn:Ere;
        [|discriminate].
      intro E. injection E as <-. exists cause. split; [reflexivity|].
      right. exists stdout, (String c p). repeat split; [discriminate|exact Ere].
  - intros [cause [-> [-> | [stdout [[|c p] [-> [-> [Hp Ere]]]]]]]].
    + reflexivity.
    + contradiction.
    + rewrite Ere. reflexivity.
Qed.

Lemma getTargetNamespaces_throws (discovery : Exec string) (namespaces : option (list string))
    (namespacePattern : option string) (excludeSystemNamespaces : bool)
    (query : option string) (maxNamespaces : option Z) (message : string) :
  getTargetNamespaces discovery namespaces namespacePattern excludeSystemNamespaces
    query maxNamespaces = inl message
  <-> (namespaces = None \/ namespaces = Some [])
      /\ discoverNamespaces discovery namespacePattern excludeSystemNamespaces maxNamespaces
         = inl message.
Proof.
  unfold getTargetNamespaces. destruct namespaces as [[|n ns]|].
  - split; [auto|intros [_ E]; exact E].
  - split; [discriminate|]. intros [[E|E] _]; discriminate.
  - split; [auto|intros [_ E]; exact E].
Qed.

Lemma blank_query_throws (discovery : Exec string) (listing : Listing) (input : Input) :
  isBlank (query input) = true ->
  kubectlUnifiedSearch discovery listing input = Threw "Search query cannot be empty".
Proof. intro Hb. unfold kubectlUnifiedSearch. rewrite Hb. reflexivity. Qed.

(** A query of spaces, tabs, line ends and no-break spaces is blank. *)
Lemma isBlank_white_space :
  isBlank (String (ascii_of_nat 160) (String (ascii_of_nat 9) (String (ascii_of_nat 10) " ")))
  = true.
Proof. reflexivity. Qed.

(** C7, as the code has it.  The search throws in exactly these cases, and
    returns a result list in every other: (1) the query is empty or blank;
    the error is "Search query cannot be empty", as it is, and neither the
    namespace listing nor the resource listing has a say in it; (2) the
    query is not blank, the namespace set is absent or empty, and namespace
    resolution fails, because the listing call fails or because the
    namespace pattern is not accepted as a regular expression; the error is
    the cause wrapped as "Search failed: Failed to get namespaces: cause". *)
Theorem kubectlUnifiedSearch_throws (discovery : Exec string) (listing : Listing)
    (input : Input) (message : string) :
  kubectlUnifiedSearch discovery listing input = Threw message
  <-> (isBlank (query input) = true /\ message = "Search query cannot be empty")
      \/ (isBlank (query input) = false
          /\ (namespaces input = None \/ namespaces input = Some [])
          /\ exists cause,
               message = "Search failed: Failed to get namespaces: " ++ cause
               /\ (discovery = Throws cause
                   \/ exists stdout pattern,
                        discovery = Yields stdout /\ namespacePattern input = Some pattern
                        /\ pattern <> "" /\ RegExp_new (wildcardSource pattern) = inl cause)).
Proof.
  unfold kubectlUnifiedSearch.
  destruct (isBlank (query input)) eqn:Hb.
  - split.
    + intro E. injection E as <-. left. auto.
    + intros [[_ ->]|[Hf _]]; [reflexivity|discriminate].
  - destruct (getTargetNamespaces _ _ _ _ _ _) as [m|targetNamespaces] eqn:Et.
    + apply getTargetNamespaces_throws in Et. destruct Et as [Hns Hd].
      apply discoverNamespaces_throws in Hd. destruct Hd as [cause [-> Hc]]. split.
      * intro E. injection E as <-. right. split; [reflexivity|]. split; [exact Hns|].
        exists cause. split; [reflexivity|exact Hc].
      * intros [[Hf _]|[_ [_ [cause' [-> Hc']]]]]; [discriminate|].
        enough (cause = cause') as -> by reflexivity.
        destruct Hc as [Hd|[so [pat [Hd [Hp [_ Hr]]]]]];
          destruct Hc' as [Hd'|[so' [pat' [Hd' [Hp' [_ Hr']]]]]]; congruence.
    + split.
      * destruct (List.length targetNamespaces =? 0)%nat; discriminate.
      * intros [[Hf _]|[_ [Hns [cause [_ Hc]]]]]; [discriminate|]. exfalso.
        assert (Ei : getTargetNamespaces discovery (namespaces input) (namespacePattern input)
                       (orDefault (excludeSystemNamespaces input) false) (Some (query input)) None
                     = inl ("Failed to get namespaces: " ++ cause)).
        { apply getTargetNamespaces_throws. split; [exact Hns|].
          apply discoverNamespaces_throws. exists cause. auto. }
        congruence.
Qed.

End ErrorFacts.

(** The three errors of [kubectlUnifiedSearch_throws]: a blank query, a
    failing namespace listing, and the pattern [[], an unterminated
    character class. *)
Lemma kubectlUnifiedSearch_throws_witness :
  kubectlUnifiedSearch (H := MiniRegExp.host) (Yields "namespace/prod")
    (Sample.podsOf []) (Sample.searchFor "   ")
    = Threw "Search query cannot be empty"
  /\ kubectlUnifiedSearch (H := MiniRegExp.host) (Throws "Error: Command failed")
       (Sample.podsOf []) (Sample.withNamespaces None (Sample.searchFor "web"))
     = Threw "Search failed: Failed to get namespaces: Error: Command failed".
Proof.
  split.
  - apply (kubectlUnifiedSearch_throws (H := MiniRegExp.host)). left. split; reflexivity.
  - apply (kubectlUnifiedSearch_throws (H := MiniRegExp.host)). right.
    split; [reflexivity|]. split; [left; reflexivity|].
    exists "Error: Command failed". split; [reflexivity|left; reflexivity].
Defined.

(** C7, as stated, fails in three ways.  With the explicit but empty
    namespace set the failing namespace listing is an error although a set
    was supplied; the error of a blank query is not a wrapped one; and a
    pattern that is no regular expression is an error although the listing
    call succeeded. *)
Lemma kubectlUnifiedSearch_errors_beyond_the_two :
  (kubectlUnifiedSearch (H := MiniRegExp.host) (Throws "boom") (Sample.podsOf [])
     (Sample.withNamespaces (Some []) (Sample.searchFor "web"))
   = Threw "Search failed: Failed to get namespaces: boom"
   /\ namespaces (Sample.withNamespaces (Some []) (Sample.searchFor "web")) <> None
   /\ isBlank "web" = false)
  /\ (kubectlUnifiedSearch (H := MiniRegExp.host) (Throws "boom") (Sample.podsOf [])
        (Sample.searchFor "")
      = Threw "Search query cannot be empty"
      /\ Js.startsWith "Search query cannot be empty" "Search failed: " = false)
  /\ (kubectlUnifiedSearch (H := MiniRegExp.host) (Yields "namespace/prod") (Sample.podsOf [])
        (Sample.withPattern "[" (Sample.withNamespaces None (Sample.searchFor "web")))
      = Threw "Search failed: Failed to get namespaces: SyntaxError: Invalid regular expression").
Proof.
  split; [|split].
  - split; [vm_compute; reflexivity|]. split; [discriminate|reflexivity].
  - split; reflexivity.
  - vm_compute. reflexivity.
Qed.

(** ** The quick scan *)

Section QuickScanFacts.

Context {H : Host}.

(** The quick scan is the first thing done with the candidates of a unit,
    whatever the strategy: a first candidate whose name contains the query
    is accepted by it as long as one more result is wanted. *)
Lemma quick_scan_any_strategy (p : Params) (resourceType namespace : string)
    (resource : Resource.t) (found : nat) :
  Js.includes (Js.toLowerCase (Resource.name (Resource.meta resource)))
    (Js.toLowerCase (p_query p)) = true ->
  (Z.of_nat found < p_limit p)%Z ->
  namespaceResults p resourceType namespace [resource] found
  = [ {| Result.resource := resource;
         Result.resourceType := resourceType;
         Result.namespace := namespace;
         Result.matchScore := 1.0;
         Result.matchReason := "exact substring match in name";
         Result.levenshteinDistance := 0 |} ].
Proof.
  intros Hin Hl. unfold namespaceResults, quickScanResources.
  cbn [List.length Nat.eqb quickScanLoop].
  assert (Hb : lengthAtLeast (@nil Result.t) (Z.min 10 (p_limit p - Z.of_nat found)) = false).
  { unfold lengthAtLeast. apply Z.leb_gt. cbn [List.length]. lia. }
  rewrite Hb, Hin. reflexivity.
Qed.

End QuickScanFacts.

(** C2 at a failing input.  The search mode is [labels] and the query is
    [prod]; the pod [prod-db], whose only label is [tier=data], is returned
    by the quick scan, with score 1.0 and the reason of a name match, next
    to the pod that carries the label [env=prod]. *)
Theorem quick_scan_runs_under_labels :
  let db := Sample.labelled "prod-db" [ ("tier", "data") ] in
  let api := Sample.labelled "api" [ ("env", "prod") ] in
  kubectlUnifiedSearch (H := MiniRegExp.host) (Throws "unused") (Sample.podsOf [ db; api ])
    (Sample.withMode "labels" (Sample.searchFor "prod"))
  = Returned [ Sample.pod db 1.0 "exact substring match in name" 0;
               Sample.pod api 1.0 "label match (env=prod)" 0 ]
      "labels".
Proof. vm_compute. reflexivity. Qed.

(** ** The edit-distance rule *)

Section EditDistanceFacts.

Context {H : Host}.

Lemma editDistanceMatches_accepted (cfg : SearchConfig) (q n : string) :
  levenshteinDistance q n <= maxDistance cfg ->
  (minScore cfg <=? rawScore (levenshteinDistance q n) q n)%float = true ->
  editDistanceMatches cfg q n
  = [ {| score := (rawScore (levenshteinDistance q n) q n * 0.9)%float;
         reason := "fuzzy name match (distance: " ++ Js.showNat (levenshteinDistance q n) ++ ")";
         distance := levenshteinDistance q n |} ].
Proof.
  intros Hd Hs. unfold editDistanceMatches. cbv zeta.
  pose proof (levenshteinDistance_length_diff q n) as Hdiff.
  destruct (Nat.leb_spec (absDiff (String.length q) (String.length n)) (maxDistance cfg)); [|lia].
  destruct (Nat.leb_spec (levenshteinDistance q n) (maxDistance cfg)); [|lia].
  rewrite Hs. reflexivity.
Qed.

Lemma editDistanceMatches_nonempty (cfg : SearchConfig) (q n : string) :
  editDistanceMatches cfg q n <> []
  <-> levenshteinDistance q n <= maxDistance cfg
      /\ (minScore cfg <=? rawScore (levenshteinDistance q n) q n)%float = true.
Proof.
  split.
  - unfold editDistanceMatches. cbv zeta.
    destruct (Nat.leb_spec (absDiff (String.length q) (String.length n)) (maxDistance cfg));
      [|congruence].
    destruct (Nat.leb_spec (levenshteinDistance q n) (maxDistance cfg)); [|congruence].
    destruct (minScore cfg <=? rawScore (levenshteinDistance q n) q n)%float; [auto|congruence].
  - intros [Hd Hs]. rewrite editDistanceMatches_accepted by assumption. discriminate.
Qed.

(** C3, as the code has it.  In the deep scan under the fuzzy strategy the
    edit-distance rule accepts a candidate exactly when the distance
    between the lower-cased query and name is at most [maxDistance] and the
    unscaled score [1 - distance / max(|query|, |name|)] is at least
    [minScore]; the result then carries that score times 0.9, which may be
    below [minScore], together with the distance. *)
Theorem edit_distance_acceptance (cfg : SearchConfig) (resource : Resource.t)
    (resourceType namespace query : string) (includeLabels includeAnnotations : bool)
    (maxResults : Z) :
  let q := Js.toLowerCase query in
  let n := Js.toLowerCase (Resource.name (Resource.meta resource)) in
  let d := levenshteinDistance q n in
  let s := rawScore d q n in
  (editDistanceMatches cfg q n <> [] <-> d <= maxDistance cfg /\ (minScore cfg <=? s)%float = true)
  /\ (d <= maxDistance cfg -> (minScore cfg <=? s)%float = true -> (0 < maxResults)%Z ->
      deepSearchResources [resource] resourceType namespace query
        {| type := "fuzzy"; selector := query |} cfg includeLabels includeAnnotations maxResults
      = inr [ {| Result.resource := resource;
                 Result.resourceType := resourceType;
                 Result.namespace := namespace;
                 Result.matchScore := (s * 0.9)%float;
                 Result.matchReason := "fuzzy name match (distance: " ++ Js.showNat d ++ ")";
                 Result.levenshteinDistance := d |} ]).
Proof.
  cbv zeta. split; [apply editDistanceMatches_nonempty|].
  intros Hd Hs Hm.
  unfold deepSearchResources. cbn [deepSearchLoop].
  assert (Hb : lengthAtLeast (@nil Result.t) maxResults = false).
  { unfold lengthAtLeast. apply Z.leb_gt. cbn [List.length]. lia. }
  rewrite Hb. unfold resourceMatches. cbn [type].
  change (String.eqb "fuzzy" "labels") with false.
  change (String.eqb "fuzzy" "fields") with false.
  change (String.eqb "fuzzy" "exact") with false.
  cbv iota. unfold fuzzyMatches. cbv zeta.
  rewrite editDistanceMatches_accepted by assumption.
  cbn [isEmpty andb]. cbv iota. unfold bestOf. cbn [fold_left score reason distance app].
  reflexivity.
Qed.

End EditDistanceFacts.

(** The strict tolerance, the query [abcdef] and a pod named [abcdex]:
    distance 1, unscaled score 5/6, reported score 0.75. *)
Lemma edit_distance_acceptance_witness :
  deepSearchResources (H := MiniRegExp.host) [ Sample.named "abcdex" ] "pods" "default" "abcdef"
    {| type := "fuzzy"; selector := "abcdef" |} (getFuzzyConfig "strict") true false 3
  = inr [ Sample.pod (Sample.named "abcdex") 0.75 "fuzzy name match (distance: 1)" 1 ].
Proof.
  refine (proj2 (edit_distance_acceptance (H := MiniRegExp.host) (getFuzzyConfig "strict")
                   (Sample.named "abcdex") "pods" "default" "abcdef" true false 3) _ _ _).
  - vm_compute. lia.
  - vm_compute. reflexivity.
  - lia.
Defined.

(** C3, as stated, fails: under the strict tolerance ([maxDistance] 1,
    [minScore] 0.8) the name [abcdex] is accepted for the query [abcdef]
    with the reported score 0.75, which is below [minScore]. *)
Lemma edit_distance_reported_score_below_minScore :
  let cfg := getFuzzyConfig "strict" in
  let d := levenshteinDistance "abcdef" "abcdex" in
  editDistanceMatches cfg "abcdef" "abcdex"
    = [ {| score := 0.75; reason := "fuzzy name match (distance: 1)"; distance := 1 |} ]
  /\ ~ (d <= maxDistance cfg
        /\ (minScore cfg <=? rawScore d "abcdef" "abcdex" * 0.9)%float = true).
Proof.
  cbv zeta. split; [vm_compute; reflexivity|].
  intros [_ Hs]. vm_compute in Hs. discriminate.
Qed.

(** ** Wildcard patterns *)

Lemma append_empty_r (s : string) : s ++ "" = s.
Proof. induction s; simpl; congruence. Qed.

Lemma append_assoc_string (a b c : string) : (a ++ b) ++ c = a ++ (b ++ c).
Proof. induction a; simpl; congruence. Qed.

Lemma perChar_append (f : ascii -> string) (a b : string) :
  perChar f (a ++ b) = perChar f a ++ perChar f b.
Proof. induction a as [|c a IH]; simpl; [|rewrite IH, append_assoc_string]; reflexivity. Qed.

Lemma perChar_perChar (f g : ascii -> string) (s : string) :
  perChar g (perChar f s) = perChar (fun c => perChar g (f c)) s.
Proof. induction s as [|c s IH]; simpl; [|rewrite perChar_append, IH]; reflexivity. Qed.

Lemma perChar_ext (f g : ascii -> string) (s : string) :
  (forall c, f c = g c) -> perChar f s = perChar g s.
Proof. intro E. induction s as [|c s IH]; simpl; [|rewrite E, IH]; reflexivity. Qed.

(** Replacing a single character everywhere is a translation per character. *)
Lemma replaceAll_char (c : ascii) (by_ s : string) :
  Js.replaceAll (String c "") by_ s
  = perChar (fun x => if Ascii.eqb x c then by_ else String x "") s.
Proof.
  unfold Js.replaceAll. induction s as [|x s IH]; [reflexivity|].
  cbn [Js.replaceAllFrom perChar String.prefix String.length Nat.sub].
  rewrite IH. destruct (ascii_dec c x) as [->|Hn].
  - rewrite Ascii.eqb_refl. destruct s; reflexivity.
  - destruct (Ascii.eqb_spec x c); [congruence|reflexivity].
Qed.

(** The fourth replacement puts back what it finds. *)
Lemma replaceAll_dot_star (s : string) : Js.replaceAll ".*" ".*" s = s.
Proof.
  unfold Js.replaceAll. induction s as [|x s IH]; [reflexivity|].
  cbn [Js.replaceAllFrom String.length Nat.sub].
  destruct (String.prefix ".*" (String x s)) eqn:Hp.
  - apply prefix_iff in Hp. destruct Hp as [rest Hr]. injection Hr as -> ->.
    cbn [Js.replaceAllFrom]. cbn [Js.replaceAllFrom String.prefix] in IH.
    destruct (ascii_dec "." "*") as [E|_]; [discriminate E|].
    injection IH as IH. simpl. rewrite IH. reflexivity.
  - rewrite IH. reflexivity.
Qed.

(** What the code compiles a pattern to: a [*] becomes an escaped dot under
    a star, a [?] an escaped dot, and so does a dot; every other character
    stays. *)
Lemma wildcardSource_chars (pattern : string) :
  wildcardSource pattern = perChar wildcardChar pattern.
Proof.
  unfold wildcardSource.
  rewrite replaceAll_dot_star, !replaceAll_char, !perChar_perChar.
  apply perChar_ext. intro c. unfold wildcardChar.
  destruct (Ascii.eqb_spec c "*") as [->|H1]; [reflexivity|].
  cbn [perChar]. rewrite append_empty_r.
  destruct (Ascii.eqb_spec c "?") as [->|H2]; [reflexivity|].
  cbn [perChar]. rewrite append_empty_r.
  destruct (Ascii.eqb_spec c "."); reflexivity.
Qed.

(** C4 at a failing input.  The pattern [web?pp] is compiled to the source
    [web\.pp], not to [web.pp]: as a regular expression it finds the name
    [web.pp] and does not find [webapp], which the source the specification
    describes does find; a search for [web?pp] over the pods [webapp] and
    [web.pp] returns the second only. *)
Theorem wildcard_question_mark_matches_only_a_dot :
  wildcardSource "web?pp" = "web\.pp"
  /\ specWildcardSource "web?pp" = "web.pp"
  /\ option_map (fun re => (MiniRegExp.test re "webapp", MiniRegExp.test re "web.pp"))
       (MiniRegExp.compile (wildcardSource "web?pp")) = Some (false, true)
  /\ option_map (fun re => (MiniRegExp.test re "webapp", MiniRegExp.test re "web.pp"))
       (MiniRegExp.compile (specWildcardSource "web?pp")) = Some (true, true)
  /\ kubectlUnifiedSearch (H := MiniRegExp.host) (Throws "unused")
       (Sample.podsOf [ Sample.named "webapp"; Sample.named "web.pp" ])
       (Sample.searchFor "web?pp")
     = Returned [ Sample.pod (Sample.named "web.pp") 1.0 "exact pattern match" 0 ] "exact".
Proof. repeat split; vm_compute; reflexivity. Qed.

(** ** The scenario of the query [webapp] *)

(** C5, as the code has it.  For the query [webapp] with the default
    (moderate) tolerance and the pods [webapp-1], [my-webapp-svc] and
    [backend], the search returns [webapp-1] and [my-webapp-svc], both with
    score 1.0 as substring matches found by the quick scan, and does not
    return [backend]; this holds on every host. *)
Theorem webapp_scenario {H : Host} (discovery : Exec string) :
  let w1 := Sample.named "webapp-1" in
  let svc := Sample.named "my-webapp-svc" in
  let backend := Sample.named "backend" in
  kubectlUnifiedSearch discovery (Sample.podsOf [ w1; svc; backend ]) (Sample.searchFor "webapp")
  = Returned [ Sample.pod w1 1.0 "exact substring match in name" 0;
               Sample.pod svc 1.0 "exact substring match in name" 0 ]
      "fuzzy".
Proof. vm_compute. reflexivity. Qed.

(** C5, as stated, fails for [my-webapp-svc]: the query is a substring of
    the full name, and the result carries the score 1.0, not 0.8, and the
    reason of the substring match, not of a word-boundary match. *)
Lemma webapp_svc_is_a_substring_match :
  Js.includes "my-webapp-svc" "webapp" = true
  /\ match kubectlUnifiedSearch (H := MiniRegExp.host) (Throws "unused")
             (Sample.podsOf [ Sample.named "webapp-1"; Sample.named "my-webapp-svc";
                              Sample.named "backend" ])
             (Sample.searchFor "webapp") with
     | Returned [ _; svc ] _ =>
         Result.name svc = "my-webapp-svc"
         /\ Result.matchScore svc = 1.0%float
         /\ (Result.matchScore svc =? 0.8)%float = false
         /\ Result.matchReason svc <> "word boundary match in name"
     | _ => False
     end.
Proof. split; [reflexivity|]. vm_compute. repeat split. discriminate. Qed.

(** * Further properties of the engine *)

(** ** The two scans *)

Section ScanFacts.

Context {H : Host}.

Lemma quickScanLoop_firstn (resources : list Resource.t) (resourceType namespace queryLower : string)
    (maxResults : Z) (results : list Result.t) :
  quickScanLoop resources resourceType namespace queryLower maxResults results
  = (results
     ++ firstn (Z.to_nat (maxResults - Z.of_nat (List.length results)))
          (map (quickResult resourceType namespace)
             (filter (nameContains queryLower) resources)))%list.
Proof.
  revert results. induction resources as [|r rest IH]; intro results.
  - cbn [quickScanLoop filter map]. rewrite firstn_nil, app_nil_r. reflexivity.
  - cbn [quickScanLoop filter]. unfold lengthAtLeast.
    destruct (Z.leb_spec maxResults (Z.of_nat (List.length results))) as [Hle|Hgt].
    + replace (Z.to_nat (maxResults - Z.of_nat (List.length results))) with 0 by lia.
      cbn [firstn]. rewrite app_nil_r. reflexivity.
    + fold (nameContains queryLower r). destruct (nameContains queryLower r).
      * rewrite IH, length_app. cbn [List.length map].
        replace (Z.to_nat (maxResults - Z.of_nat (List.length results)))
          with (S (Z.to_nat (maxResults - Z.of_nat (List.length results + 1)))) by lia.
        cbn [firstn]. rewrite <- app_assoc. reflexivity.
      * apply IH.
Qed.

Lemma quickScanResources_filter (resources : list Resource.t)
    (resourceType namespace queryLower : string) (maxResults : Z) :
  quickScanResources resources resourceType namespace queryLower maxResults
  = firstn (Z.to_nat maxResults)
      (map (quickResult resourceType namespace) (filter (nameContains queryLower) resources)).
Proof.
  unfold quickScanResources. rewrite quickScanLoop_firstn. cbn [List.length app].
  rewrite Z.sub_0_r. reflexivity.
Qed.

(** X1. The quick scan returns the candidates whose lower-cased name
    contains the query, in the order of the listing, each with score 1.0,
    cut to the first [maxResults]; a bound of 0 or less gives nothing. *)
Theorem quickScanResources_firstn (resources : list Resource.t)
    (resourceType namespace queryLower : string) (maxResults : Z) :
  quickScanResources resources resourceType namespace queryLower maxResults
  = firstn (Z.to_nat maxResults)
      (map (quickResult resourceType namespace) (filter (nameContains queryLower) resources)).
Proof. intros. eapply quickScanResources_filter; eassumption. Qed.

Lemma labelMatches_length (entries : list (string * string)) (queryLower : string) (s : float) :
  List.length (labelMatches entries queryLower s) <= 1.
Proof.
  induction entries as [|[k v] entries IH]; cbn [labelMatches]; [simpl; lia|].
  destruct (Js.includes _ _); [simpl; lia|exact IH].
Qed.

Lemma editDistanceMatches_length (cfg : SearchConfig) (q n : string) :
  List.length (editDistanceMatches cfg q n) <= 1.
Proof.
  unfold editDistanceMatches. cbv zeta.
  destruct (_ <=? _)%nat; [|simpl; lia].
  destruct (_ <=? _)%nat; [|simpl; lia].
  destruct (_ <=? _)%float; simpl; lia.
Qed.

Lemma fuzzyMatches_length (resource : Resource.t) (queryLower : string)
    (cfg : SearchConfig) (includeLabels : bool) :
  List.length (fuzzyMatches resource queryLower cfg includeLabels) <= 1.
Proof.
  unfold fuzzyMatches. cbv zeta.
  pose proof (editDistanceMatches_length cfg queryLower
                (Js.toLowerCase (Resource.name (Resource.meta resource)))) as He.
  destruct (editDistanceMatches cfg queryLower _) as [|m [|m' ms]];
    [|cbn [isEmpty andb]; simpl; lia|simpl in He; lia].
  cbn [isEmpty andb app].
  set (n := Js.toLowerCase (Resource.name (Resource.meta resource))).
  assert (Hw : wordBoundaryMatches queryLower n = []
               \/ exists m, wordBoundaryMatches queryLower n = [m]).
  { unfold wordBoundaryMatches. destruct (existsb _ _); eauto. }
  assert (Ha : acronymMatches queryLower n = [] \/ exists m, acronymMatches queryLower n = [m]).
  { unfold acronymMatches. cbv zeta. destruct (_ && _); eauto. }
  assert (Hl : forall entries, labelMatches entries queryLower 0.7 = []
                 \/ exists m, labelMatches entries queryLower 0.7 = [m]).
  { intro entries. pose proof (labelMatches_length entries queryLower 0.7) as Hl.
    destruct (labelMatches entries queryLower 0.7) as [|m [|m' ms]]; eauto.
    simpl in Hl. lia. }
  destruct (Js.includes n "-" || Js.includes n "_");
    [destruct Hw as [-> | [m ->]]|]; cbn [isEmpty andb];
    try (simpl; lia);
    (destruct (Js.includes n "-" && (String.length queryLower <=? 4)%nat);
     [destruct Ha as [-> | [m ->]]|]; cbn [isEmpty andb app];
     try (simpl; lia);
     (destruct includeLabels; [|simpl; lia];
      destruct (Resource.labels (Resource.meta resource)) as [entries|]; [|simpl; lia];
      destruct (Hl entries) as [-> | [m ->]]; simpl; lia)).
Qed.

(** X2. Whatever the strategy, at most one rule contributes a match for a
    candidate: the rules of the fuzzy branch exclude each other and the
    other branches have one rule each, so the selection of the best match
    never has anything to choose from. *)
Theorem resourceMatches_at_most_one (resource : Resource.t) (queryLower : string)
    (strategy : Strategy) (cfg : SearchConfig) (includeLabels : bool)
    (matches : list Match) :
  resourceMatches resource queryLower strategy cfg includeLabels = inr matches ->
  List.length matches <= 1.
Proof.
  unfold resourceMatches. cbv zeta.
  destruct (String.eqb (type strategy) "labels").
  { destruct (Resource.labels (Resource.meta resource)) as [entries|];
      intro E; injection E as <-; [apply labelMatches_length|simpl; lia]. }
  destruct (String.eqb (type strategy) "fields").
  { destruct (Resource.fieldText resource (selector strategy)) as [text|];
      [destruct (Js.includes _ _)|]; intro E; injection E as <-; simpl; lia. }
  destruct (String.eqb (type strategy) "exact").
  { destruct (RegExp_new _) as [e|re]; [discriminate|].
    destruct (RegExp_test re _); intro E; injection E as <-; simpl; lia. }
  intro E. injection E as <-. apply fuzzyMatches_length.
Qed.

End ScanFacts.

(** The pod [my-webapp-svc] under the fuzzy strategy and the query [svc]. *)
Lemma resourceMatches_at_most_one_witness :
  List.length
    [ {| score := 0.8; reason := "word boundary match in name"; distance := 0 |} ] <= 1.
Proof.
  apply (resourceMatches_at_most_one (H := MiniRegExp.host) (Sample.named "my-webapp-svc") "svc"
           {| type := "fuzzy"; selector := "svc" |} (getFuzzyConfig "moderate") true).
  vm_compute. reflexivity.
Defined.

(** ** What one unit contributes *)

Section UnitFacts.

Context {H : Host}.

Lemma In_firstn {A} (n : nat) (l : list A) (x : A) : In x (firstn n l) -> In x l.
Proof.
  intro Hi. rewrite <- (firstn_skipn n l). apply in_or_app. left. exact Hi.
Qed.

Lemma deepSearchLoop_grows (resources : list Resource.t) (resourceType namespace queryLower : string)
    (strategy : Strategy) (cfg : SearchConfig) (includeLabels : bool) (maxResults : Z)
    (results out : list Result.t) :
  deepSearchLoop resources resourceType namespace queryLower strategy cfg includeLabels
    maxResults results = inr out ->
  exists added,
    out = (results ++ added)%list
    /\ (Z.of_nat (List.length out) <= Z.max maxResults (Z.of_nat (List.length results)))%Z
    /\ forall r, In r added ->
         Result.resourceType r = resourceType /\ Result.namespace r = namespace
         /\ In (Result.resource r) resources.
Proof.
  revert results. induction resources as [|c rest IH]; intros results E.
  - cbn [deepSearchLoop] in E. injection E as <-. exists []. rewrite app_nil_r.
    split; [reflexivity|]. split; [lia|]. intros r [].
  - cbn [deepSearchLoop] in E. unfold lengthAtLeast in E.
    destruct (Z.leb_spec maxResults (Z.of_nat (List.length results))) as [Hle|Hgt].
    + injection E as <-. exists []. rewrite app_nil_r.
      split; [reflexivity|]. split; [lia|]. intros r [].
    + destruct (resourceMatches c queryLower strategy cfg includeLabels) as [e|[|m ms]];
        [discriminate| |].
      * apply IH in E. destruct E as [added [-> [Hlen Hin]]]. exists added.
        split; [reflexivity|]. split; [lia|].
        intros r Hr. destruct (Hin r Hr) as [? [? ?]]. repeat split; auto. right. assumption.
      * apply IH in E. destruct E as [added [Eo [Hlen Hin]]].
        rewrite length_app in Hlen. cbn [List.length] in Hlen.
        eexists (_ :: added). split; [rewrite Eo, <- app_assoc; reflexivity|]. split; [lia|].
        intros r [<-|Hr]; [cbn; auto|].
        destruct (Hin r Hr) as [? [? ?]]. repeat split; auto. right. assumption.
Qed.

Lemma deepSearchResources_within (resources : list Resource.t)
    (resourceType namespace query : string) (strategy : Strategy) (cfg : SearchConfig)
    (includeLabels includeAnnotations : bool) (maxResults : Z) (out : list Result.t) :
  deepSearchResources resources resourceType namespace query strategy cfg
    includeLabels includeAnnotations maxResults = inr out ->
  (Z.of_nat (List.length out) <= Z.max maxResults 0)%Z
  /\ forall r, In r out ->
       Result.resourceType r = resourceType /\ Result.namespace r = namespace
       /\ In (Result.resource r) resources.
Proof.
  unfold deepSearchResources. intro E. apply deepSearchLoop_grows in E.
  destruct E as [added [-> [Hlen Hin]]]. cbn [app List.length] in *. auto.
Qed.

(** X3. A deep scan that does not throw returns at most [maxResults]
    results (none for a bound of 0 or less), each of them for one of the
    candidates it was given, under the given kind and namespace. *)
Theorem deepSearchResources_bounded (resources : list Resource.t)
    (resourceType namespace query : string) (strategy : Strategy) (cfg : SearchConfig)
    (includeLabels includeAnnotations : bool) (maxResults : Z) (out : list Result.t) :
  deepSearchResources resources resourceType namespace query strategy cfg
    includeLabels includeAnnotations maxResults = inr out ->
  (Z.of_nat (List.length out) <= Z.max maxResults 0)%Z
  /\ forall r, In r out ->
       Result.resourceType r = resourceType /\ Result.namespace r = namespace
       /\ In (Result.resource r) resources.
Proof. intros. eapply deepSearchResources_within; eassumption. Qed.

Lemma quickScanResources_length (resources : list Resource.t)
    (resourceType namespace queryLower : string) (maxResults : Z) :
  (Z.of_nat (List.length (quickScanResources resources resourceType namespace queryLower maxResults))
   <= Z.max maxResults 0)%Z.
Proof. rewrite quickScanResources_filter, length_firstn. lia. Qed.

Lemma quickScanResources_In (resources : list Resource.t)
    (resourceType namespace queryLower : string) (maxResults : Z) (r : Result.t) :
  In r (quickScanResources resources resourceType namespace queryLower maxResults) ->
  r = quickResult resourceType namespace (Result.resource r)
  /\ In (Result.resource r) resources
  /\ nameContains queryLower (Result.resource r) = true.
Proof.
  rewrite quickScanResources_filter. intro Hi. apply In_firstn in Hi.
  apply in_map_iff in Hi. destruct Hi as [c [<- Hc]]. apply filter_In in Hc.
  destruct Hc as [Hc Hn]. cbn. auto.
Qed.

Lemma namespaceResults_within (p : Params) (resourceType namespace : string)
    (resources : list Resource.t) (found : nat) :
  List.length (namespaceResults p resourceType namespace resources found) <= 10
  /\ (Z.of_nat (List.length (namespaceResults p resourceType namespace resources found))
      <= Z.max (p_limit p - Z.of_nat found) 0)%Z
  /\ forall r, In r (namespaceResults p resourceType namespace resources found) ->
       Result.resourceType r = resourceType /\ Result.namespace r = namespace
       /\ In (Result.resource r) resources.
Proof.
  unfold namespaceResults.
  destruct (List.length resources =? 0)%nat; [cbn; split; [lia|split; [lia|intros r []]]|].
  cbv zeta.
  set (quick := quickScanResources resources resourceType namespace (Js.toLowerCase (p_query p))
                  (Z.min 10 (p_limit p - Z.of_nat found))).
  pose proof (quickScanResources_length resources resourceType namespace
                (Js.toLowerCase (p_query p)) (Z.min 10 (p_limit p - Z.of_nat found))) as Hq.
  fold quick in Hq.
  assert (Hqin : forall r, In r quick ->
            Result.resourceType r = resourceType /\ Result.namespace r = namespace
            /\ In (Result.resource r) resources).
  { intros r Hr. apply quickScanResources_In in Hr. destruct Hr as [-> [Hr _]]. cbn. auto. }
  destruct (Nat.ltb_spec (List.length quick) 5) as [H5|H5]; cbn [andb];
    [|split; [lia|split; [lia|exact Hqin]]].
  destruct (List.length quick <? List.length resources)%nat;
    [|split; [lia|split; [lia|exact Hqin]]].
  destruct (deepSearchResources _ _ _ _ _ _ _ _ _) as [e|deep] eqn:Ed;
    [cbn; split; [lia|split; [lia|intros r []]]|].
  apply deepSearchResources_within in Ed. destruct Ed as [Hd Hdin].
  rewrite length_app. split; [lia|]. split; [lia|].
  intros r Hr. apply in_app_or in Hr. destruct Hr as [Hr|Hr]; [auto|].
  destruct (Hdin r Hr) as [? [? Hf]]. apply filter_In in Hf. tauto.
Qed.

(** X4. One (kind, namespace) unit contributes at most 10 results and never
    more than the part of the limit that was left when its batch started;
    every one of them is for a candidate listed for the unit and carries the
    unit's kind and namespace. *)
Theorem namespaceResults_bounded (p : Params) (resourceType namespace : string)
    (resources : list Resource.t) (found : nat) :
  List.length (namespaceResults p resourceType namespace resources found) <= 10
  /\ (Z.of_nat (List.length (namespaceResults p resourceType namespace resources found))
      <= Z.max (p_limit p - Z.of_nat found) 0)%Z
  /\ forall r, In r (namespaceResults p resourceType namespace resources found) ->
       Result.resourceType r = resourceType /\ Result.namespace r = namespace
       /\ In (Result.resource r) resources.
Proof. intros. eapply namespaceResults_within; eassumption. Qed.

End UnitFacts.

(** A deep scan with bound 1 over two candidates that both match. *)
Lemma deepSearchResources_bounded_witness :
  (Z.of_nat (List.length [ Sample.pod (Sample.named "webap") 0.75 "fuzzy name match (distance: 1)" 1 ])
   <= Z.max 1 0)%Z.
Proof.
  refine (proj1 (deepSearchResources_bounded (H := MiniRegExp.host)
                   [ Sample.named "webap"; Sample.named "webapq" ] "pods" "default" "webapp"
                   {| type := "fuzzy"; selector := "webapp" |} (getFuzzyConfig "moderate")
                   true false 1 _ _)).
  vm_compute. reflexivity.
Defined.

(** ** Prioritisation *)

Lemma filter_partition_perm {A} (f : A -> bool) (l : list A) :
  Permutation (filter f l ++ filter (fun x => negb (f x)) l)%list l.
Proof.
  induction l as [|x l IH]; [apply perm_nil|].
  cbn [filter]. destruct (f x); cbn [negb app].
  - apply perm_skip, IH.
  - apply Permutation_sym, Permutation_cons_app, Permutation_sym, IH.
Qed.

Lemma prioritizeNamespaces_reorders (namespaces : list string) (query : string) :
  Permutation (prioritizeNamespaces namespaces query) namespaces.
Proof. unfold prioritizeNamespaces. cbv zeta. apply filter_partition_perm. Qed.

(** X5. Prioritising namespaces only reorders them: the outcome is a
    permutation of the input, so no namespace is dropped or searched twice
    because of it. *)
Theorem prioritizeNamespaces_perm (namespaces : list string) (query : string) :
  Permutation (prioritizeNamespaces namespaces query) namespaces.
Proof. intros. eapply prioritizeNamespaces_reorders; eassumption. Qed.

(** X6. A namespace whose lower-cased name contains the lower-cased query
    is ahead of every namespace that neither contains the query nor shares
    one of the hints [dev], [prod], [test], [demo] with it. *)
Theorem prioritizeNamespaces_query_first (namespaces : list string) (query a b : string) :
  In a namespaces -> In b namespaces ->
  Js.includes (Js.toLowerCase a) (Js.toLowerCase query) = true ->
  Js.includes (Js.toLowerCase b) (Js.toLowerCase query) = false ->
  (forall hint, In hint [ "dev"; "prod"; "test"; "demo" ] ->
     Js.includes (Js.toLowerCase query) hint && Js.includes (Js.toLowerCase b) hint = false) ->
  exists front back,
    prioritizeNamespaces namespaces query = (front ++ back)%list
    /\ In a front /\ ~ In b front /\ In b back.
Proof.
  intros Ha Hb Hqa Hqb Hh. unfold prioritizeNamespaces. cbv zeta.
  eexists; eexists. split; [reflexivity|].
  assert (Hpb : (Js.includes (Js.toLowerCase b) (Js.toLowerCase query)
                 || (Js.includes (Js.toLowerCase query) "dev" && Js.includes (Js.toLowerCase b) "dev"
                     || Js.includes (Js.toLowerCase query) "prod" && Js.includes (Js.toLowerCase b) "prod"
                     || Js.includes (Js.toLowerCase query) "test" && Js.includes (Js.toLowerCase b) "test"
                     || Js.includes (Js.toLowerCase query) "demo" && Js.includes (Js.toLowerCase b) "demo"))
                = false).
  { rewrite Hqb, (Hh "dev"), (Hh "prod"), (Hh "test"), (Hh "demo"); cbn; auto 6. }
  split; [|split].
  - apply filter_In. split; [exact Ha|]. rewrite Hqa. reflexivity.
  - intro Hi. apply filter_In in Hi. destruct Hi as [_ Hi]. congruence.
  - apply filter_In. split; [exact Hb|]. rewrite Hpb. reflexivity.
Qed.

(** The namespaces [kube-system], [webapp-prod], [default] and the query [webapp]. *)
Lemma prioritizeNamespaces_query_first_witness :
  exists front back,
    prioritizeNamespaces [ "kube-system"; "webapp-prod"; "default" ] "webapp"
      = (front ++ back)%list
    /\ In "webapp-prod" front /\ ~ In "kube-system" front /\ In "kube-system" back.
Proof.
  apply (prioritizeNamespaces_query_first [ "kube-system"; "webapp-prod"; "default" ]
           "webapp" "webapp-prod" "kube-system").
  - cbn. auto.
  - cbn. auto.
  - reflexivity.
  - reflexivity.
  - intros hint [<-|[<-|[<-|[<-|[]]]]]; reflexivity.
Defined.

Lemma prioritizeResourceTypes_reorders (resourceTypes : list string) (query : string) :
  Permutation (prioritizeResourceTypes resourceTypes query) resourceTypes.
Proof. unfold prioritizeResourceTypes. cbv zeta. apply sortBy_perm. Qed.

(** X7. Prioritising resource types only reorders them. *)
Theorem prioritizeResourceTypes_perm (resourceTypes : list string) (query : string) :
  Permutation (prioritizeResourceTypes resourceTypes query) resourceTypes.
Proof. intros. eapply prioritizeResourceTypes_reorders; eassumption. Qed.

(** ** Sorting by a numeric key *)

Section SortByKey.

Context {A : Type} (key : A -> Z).

Let after (a b : A) : bool := (0 <? key a - key b)%Z.
Let ordered (a b : A) : Prop := (key a <= key b)%Z.

Lemma insertSorted_key_sorted (x : A) (l : list A) :
  StronglySorted ordered l -> StronglySorted ordered (insertSorted after x l).
Proof.
  induction l as [|y l IH]; intro Hs; cbn [insertSorted].
  - constructor; constructor.
  - inversion Hs as [|? ? Hl Hy]; subst. unfold after at 1.
    destruct (Z.ltb_spec 0 (key x - key y)).
    + constructor; [apply IH, Hl|].
      eapply Permutation_Forall; [apply Permutation_sym, insertSorted_perm|].
      constructor; [unfold ordered; lia|exact Hy].
    + constructor; [exact Hs|]. constructor; [unfold ordered; lia|].
      eapply Forall_impl; [|exact Hy]. unfold ordered. intros; lia.
Qed.

Lemma sortBy_key_sorted (l : list A) : StronglySorted ordered (sortBy after l).
Proof.
  induction l as [|x l IH]; cbn [sortBy]; [constructor|].
  apply insertSorted_key_sorted, IH.
Qed.

Lemma sortBy_key_sorted_id (l : list A) : StronglySorted ordered l -> sortBy after l = l.
Proof.
  induction l as [|x l IH]; intro Hs; [reflexivity|].
  inversion Hs as [|? ? Hl Hx]; subst. cbn [sortBy]. rewrite (IH Hl).
  destruct l as [|y l]; [reflexivity|]. cbn [insertSorted]. unfold after.
  inversion Hx as [|? ? Hxy _]; subst. unfold ordered in Hxy.
  destruct (Z.ltb_spec 0 (key x - key y)); [lia|reflexivity].
Qed.

End SortByKey.

Lemma insertSorted_ext_in {A} (f g : A -> A -> bool) (x : A) (l : list A) :
  (forall b, In b l -> f x b = g x b) -> insertSorted f x l = insertSorted g x l.
Proof.
  induction l as [|y l IH]; intro E; [reflexivity|].
  cbn [insertSorted]. rewrite (E y) by (left; reflexivity).
  rewrite IH by (intros b Hb; apply E; right; exact Hb). reflexivity.
Qed.

Lemma sortBy_ext_in {A} (f g : A -> A -> bool) (l : list A) :
  (forall a b, In a l -> In b l -> f a b = g a b) -> sortBy f l = sortBy g l.
Proof.
  induction l as [|x l IH]; intro E; [reflexivity|].
  cbn [sortBy]. rewrite IH by (intros a b Ha Hb; apply E; right; assumption).
  apply insertSorted_ext_in. intros b Hb. apply E; [left; reflexivity|right].
  eapply Permutation_in; [apply sortBy_perm|exact Hb].
Qed.

Lemma sortBy_sorted_id {A} (after : A -> A -> bool) (l : list A) :
  StronglySorted (fun a b => after a b = false) l -> sortBy after l = l.
Proof.
  induction l as [|x l IH]; intro Hs; [reflexivity|].
  inversion Hs as [|? ? Hl Hx]; subst. cbn [sortBy]. rewrite (IH Hl).
  destruct l as [|y l]; [reflexivity|]. cbn [insertSorted].
  inversion Hx as [|? ? Hxy _]; subst. rewrite Hxy. reflexivity.
Qed.

Lemma setPriority_proto (key : string) (value : Z) (priority : string -> option Z) :
  setPriority key value priority "__proto__" = priority "__proto__".
Proof.
  unfold setPriority. destruct (String.eqb_spec key "__proto__") as [|Hk]; [reflexivity|].
  destruct (String.eqb_spec "__proto__" key); [congruence|reflexivity].
Qed.

Lemma setPriority_same (key : string) (value : Z) (priority : string -> option Z) :
  key <> "__proto__" -> setPriority key value priority key = Some value.
Proof.
  intro Hk. unfold setPriority. destruct (String.eqb_spec key "__proto__"); [contradiction|].
  rewrite String.eqb_refl. reflexivity.
Qed.

Lemma setPriority_other (key : string) (value : Z) (priority : string -> option Z)
    (x : string) :
  x <> key -> setPriority key value priority x = priority x.
Proof.
  intro Hx. unfold setPriority. destruct (String.eqb key "__proto__"); [reflexivity|].
  destruct (String.eqb_spec x key); [contradiction|reflexivity].
Qed.

Lemma defaultPriorities_other (resourceTypes : list string) (index : Z)
    (priority : string -> option Z) (x : string) :
  ~ In x resourceTypes -> defaultPriorities resourceTypes index priority x = priority x.
Proof.
  revert index priority. induction resourceTypes as [|rt rest IH]; intros index priority Hn.
  - reflexivity.
  - cbn [defaultPriorities]. rewrite IH by (intro; apply Hn; right; assumption).
    apply setPriority_other. intro E. apply Hn. left. congruence.
Qed.

Lemma defaultPriorities_proto (resourceTypes : list string) (index : Z)
    (priority : string -> option Z) :
  defaultPriorities resourceTypes index priority "__proto__" = priority "__proto__".
Proof.
  revert index priority. induction resourceTypes as [|rt rest IH]; intros index priority.
  - reflexivity.
  - cbn [defaultPriorities]. rewrite IH. apply setPriority_proto.
Qed.

Lemma defaultPriorities_lower (resourceTypes : list string) (index : Z)
    (priority : string -> option Z) (x : string) :
  In x resourceTypes -> x <> "__proto__" ->
  exists v, defaultPriorities resourceTypes index priority x = Some v /\ (index <= v)%Z.
Proof.
  revert index priority. induction resourceTypes as [|rt rest IH]; intros index priority Hi Hx.
  - destruct Hi.
  - cbn [defaultPriorities]. destruct (in_dec string_dec x rest) as [Hr|Hr].
    + destruct (IH (index + 1)%Z (setPriority rt index priority) Hr Hx) as [v [Ev Hv]].
      exists v. split; [exact Ev|lia].
    + rewrite defaultPriorities_other by exact Hr.
      destruct Hi as [->|Hi]; [|contradiction].
      exists index. split; [apply setPriority_same, Hx|lia].
Qed.

Lemma defaultPriorities_sorted (resourceTypes : list string) (index : Z)
    (priority : string -> option Z) :
  NoDup resourceTypes -> priority "__proto__" = None ->
  StronglySorted
    (fun a b => priorityAfter (defaultPriorities resourceTypes index priority) a b = false)
    resourceTypes.
Proof.
  revert index priority. induction resourceTypes as [|rt rest IH]; intros index priority Hd Hp.
  - constructor.
  - inversion Hd as [|? ? Hn Hd']; subst. cbn [defaultPriorities]. constructor.
    + apply IH; [exact Hd'|]. rewrite setPriority_proto. exact Hp.
    + rewrite Forall_forall. intros x Hx. unfold priorityAfter, comparePriority.
      rewrite (defaultPriorities_other rest) by exact Hn.
      destruct (string_dec rt "__proto__") as [->|Hrt].
      { rewrite setPriority_proto, Hp. reflexivity. }
      rewrite setPriority_same by exact Hrt.
      destruct (string_dec x "__proto__") as [->|Hxp].
      { rewrite defaultPriorities_proto, setPriority_proto, Hp. reflexivity. }
      destruct (defaultPriorities_lower rest (index + 1) (setPriority rt index priority)
                  x Hx Hxp) as [v [-> Hv]].
      apply Z.ltb_ge. lia.
Qed.

(** X8. A query without any of the hints [pod], [container], [service],
    [svc], [deploy], [app], [job] leaves a list of distinct resource types
    in the order the caller gave. *)
Theorem prioritizeResourceTypes_no_hint (resourceTypes : list string) (query : string) :
  NoDup resourceTypes ->
  (forall hint,
     In hint [ "pod"; "container"; "service"; "svc"; "deploy"; "app"; "job" ] ->
     Js.includes (Js.toLowerCase query) hint = false) ->
  prioritizeResourceTypes resourceTypes query = resourceTypes.
Proof.
  intros Hd Hh. unfold prioritizeResourceTypes. cbv zeta.
  rewrite (Hh "pod"), (Hh "container"), (Hh "service"), (Hh "svc"), (Hh "deploy"),
    (Hh "app"), (Hh "job") by (cbn; auto 10).
  cbn [orb].
  apply sortBy_sorted_id.
  apply defaultPriorities_sorted; [exact Hd|reflexivity].
Qed.

(** The default kinds and the query [nginx]. *)
Lemma prioritizeResourceTypes_no_hint_witness :
  prioritizeResourceTypes [ "pods"; "deployments"; "services" ] "nginx"
  = [ "pods"; "deployments"; "services" ].
Proof.
  apply prioritizeResourceTypes_no_hint.
  - repeat constructor; cbn; intuition discriminate.
  - intros hint [<-|[<-|[<-|[<-|[<-|[<-|[<-|[]]]]]]]]; reflexivity.
Defined.

(** X9. When the query mentions [pod] or [container] and [pods] is among
    the resource types, [pods] is searched first, whatever the other hints
    and the order given, as long as [__proto__] is not among the resource
    types: that key never holds a priority, the comparator answers [NaN]
    for it, and the sort may then leave [pods] behind it. *)
Theorem prioritizeResourceTypes_pods_first (resourceTypes : list string) (query : string) :
  Js.includes (Js.toLowerCase query) "pod" || Js.includes (Js.toLowerCase query) "container"
    = true ->
  In "pods" resourceTypes ->
  ~ In "__proto__" resourceTypes ->
  exists rest, prioritizeResourceTypes resourceTypes query = "pods" :: rest.
Proof.
  intros Hq Hi Hproto. unfold prioritizeResourceTypes. cbv zeta. rewrite Hq.
  set (p0 := setPriority "pods" (-10) (defaultPriorities resourceTypes 0 (fun _ => None))).
  set (prio := if Js.includes (Js.toLowerCase query) "job" then _ else _).
  assert (Hpods : prio "pods" = Some (-10)%Z).
  { subst prio p0.
    destruct (Js.includes _ "service" || _), (Js.includes _ "deploy" || _),
      (Js.includes _ "job"); reflexivity. }
  assert (Hother : forall x, In x resourceTypes -> x <> "pods" ->
                             exists v, prio x = Some v /\ (-9 <= v)%Z).
  { intros x Hin Hx.
    assert (Hxp : x <> "__proto__") by (intro; subst; contradiction).
    destruct (defaultPriorities_lower resourceTypes 0 (fun _ => None) x Hin Hxp)
      as [v0 [E0 H0]].
    assert (Hset : forall key value (q : string -> option Z),
               key <> "__proto__" ->
               (exists v, q x = Some v /\ (-9 <= v)%Z) -> (-9 <= value)%Z ->
               exists v, setPriority key value q x = Some v /\ (-9 <= v)%Z).
    { intros key value q Hk Hqx Hv. destruct (string_dec x key) as [->|Hne].
      - rewrite setPriority_same by exact Hk. eauto.
      - rewrite setPriority_other by exact Hne. exact Hqx. }
    assert (H1 : exists v, p0 x = Some v /\ (-9 <= v)%Z).
    { subst p0. rewrite setPriority_other by exact Hx. exists v0. split; [exact E0|lia]. }
    subst prio.
    destruct (Js.includes _ "service" || _), (Js.includes _ "deploy" || _),
      (Js.includes _ "job");
      repeat (apply Hset; [discriminate| |lia]); exact H1. }
  set (key := fun x => match prio x with Some z => z | None => 0%Z end).
  assert (Hkey : forall x, In x resourceTypes -> prio x = Some (key x)).
  { intros x Hin. unfold key. destruct (string_dec x "pods") as [->|Hne].
    - rewrite Hpods. reflexivity.
    - destruct (Hother x Hin Hne) as [v [-> _]]. reflexivity. }
  rewrite (sortBy_ext_in (priorityAfter prio) (fun a b => (0 <? key a - key b)%Z)).
  2:{ intros a b Ha Hb. unfold priorityAfter, comparePriority.
      rewrite (Hkey a Ha), (Hkey b Hb). reflexivity. }
  pose proof (sortBy_key_sorted key resourceTypes) as Hs.
  pose proof (sortBy_perm (fun a b => (0 <? key a - key b)%Z) resourceTypes) as Hp.
  destruct (sortBy (fun a b => (0 <? key a - key b)%Z) resourceTypes) as [|h rest] eqn:Es.
  - apply Permutation_nil in Hp. subst. destruct Hi.
  - exists rest. f_equal.
    destruct (string_dec h "pods") as [|Hne]; [assumption|exfalso].
    inversion Hs as [|? ? _ Hall]; subst.
    assert (Hh : In h resourceTypes)
      by (eapply Permutation_in; [exact Hp|left; reflexivity]).
    assert (Hin : In "pods" (h :: rest))
      by (eapply Permutation_in; [apply Permutation_sym, Hp|exact Hi]).
    destruct Hin as [->|Hin]; [congruence|].
    rewrite Forall_forall in Hall. specialize (Hall _ Hin).
    destruct (Hother h Hh Hne) as [v [Ev Hv]].
    cbv beta in Hall. unfold key in Hall. rewrite Ev, Hpods in Hall. lia.
Qed.

(** The default kinds, pods last, and a query that names a pod. *)
Lemma prioritizeResourceTypes_pods_first_witness :
  exists rest,
    prioritizeResourceTypes [ "deployments"; "services"; "pods" ] "api-pod" = "pods" :: rest.
Proof.
  apply prioritizeResourceTypes_pods_first; [reflexivity|cbn; auto|].
  cbn. intuition discriminate.
Defined.

(** With [__proto__] among the resource types and a query that names a
    pod, [pods] stays last. *)
Lemma prioritizeResourceTypes_proto_keeps_order :
  prioritizeResourceTypes [ "services"; "__proto__"; "pods" ] "pod"
  = [ "services"; "__proto__"; "pods" ].
Proof. reflexivity. Qed.

(** ** What the streaming search returns and how much it asks *)

Section StreamFacts.

Context {H : Host}.

Variable listing : Listing.
Variable p : Params.

(** A property of results that every unit of a kind establishes. *)
Variable good : Result.t -> Prop.

Lemma mergeBatch_all (perNamespace : list (list Result.t)) (results : list Result.t) :
  (forall nr r, In nr perNamespace -> In r nr -> good r) ->
  (forall r, In r results -> good r) ->
  forall r, In r (mergeBatch (p_limit p) perNamespace results) -> good r.
Proof.
  revert results. induction perNamespace as [|nr rest IH]; intros results Hper Hres r Hr.
  - apply Hres, Hr.
  - cbn [mergeBatch] in Hr.
    assert (Hnew : forall r, In r (results ++ nr)%list -> good r).
    { intros r' Hr'. apply in_app_or in Hr'. destruct Hr' as [Hr'|Hr'];
        [apply Hres, Hr'|apply (Hper nr); [left; reflexivity|exact Hr']]. }
    destruct (lengthAtLeast (results ++ nr)%list (p_limit p)); [apply Hnew, Hr|].
    revert r Hr. apply IH; [|exact Hnew].
    intros nr' r' Hn. apply Hper. right. exact Hn.
Qed.

Lemma batchResults_all (resourceType : string) (batch : list string) (found calls : nat) :
  (forall namespace call r,
     In namespace batch ->
     In r (namespaceResults p resourceType namespace
             (getResourcesWithPreFilter (listing call resourceType namespace)) found) ->
     good r) ->
  forall nr r, In nr (batchResults listing p resourceType batch found calls) -> In r nr -> good r.
Proof.
  revert calls. induction batch as [|namespace batch IH]; intros calls Hu nr r Hn Hr.
  - destruct Hn.
  - cbn [batchResults] in Hn. destruct Hn as [<-|Hn].
    + eapply Hu; [left; reflexivity|exact Hr].
    + eapply IH; [|exact Hn|exact Hr]. intros ns call r' Hns. apply Hu. right. exact Hns.
Qed.

Lemma batchLoop_all (resourceType : string) (batches : list (list string))
    (state : list Result.t * nat) :
  (forall batch namespace call found r,
     In batch batches -> In namespace batch ->
     In r (namespaceResults p resourceType namespace
             (getResourcesWithPreFilter (listing call resourceType namespace)) found) ->
     good r) ->
  (forall r, In r (fst state) -> good r) ->
  forall r, In r (fst (batchLoop listing p resourceType batches state)) -> good r.
Proof.
  revert state. induction batches as [|batch rest IH]; intros [results calls] Hu Hres r Hr.
  - apply Hres, Hr.
  - cbn [batchLoop] in Hr. cbn [fst] in Hres.
    destruct (lengthAtLeast results (p_limit p)); [apply Hres, Hr|].
    assert (Hm : forall r,
              In r (mergeBatch (p_limit p)
                      (batchResults listing p resourceType batch (List.length results) calls)
                      results) -> good r).
    { apply mergeBatch_all; [|exact Hres].
      apply batchResults_all. intros ns call r' Hns. apply (Hu batch); [left; reflexivity|exact Hns]. }
    destruct (lengthAtLeast _ (p_limit p)); [apply Hm, Hr|].
    revert r Hr. apply IH; [|exact Hm].
    intros b ns call found r' Hb. apply Hu. right. exact Hb.
Qed.

Lemma batchLoop_calls (resourceType : string) (batches : list (list string))
    (state : list Result.t * nat) :
  snd (batchLoop listing p resourceType batches state)
  <= snd state + List.length (List.concat batches).
Proof.
  revert state. induction batches as [|batch rest IH]; intros [results calls].
  - cbn. lia.
  - cbn [batchLoop List.concat]. rewrite length_app.
    destruct (lengthAtLeast results (p_limit p)); [cbn; lia|].
    destruct (lengthAtLeast _ (p_limit p)); [cbn; lia|].
    etransitivity; [apply IH|]. cbn [snd]. lia.
Qed.

End StreamFacts.

Section StreamResults.

Context {H : Host}.

Lemma typeLoop_all (listing : Listing) (p : Params) (good : Result.t -> Prop)
    (resourceTypes namespaces : list string) (state : list Result.t * nat) :
  (forall resourceType namespace call found r,
     In resourceType resourceTypes -> In namespace namespaces ->
     In r (namespaceResults p resourceType namespace
             (getResourcesWithPreFilter (listing call resourceType namespace)) found) ->
     good r) ->
  (forall r, In r (fst state) -> good r) ->
  forall r, In r (fst (typeLoop listing p resourceTypes namespaces state)) -> good r.
Proof.
  revert state. induction resourceTypes as [|rt rest IH]; intros state Hu Hres r Hr.
  - apply Hres, Hr.
  - cbn [typeLoop] in Hr.
    destruct (lengthAtLeast (fst state) (p_limit p)); [apply Hres, Hr|].
    assert (Hb : forall r, In r (fst (batchLoop listing p rt (batchesOf namespaces) state)) ->
                           good r).
    { apply batchLoop_all; [|exact Hres].
      intros batch ns call found r' Hbatch Hns. apply Hu; [left; reflexivity|].
      rewrite <- (batchesOf_concat namespaces). apply in_concat. eauto. }
    destruct (lengthAtLeast _ (p_limit p)); [apply Hb, Hr|].
    revert r Hr. apply IH; [|exact Hb].
    intros rt' ns call found r' Hrt. apply Hu. right. exact Hrt.
Qed.

Lemma typeLoop_calls (listing : Listing) (p : Params)
    (resourceTypes namespaces : list string) (state : list Result.t * nat) :
  snd (typeLoop listing p resourceTypes namespaces state)
  <= snd state + List.length resourceTypes * List.length namespaces.
Proof.
  revert state. induction resourceTypes as [|rt rest IH]; intro state.
  - cbn. lia.
  - cbn [typeLoop List.length].
    destruct (lengthAtLeast (fst state) (p_limit p)); [lia|].
    pose proof (batchLoop_calls listing p rt (batchesOf namespaces) state) as Hb.
    rewrite batchesOf_concat in Hb.
    destruct (lengthAtLeast _ (p_limit p)); [lia|].
    etransitivity; [apply IH|]. lia.
Qed.

Lemma slice0_In {A} (l : list A) (e : Z) (x : A) : In x (Js.slice0 l e) -> In x l.
Proof. unfold Js.slice0. destruct (e <? 0)%Z; apply In_firstn. Qed.

Lemma streamingSearch_origin (listing : Listing) (resourceTypes namespaces : list string)
    (p : Params) (r : Result.t) :
  In r (streamingSearch listing resourceTypes namespaces p) ->
  In (Result.resourceType r) resourceTypes
  /\ In (Result.namespace r) namespaces
  /\ listedBy listing r.
Proof.
  unfold streamingSearch. cbv zeta. intro Hr.
  apply slice0_In in Hr. revert r Hr.
  apply (typeLoop_all listing p
           (fun r => In (Result.resourceType r) resourceTypes
                     /\ In (Result.namespace r) namespaces /\ listedBy listing r)).
  - intros rt ns call found r Hrt Hns Hr.
    apply namespaceResults_within in Hr. destruct Hr as [Ert [Ens Hin]].
    unfold listedBy. rewrite Ert, Ens. split; [|split].
    + eapply Permutation_in; [apply prioritizeResourceTypes_reorders|exact Hrt].
    + eapply Permutation_in; [apply prioritizeNamespaces_reorders|exact Hns].
    + exists call. exact Hin.
  - intros r [].
Qed.

(** X10. Every result of the streaming search carries one of the requested
    resource types and one of the given namespaces, and is for an object
    that a listing call returned for exactly that type and namespace. *)
Theorem streamingSearch_provenance (listing : Listing) (resourceTypes namespaces : list string)
    (p : Params) (r : Result.t) :
  In r (streamingSearch listing resourceTypes namespaces p) ->
  In (Result.resourceType r) resourceTypes
  /\ In (Result.namespace r) namespaces
  /\ listedBy listing r.
Proof. intros. eapply streamingSearch_origin; eassumption. Qed.

(** X11. One search issues at most one listing call per pair of a resource
    type and a namespace, and none at all when the limit is 0 or less. *)
Theorem streamingSearch_calls (listing : Listing) (resourceTypes namespaces : list string)
    (p : Params) :
  let calls :=
    snd (typeLoop listing p (prioritizeResourceTypes resourceTypes (p_query p))
           (prioritizeNamespaces namespaces (p_query p)) ([], 0)) in
  calls <= List.length resourceTypes * List.length namespaces
  /\ ((p_limit p <= 0)%Z -> calls = 0).
Proof.
  cbv zeta. split.
  - etransitivity; [apply typeLoop_calls|]. cbn [snd].
    rewrite (Permutation_length (prioritizeResourceTypes_reorders resourceTypes (p_query p))).
    rewrite (Permutation_length (prioritizeNamespaces_reorders namespaces (p_query p))). lia.
  - intro Hl. rewrite typeLoop_limit_reached; [reflexivity|].
    unfold lengthAtLeast. apply Z.leb_le. exact Hl.
Qed.

End StreamResults.

(** The pods [web-1] and [db] of namespace [default], searched for [web]. *)
Lemma streamingSearch_provenance_witness :
  In "pods" [ "pods" ] /\ In "default" [ "default" ]
  /\ listedBy (Sample.podsOf [ Sample.named "web-1"; Sample.named "db" ])
       (Sample.pod (Sample.named "web-1") 1.0 "exact substring match in name" 0).
Proof.
  apply (streamingSearch_provenance (H := MiniRegExp.host)
           (Sample.podsOf [ Sample.named "web-1"; Sample.named "db" ]) [ "pods" ] [ "default" ]
           {| p_query := "web";
              p_strategy := {| type := "fuzzy"; selector := "web" |};
              p_searchConfig := getFuzzyConfig "moderate";
              p_includeLabels := true; p_includeAnnotations := false;
              p_recent := false; p_limit := 20 |}
           (Sample.pod (Sample.named "web-1") 1.0 "exact substring match in name" 0)).
  vm_compute. left. reflexivity.
Defined.

(** ** The search command with an explicit namespace set *)

Section CommandFacts.

Context {H : Host}.

(** X12. With a query that is not blank and a non-empty explicit namespace
    set the search never throws, whatever the cluster does: it returns a
    result list labelled with the chosen strategy, and every result lies in
    one of the given namespaces, has one of the requested resource types
    (pods, deployments, services by default) and is for an object that the
    collaborator listed under that type and namespace. *)
Theorem kubectlUnifiedSearch_explicit (discovery : Exec string) (listing : Listing)
    (input : Input) (n : string) (ns : list string) :
  isBlank (query input) = false ->
  namespaces input = Some (n :: ns) ->
  exists results,
    kubectlUnifiedSearch discovery listing input
    = Returned results
        (type (determineSearchStrategy (query input) (orDefault (searchMode input) "auto")))
    /\ forall r, In r results ->
         In (Result.namespace r) (n :: ns)
         /\ In (Result.resourceType r)
              (orDefault (resourceTypes input) [ "pods"; "deployments"; "services" ])
         /\ listedBy listing r.
Proof.
  intros Hb Hn. unfold kubectlUnifiedSearch. rewrite Hb, Hn.
  cbn [getTargetNamespaces bounded List.length Nat.eqb]. cbv zeta.
  eexists. split; [reflexivity|].
  intros r Hr.
  eapply Permutation_in in Hr; [|apply sortResults_perm].
  apply streamingSearch_origin in Hr. tauto.
Qed.

Lemma bounded_In (l : list string) (maxNamespaces : option Z) (x : string) :
  In x (bounded l maxNamespaces) -> In x l.
Proof.
  unfold bounded. destruct maxNamespaces as [m|]; [|auto].
  destruct (m =? 0)%Z; [auto|apply slice0_In].
Qed.

(** X13. When the namespaces are discovered with system namespaces
    excluded, no namespace of the fixed deny-list and none whose name
    starts with [kube-] or [openshift-] is searched, with or without a
    pattern and a maximum; what is searched is among the names the cluster
    printed. *)
Theorem discoverNamespaces_excludes_system (stdout : string) (namespacePattern : option string)
    (query : option string) (maxNamespaces : option Z) (found : list string) (n : string) :
  getTargetNamespaces (Yields stdout) None namespacePattern true query maxNamespaces
    = inr found ->
  In n found ->
  ~ In n systemNamespaces
  /\ Js.startsWith n "kube-" = false
  /\ Js.startsWith n "openshift-" = false
  /\ In n (parseNamespaces stdout).
Proof.
  unfold getTargetNamespaces, discoverNamespaces. cbv zeta. intros E Hi.
  assert (Hf : In n (filter (fun ns => negb (isSystemNamespace ns)) (parseNamespaces stdout))).
  { destruct namespacePattern as [[|c pat]|].
    - injection E as <-. eapply bounded_In, Hi.
    - destruct (RegExp_new _) as [e|re]; [discriminate|]. injection E as <-.
      apply bounded_In in Hi. apply filter_In in Hi. tauto.
    - injection E as <-. eapply bounded_In, Hi. }
  apply filter_In in Hf. destruct Hf as [Hp Hs].
  apply negb_true_iff in Hs. unfold isSystemNamespace in Hs.
  apply orb_false_iff in Hs. destruct Hs as [Hs Ho].
  apply orb_false_iff in Hs. destruct Hs as [Hs Hk].
  repeat split; try assumption.
  intro Hin. assert (Ht : existsb (String.eqb n) systemNamespaces = true).
  { apply existsb_exists. exists n. split; [exact Hin|apply String.eqb_refl]. }
  congruence.
Qed.

End CommandFacts.

(** The query [web] in the namespace [default] of a cluster with one pod. *)
Lemma kubectlUnifiedSearch_explicit_witness :
  exists results,
    kubectlUnifiedSearch (H := MiniRegExp.host) (Throws "unused")
      (Sample.podsOf [ Sample.named "web-1" ]) (Sample.searchFor "web")
    = Returned results "fuzzy"
    /\ forall r, In r results ->
         In (Result.namespace r) [ "default" ]
         /\ In (Result.resourceType r) [ "pods"; "deployments"; "services" ]
         /\ listedBy (Sample.podsOf [ Sample.named "web-1" ]) r.
Proof.
  apply (kubectlUnifiedSearch_explicit (H := MiniRegExp.host) (Throws "unused")
           (Sample.podsOf [ Sample.named "web-1" ]) (Sample.searchFor "web") "default" []);
    reflexivity.
Defined.

(** A cluster that prints four namespaces, two of them system namespaces. *)
Lemma discoverNamespaces_excludes_system_witness :
  ~ In "shop" systemNamespaces
  /\ Js.startsWith "shop" "kube-" = false
  /\ Js.startsWith "shop" "openshift-" = false
  /\ In "shop"
       (parseNamespaces "namespace/kube-system
namespace/shop
namespace/default
namespace/billing
").
Proof.
  apply (discoverNamespaces_excludes_system (H := MiniRegExp.host)
           "namespace/kube-system
namespace/shop
namespace/default
namespace/billing
" None None None [ "shop"; "billing" ] "shop").
  - vm_compute. reflexivity.
  - cbn. auto.
Defined.

(** ** The word-boundary rule *)

Lemma includes_substring (s w q : string) :
  (exists before rest, s = before ++ w ++ rest) ->
  Js.includes w q = true -> Js.includes s q = true.
Proof.
  intros [before [rest ->]] Hw. apply includes_iff in Hw. destruct Hw as [b [r ->]].
  apply includes_iff. exists (before ++ b), (r ++ rest).
  rewrite !append_assoc_string. reflexivity.
Qed.

(** The words of a split are pieces of the string, the first one a prefix. *)
Lemma splitOn_pieces (sep : ascii -> bool) (s : string) :
  (exists w ws rest, Js.splitOn sep s = w :: ws /\ s = w ++ rest)
  /\ forall w, In w (Js.splitOn sep s) -> exists before rest, s = before ++ w ++ rest.
Proof.
  induction s as [|c s [[w0 [ws [rest0 [Es Ep]]]] IH]].
  - split; [exists "", [], ""; auto|].
    intros w [<-|[]]. exists "", "". reflexivity.
  - cbn [Js.splitOn]. destruct (sep c).
    + split; [exists "", (Js.splitOn sep s), (String c s); auto|].
      intros w [<-|Hw]; [exists "", (String c s); reflexivity|].
      destruct (IH w Hw) as [before [rest E]]. exists (String c before), rest.
      cbn. congruence.
    + rewrite Es. split; [exists (String c w0), ws, rest0; cbn; split; congruence|].
      intros w [<-|Hw].
      * exists "", rest0. cbn. congruence.
      * destruct (IH w) as [before [rest E]]; [rewrite Es; right; exact Hw|].
        exists (String c before), rest. cbn. congruence.
Qed.

Lemma wordBoundaryMatches_contains (queryLower resourceName : string) :
  Js.includes resourceName queryLower = false ->
  wordBoundaryMatches queryLower resourceName = [].
Proof.
  intro Hn. unfold wordBoundaryMatches.
  destruct (existsb _ _) eqn:He; [|reflexivity].
  apply existsb_exists in He. destruct He as [w [Hw Hi]].
  apply (proj2 (splitOn_pieces isWordBreak resourceName)) in Hw.
  rewrite (includes_substring _ _ _ Hw Hi) in Hn. discriminate.
Qed.

Section WordBoundaryFacts.

Context {H : Host}.

(** A list of at most one match, none with the reason in question. *)
Ltac only_match :=
  let Hm := fresh "Hm" in
  intro Hm; cbn [In] in Hm;
  first [ contradiction | destruct Hm as [<-|[]]; cbn; discriminate ].

Lemma labelMatches_reason (entries : list (string * string)) (queryLower : string)
    (s : float) (m : Match) :
  In m (labelMatches entries queryLower s) -> reason m <> wordBoundaryReason.
Proof.
  induction entries as [|[k v] entries IH]; cbn [labelMatches]; [intros []|].
  destruct (Js.includes _ _); [|exact IH].
  intros [<-|[]]. cbn. discriminate.
Qed.

Lemma resourceMatches_reason (resource : Resource.t) (queryLower : string)
    (strategy : Strategy) (cfg : SearchConfig) (includeLabels : bool)
    (matches : list Match) (m : Match) :
  nameContains queryLower resource = false ->
  resourceMatches resource queryLower strategy cfg includeLabels = inr matches ->
  In m matches -> reason m <> wordBoundaryReason.
Proof.
  intro Hn. unfold nameContains in Hn. unfold resourceMatches. cbv zeta.
  destruct (String.eqb (type strategy) "labels").
  { destruct (Resource.labels (Resource.meta resource)) as [entries|];
      intro E; injection E as <-; [apply labelMatches_reason|intros []]. }
  destruct (String.eqb (type strategy) "fields").
  { destruct (Resource.fieldText resource (selector strategy)) as [text|];
      [destruct (Js.includes (Js.toLowerCase text) queryLower)|];
      intro E; injection E as <-; only_match. }
  destruct (String.eqb (type strategy) "exact").
  { destruct (RegExp_new _) as [e|re]; [discriminate|].
    destruct (RegExp_test re _); intro E; injection E as <-; only_match. }
  intro E. injection E as <-. unfold fuzzyMatches. cbv zeta.
  rewrite (wordBoundaryMatches_contains _ _ Hn), app_nil_r.
  set (n := Js.toLowerCase (Resource.name (Resource.meta resource))).
  assert (He : forall m, In m (editDistanceMatches cfg queryLower n) ->
                         reason m <> wordBoundaryReason).
  { intro m'. unfold editDistanceMatches. cbv zeta.
    destruct (_ <=? _)%nat; [|only_match]. destruct (_ <=? _)%nat; [|only_match].
    destruct (_ <=? _)%float; only_match. }
  assert (Ha : forall m, In m (acronymMatches queryLower n) -> reason m <> wordBoundaryReason).
  { intro m'. unfold acronymMatches. cbv zeta. destruct (_ && _); only_match. }
  assert (Hmerge : forall (b : bool) (xs ys : list Match),
            (forall m, In m xs -> reason m <> wordBoundaryReason) ->
            (forall m, In m ys -> reason m <> wordBoundaryReason) ->
            forall m, In m (if b then (xs ++ ys)%list else xs) -> reason m <> wordBoundaryReason).
  { intros b xs ys Hx Hy m' Hm. destruct b; [|auto].
    apply in_app_or in Hm. destruct Hm; auto. }
  assert (H1 : forall m,
            In m (if isEmpty (editDistanceMatches cfg queryLower n)
                     && (Js.includes n "-" || Js.includes n "_")
                  then editDistanceMatches cfg queryLower n
                  else editDistanceMatches cfg queryLower n) ->
            reason m <> wordBoundaryReason).
  { intros m' Hm. apply He. destruct (_ && _); exact Hm. }
  revert m.
  match goal with
  | |- forall m, In m (if ?b then match ?o with Some e => _ | None => ?xs end else ?xs) -> _ =>
      assert (H2 : forall m, In m xs -> reason m <> wordBoundaryReason);
      [apply Hmerge; [exact H1|exact Ha]|];
      destruct b; [|exact H2]; destruct o as [entries|]; [|exact H2];
      intros m Hm; apply in_app_or in Hm; destruct Hm as [Hm|Hm];
      [apply H2, Hm|eapply labelMatches_reason, Hm]
  end.
Qed.

Lemma bestOf_In (m : Match) (ms : list Match) : In (bestOf m ms) (m :: ms).
Proof.
  unfold bestOf. revert m. induction ms as [|x ms IH]; intro m; [left; reflexivity|].
  cbn [fold_left]. destruct (score m <? score x)%float.
  - right. apply IH.
  - destruct (IH m) as [E|Hi]; [left; exact E|right; right; exact Hi].
Qed.

Lemma deepSearchLoop_reason (resources : list Resource.t)
    (resourceType namespace queryLower : string) (strategy : Strategy) (cfg : SearchConfig)
    (includeLabels : bool) (maxResults : Z) (results out : list Result.t) :
  (forall c, In c resources -> nameContains queryLower c = false) ->
  (forall r, In r results -> Result.matchReason r <> wordBoundaryReason) ->
  deepSearchLoop resources resourceType namespace queryLower strategy cfg includeLabels
    maxResults results = inr out ->
  forall r, In r out -> Result.matchReason r <> wordBoundaryReason.
Proof.
  revert results. induction resources as [|c rest IH]; intros results Hc Hres E.
  - cbn in E. injection E as <-. exact Hres.
  - cbn [deepSearchLoop] in E.
    destruct (lengthAtLeast results maxResults); [injection E as <-; exact Hres|].
    destruct (resourceMatches c queryLower strategy cfg includeLabels) as [e|[|m ms]] eqn:Em;
      [discriminate| |].
    + eapply IH; [|exact Hres|exact E]. intros c' Hc'. apply Hc. right. exact Hc'.
    + eapply IH; [| |exact E]; [intros c' Hc'; apply Hc; right; exact Hc'|].
      intros r Hr. apply in_app_or in Hr. destruct Hr as [Hr|[<-|[]]]; [apply Hres, Hr|].
      cbn [Result.matchReason].
      eapply resourceMatches_reason; [apply Hc; left; reflexivity|exact Em|apply bestOf_In].
Qed.

Lemma namespaceResults_reason (p : Params) (resourceType namespace : string)
    (resources : list Resource.t) (found : nat) (r : Result.t) :
  In r (namespaceResults p resourceType namespace resources found) ->
  Result.matchReason r <> wordBoundaryReason.
Proof.
  unfold namespaceResults.
  destruct (List.length resources =? 0)%nat; [intros []|]. cbv zeta.
  set (q := Js.toLowerCase (p_query p)).
  set (cap := Z.min 10 (p_limit p - Z.of_nat found)).
  set (quick := quickScanResources resources resourceType namespace q cap).
  assert (Hq : forall r, In r quick -> Result.matchReason r <> wordBoundaryReason).
  { intros r' Hr'. apply quickScanResources_In in Hr'. destruct Hr' as [-> _].
    cbn. discriminate. }
  destruct (Nat.ltb_spec (List.length quick) 5) as [H5|H5]; cbn [andb]; [|apply Hq].
  destruct (List.length quick <? List.length resources)%nat; [|apply Hq].
  destruct (deepSearchResources _ _ _ _ _ _ _ _ _) as [e|deep] eqn:Ed; [intros []|].
  intro Hr. apply in_app_or in Hr. destruct Hr as [Hr|Hr]; [apply Hq, Hr|].
  set (budget := Z.min 3 (p_limit p - Z.of_nat found - Z.of_nat (List.length quick))) in Ed.
  destruct (Z.leb_spec budget 0) as [Hb|Hb].
  - apply deepSearchResources_within in Ed. destruct Ed as [Hlen _].
    destruct deep; [destruct Hr|]. cbn [List.length] in Hlen. lia.
  - assert (Hall : quick
                   = map (quickResult resourceType namespace) (filter (nameContains q) resources)).
    { pose proof (quickScanResources_filter resources resourceType namespace q cap) as Eq.
      fold quick in Eq. pose proof (f_equal (@List.length Result.t) Eq) as El.
      rewrite length_firstn in El. rewrite Eq. apply firstn_all2. subst budget cap. lia. }
    unfold deepSearchResources in Ed. fold q in Ed.
    eapply deepSearchLoop_reason; [| |exact Ed|exact Hr]; [|intros r' []].
    intros c Hc. apply filter_In in Hc. destruct Hc as [Hc Hn].
    destruct (nameContains q c) eqn:Hq'; [|reflexivity].
    apply negb_true_iff in Hn. rewrite <- Hn. symmetry. apply existsb_exists.
    exists (quickResult resourceType namespace c). split.
    + rewrite Hall. apply in_map, filter_In. auto.
    + apply String.eqb_refl.
Qed.

(** X14. No result of a search is ever a word-boundary match: where a word
    of the name contains the query the whole name contains it, so the quick
    scan has taken the candidate, or its bound was reached and then the deep
    scan has nothing left to give. *)
Theorem kubectlUnifiedSearch_no_word_boundary (discovery : Exec string) (listing : Listing)
    (input : Input) (results : list Result.t) (searchType : string) (r : Result.t) :
  kubectlUnifiedSearch discovery listing input = Returned results searchType ->
  In r results ->
  Result.matchReason r <> "word boundary match in name".
Proof.
  unfold kubectlUnifiedSearch.
  destruct (isBlank (query input)); [discriminate|].
  destruct (getTargetNamespaces _ _ _ _ _ _) as [m|targetNamespaces]; [discriminate|].
  destruct (List.length targetNamespaces =? 0)%nat; intro E; injection E as <- _; [intros []|].
  intro Hr. eapply Permutation_in in Hr; [|apply sortResults_perm].
  unfold streamingSearch in Hr. cbv zeta in Hr. apply slice0_In in Hr. revert r Hr.
  apply typeLoop_all; [|intros r []].
  intros rt ns call found r _ _. apply namespaceResults_reason.
Qed.

End WordBoundaryFacts.

(** The pod [my-webapp-svc] and the query [svc]. *)
Lemma kubectlUnifiedSearch_no_word_boundary_witness :
  Result.matchReason
    (Sample.pod (Sample.named "my-webapp-svc") 1.0 "exact substring match in name" 0)
  <> "word boundary match in name".
Proof.
  apply (kubectlUnifiedSearch_no_word_boundary (H := MiniRegExp.host) (Throws "unused")
           (Sample.podsOf [ Sample.named "my-webapp-svc" ]) (Sample.searchFor "svc")
           [ Sample.pod (Sample.named "my-webapp-svc") 1.0 "exact substring match in name" 0 ]
           "fuzzy").
  - vm_compute. reflexivity.
  - left. reflexivity.
Defined.

(** ** The edit distance as a metric *)

Lemma lev_zero (a b : list ascii) : lev a b = 0 -> a = b.
Proof.
  revert b. induction a as [|x a IH]; intros [|y b] E0; try reflexivity; try discriminate.
  rewrite lev_cons in E0. unfold min3, indicator in E0.
  destruct (Ascii.eqb_spec x y) as [->|Hn]; [|lia].
  f_equal. apply IH. lia.
Qed.

Lemma lev_length_max (a b : list ascii) :
  lev a b <= Nat.max (List.length a) (List.length b).
Proof.
  revert b. induction a as [|x a IH]; intros [|y b]; cbn [lev List.length]; try lia.
  change (min3 (lev a (y :: b) + 1) (lev (x :: a) b + 1) (lev a b + indicator x y)
          <= Nat.max (S (List.length a)) (S (List.length b))).
  specialize (IH b). unfold min3, indicator. destruct (Ascii.eqb x y); lia.
Qed.

Lemma lev_drop_left (x : ascii) (a b : list ascii) : lev (x :: a) b <= lev a b + 1.
Proof. destruct b as [|y b]; [rewrite !lev_nil_r; simpl; lia|rewrite lev_cons; unfold min3; lia]. Qed.

Lemma lev_drop_right (y : ascii) (a b : list ascii) : lev a (y :: b) <= lev a b + 1.
Proof. rewrite (lev_sym a (y :: b)), (lev_sym a b). apply lev_drop_left. Qed.

Lemma indicator_triangle (x y z : ascii) : indicator x z <= indicator x y + indicator y z.
Proof.
  unfold indicator.
  destruct (Ascii.eqb_spec x z), (Ascii.eqb_spec x y), (Ascii.eqb_spec y z);
    try lia; congruence.
Qed.

Lemma lev_triangle (a b c : list ascii) : lev a c <= lev a b + lev b c.
Proof.
  revert b c. induction a as [|x a IHa]; intros b c.
  - pose proof (lev_length_diff b c). unfold absDiff in *.
    change (lev [] c) with (List.length c). change (lev [] b) with (List.length b). lia.
  - revert c. induction b as [|y b IHb]; intro c.
    + rewrite lev_nil_r. pose proof (lev_length_max (x :: a) c).
      change (lev [] c) with (List.length c). lia.
    + induction c as [|z c IHc].
      * rewrite !lev_nil_r. pose proof (lev_length_diff (x :: a) (y :: b)).
        unfold absDiff in *. lia.
      * pose proof (IHa (y :: b) (z :: c)) as T1.
        pose proof (IHb (z :: c)) as T2.
        pose proof (IHb c) as T3.
        pose proof (IHa b (z :: c)) as T4.
        pose proof (IHa b c) as T5.
        pose proof (lev_drop_left x a (z :: c)) as D1.
        pose proof (lev_drop_right z (x :: a) c) as D2.
        pose proof (indicator_triangle x y z) as It.
        assert (D3 : lev (x :: a) (z :: c) <= lev a c + indicator x z)
          by (rewrite lev_cons; unfold min3; lia).
        pose proof (lev_cons x y a b) as E1. pose proof (lev_cons y z b c) as E2.
        unfold min3 in *. lia.
Qed.

Lemma list_ascii_of_string_inj (s t : string) :
  list_ascii_of_string s = list_ascii_of_string t -> s = t.
Proof.
  intro E. rewrite <- (string_of_list_ascii_of_string s), <- (string_of_list_ascii_of_string t).
  congruence.
Qed.

(** X15. Two strings are at distance 0 exactly when they are equal. *)
Theorem levenshteinDistance_zero (a b : string) :
  levenshteinDistance a b = 0 <-> a = b.
Proof.
  split.
  - rewrite levenshteinDistance_lev. intro E. apply lev_zero in E.
    apply list_ascii_of_string_inj. rewrite <- (rev_involutive (list_ascii_of_string a)), E.
    apply rev_involutive.
  - intros ->. rewrite levenshteinDistance_lev. apply lev_refl.
Qed.

(** X16. The distance lies between the difference of the two lengths and
    the larger of them; so the length check that precedes the matrix in the
    fuzzy rule never turns away a name within [maxDistance], and the
    unscaled score never has a numerator above its denominator. *)
Theorem levenshteinDistance_bounds (a b : string) :
  absDiff (String.length a) (String.length b) <= levenshteinDistance a b
  /\ levenshteinDistance a b <= Nat.max (String.length a) (String.length b).
Proof.
  split; [apply levenshteinDistance_length_diff|].
  rewrite levenshteinDistance_lev.
  rewrite <- (length_list_ascii a), <- (length_list_ascii b).
  rewrite <- (length_rev (list_ascii_of_string a)), <- (length_rev (list_ascii_of_string b)).
  apply lev_length_max.
Qed.

(** X17. The distance obeys the triangle inequality. *)
Theorem levenshteinDistance_triangle (a b c : string) :
  levenshteinDistance a c <= levenshteinDistance a b + levenshteinDistance b c.
Proof. rewrite !levenshteinDistance_lev. apply lev_triangle. Qed.

(** ** Reading the namespace listing *)

Lemma trimEnd_noSpace (s : string) : noSpace s = true -> Js.trimEnd s = s.
Proof.
  induction s as [|c s IH]; [reflexivity|]. cbn [noSpace Js.trimEnd].
  intro Hn. apply andb_true_iff in Hn. destruct Hn as [Hc Hs].
  rewrite (IH Hs). apply negb_true_iff in Hc. rewrite Hc. destruct s; reflexivity.
Qed.

Lemma trimStart_noSpace (s : string) : noSpace s = true -> Js.trimStart s = s.
Proof.
  destruct s as [|c s]; [reflexivity|]. cbn [noSpace Js.trimStart].
  intro Hn. apply andb_true_iff in Hn. destruct Hn as [Hc _].
  apply negb_true_iff in Hc. rewrite Hc. reflexivity.
Qed.

Lemma noSpace_append (a b : string) : noSpace (a ++ b) = noSpace a && noSpace b.
Proof. induction a as [|c a IH]; [reflexivity|]. cbn. rewrite IH, andb_assoc. reflexivity. Qed.

Lemma noSpace_no_newline (s : string) :
  noSpace s = true -> Js.splitOn isNewline s = [ s ].
Proof.
  induction s as [|c s IH]; [reflexivity|]. cbn [noSpace Js.splitOn].
  intro Hn. apply andb_true_iff in Hn. destruct Hn as [Hc Hs]. rewrite (IH Hs).
  assert (Hnl : isNewline c = false).
  { unfold isNewline. destruct (Ascii.eqb_spec c "010") as [->|]; [discriminate Hc|reflexivity]. }
  rewrite Hnl. reflexivity.
Qed.

Lemma splitOn_line (line rest : string) :
  noSpace line = true ->
  Js.splitOn isNewline (line ++ String "010" rest) = line :: Js.splitOn isNewline rest.
Proof.
  induction line as [|c line IH]; [reflexivity|]. cbn [noSpace append Js.splitOn].
  intro Hn. apply andb_true_iff in Hn. destruct Hn as [Hc Hs]. rewrite (IH Hs).
  assert (Hnl : isNewline c = false).
  { unfold isNewline. destruct (Ascii.eqb_spec c "010") as [->|]; [discriminate Hc|reflexivity]. }
  rewrite Hnl. reflexivity.
Qed.

Lemma trimEnd_head (c : ascii) (s : string) :
  Js.isSpace c = false -> Js.trimEnd (String c s) <> "".
Proof. intro Hc. cbn [Js.trimEnd]. rewrite Hc. destruct (Js.trimEnd s); discriminate. Qed.

Lemma trimEnd_line (line rest : string) (c : ascii) :
  Js.trimEnd rest <> "" ->
  Js.trimEnd (line ++ String c rest) = line ++ String c (Js.trimEnd rest).
Proof.
  intro Hr. induction line as [|x line IH].
  - cbn [append Js.trimEnd]. destruct (Js.trimEnd rest); [contradiction|reflexivity].
  - cbn [append Js.trimEnd]. rewrite IH. destruct line; reflexivity.
Qed.

Lemma trimEnd_newline (a : string) : Js.trimEnd (a ++ String "010" "") = Js.trimEnd a.
Proof. induction a as [|c a IH]; [reflexivity|]. cbn [append Js.trimEnd]. rewrite IH. reflexivity. Qed.

Lemma substring_all (m : nat) (s : string) :
  String.length s <= m -> String.substring 0 m s = s.
Proof.
  revert m. induction s as [|c s IH]; intros [|m] Hm; try reflexivity; cbn in *; [lia|].
  rewrite IH by lia. reflexivity.
Qed.

Lemma replaceFirst_namespace (n : string) : Js.replaceFirst "namespace/" "" ("namespace/" ++ n) = n.
Proof.
  cbn. destruct n as [|c n]; [reflexivity|]. cbn [append String.length String.substring].
  rewrite substring_all by lia. reflexivity.
Qed.

Lemma namespaceLines_split (n : string) (names : list string) :
  Forall (fun n => noSpace n = true) (n :: names) ->
  Js.splitOn isNewline (Js.trimEnd (namespaceLines (n :: names)))
  = map (fun n => "namespace/" ++ n) (n :: names).
Proof.
  revert n. induction names as [|n' names IH]; intros n Hall.
  - inversion Hall as [|? ? Hn _]; subst. cbn [namespaceLines map].
    assert (Hl : noSpace ("namespace/" ++ n) = true) by (rewrite noSpace_append, Hn; reflexivity).
    rewrite <- append_assoc_string, trimEnd_newline, trimEnd_noSpace by exact Hl.
    apply noSpace_no_newline, Hl.
  - inversion Hall as [|? ? Hn Hrest]; subst. specialize (IH n' Hrest).
    assert (Hl : noSpace ("namespace/" ++ n) = true) by (rewrite noSpace_append, Hn; reflexivity).
    cbn [namespaceLines map] in *.
    rewrite <- (append_assoc_string "namespace/" n), trimEnd_line.
    + rewrite splitOn_line by exact Hl. rewrite IH. reflexivity.
    + cbn [append]. apply trimEnd_head. reflexivity.
Qed.

(** X18. The names are read back from the listing as the cluster printed
    them: for namespace names without white space, none of them empty, the
    output of [kubectl get namespaces -o name] is parsed into exactly these
    names, in order. *)
Theorem parseNamespaces_namespaceLines (names : list string) :
  Forall (fun n => noSpace n = true /\ n <> "") names ->
  parseNamespaces (namespaceLines names) = names.
Proof.
  intro Hall. destruct names as [|n names]; [reflexivity|].
  assert (Hsp : Forall (fun n => noSpace n = true) (n :: names))
    by (eapply Forall_impl; [|exact Hall]; cbv beta; tauto).
  unfold parseNamespaces, Js.trim.
  assert (Hs : Js.trimStart (namespaceLines (n :: names)) = namespaceLines (n :: names))
    by reflexivity.
  rewrite Hs, namespaceLines_split by exact Hsp.
  rewrite map_map.
  erewrite map_ext; [|intro; apply replaceFirst_namespace]. rewrite map_id.
  apply forallb_filter_id. apply forallb_forall. intros x Hx.
  rewrite Forall_forall in Hall. destruct (Hall x Hx) as [Hn Hne].
  unfold Js.trim. rewrite trimStart_noSpace, trimEnd_noSpace by assumption.
  destruct (String.eqb_spec x ""); [contradiction|reflexivity].
Qed.

(** Three namespaces. *)
Lemma parseNamespaces_namespaceLines_witness :
  parseNamespaces (namespaceLines [ "default"; "kube-system"; "shop" ])
  = [ "default"; "kube-system"; "shop" ].
Proof.
  apply parseNamespaces_namespaceLines.
  repeat constructor; discriminate.
Defined.

(** ** Sorting by name and by namespace *)

Section SortByCompare.

Context {A : Type} (compare : A -> A -> Z).

Hypothesis compare_antisym : forall a b, (0 < compare a b -> compare b a <= 0)%Z.
Hypothesis compare_trans :
  forall a b c, (compare a b <= 0 -> compare b c <= 0 -> compare a c <= 0)%Z.

Let after (a b : A) : bool := (0 <? compare a b)%Z.
Let ordered (a b : A) : Prop := (compare a b <= 0)%Z.

Lemma insertSorted_compare_sorted (x : A) (l : list A) :
  StronglySorted ordered l -> StronglySorted ordered (insertSorted after x l).
Proof.
  induction l as [|y l IH]; intro Hs; cbn [insertSorted].
  - constructor; constructor.
  - inversion Hs as [|? ? Hl Hy]; subst. unfold after at 1.
    destruct (Z.ltb_spec 0 (compare x y)) as [Hgt|Hle].
    + constructor; [apply IH, Hl|].
      eapply Permutation_Forall; [apply Permutation_sym, insertSorted_perm|].
      constructor; [apply compare_antisym, Hgt|exact Hy].
    + constructor; [exact Hs|]. constructor; [exact Hle|].
      eapply Forall_impl; [|exact Hy]. intros z Hz. eapply compare_trans; eassumption.
Qed.

Lemma sortBy_compare_sorted (l : list A) : StronglySorted ordered (sortBy after l).
Proof.
  induction l as [|x l IH]; cbn [sortBy]; [constructor|].
  apply insertSorted_compare_sorted, IH.
Qed.

End SortByCompare.

(** X19. On a host whose [localeCompare] is an order (a positive answer is
    never positive the other way round, and "not after" is transitive),
    sorting by [name] lists the results so that no result is after a later
    one by name, and sorting by [namespace] does the same by namespace. *)
Theorem sortResults_by_name_sorted {H : Host} (results : list Result.t) :
  (forall a b, (0 < localeCompare a b -> localeCompare b a <= 0)%Z) ->
  (forall a b c, (localeCompare a b <= 0 -> localeCompare b c <= 0 -> localeCompare a c <= 0)%Z) ->
  StronglySorted (fun r1 r2 => (localeCompare (Result.name r1) (Result.name r2) <= 0)%Z)
    (sortResults results "name")
  /\ StronglySorted
       (fun r1 r2 => (localeCompare (Result.namespace r1) (Result.namespace r2) <= 0)%Z)
       (sortResults results "namespace").
Proof.
  intros Ha Ht. split.
  - apply (sortBy_compare_sorted (fun a b => localeCompare (Result.name a) (Result.name b))).
    + intros a b. apply Ha.
    + intros a b c. apply Ht.
  - apply (sortBy_compare_sorted
             (fun a b => localeCompare (Result.namespace a) (Result.namespace b))).
    + intros a b. apply Ha.
    + intros a b c. apply Ht.
Qed.

Lemma ascii_compare_le_trans (a b c : ascii) :
  Ascii.compare a b <> Gt -> Ascii.compare b c <> Gt -> Ascii.compare a c <> Gt.
Proof.
  unfold Ascii.compare. intros H1 H2. change (N_of_ascii a <= N_of_ascii c)%N.
  change (N_of_ascii a <= N_of_ascii b)%N in H1.
  change (N_of_ascii b <= N_of_ascii c)%N in H2. lia.
Qed.

Lemma string_compare_le_trans (a b c : string) :
  String.compare a b <> Gt -> String.compare b c <> Gt -> String.compare a c <> Gt.
Proof.
  revert b c. induction a as [|x a IH]; intros [|y b] [|z c]; cbn [String.compare];
    try congruence.
  destruct (Ascii.compare x y) eqn:Exy; destruct (Ascii.compare y z) eqn:Eyz;
    try congruence; intros H1 H2.
  - pose proof (Ascii.compare_eq_iff _ _ Exy). pose proof (Ascii.compare_eq_iff _ _ Eyz).
    subst. rewrite Exy. eapply IH; eassumption.
  - pose proof (Ascii.compare_eq_iff _ _ Exy). subst. rewrite Eyz. congruence.
  - pose proof (Ascii.compare_eq_iff _ _ Eyz). subst. rewrite Exy. congruence.
  - assert (Hxz : Ascii.compare x z <> Gt)
      by (apply (ascii_compare_le_trans x y z); congruence).
    destruct (Ascii.compare x z) eqn:Exz; try congruence.
    exfalso. pose proof (Ascii.compare_eq_iff _ _ Exz). subst.
    rewrite Ascii.compare_antisym, Exy in Eyz. discriminate.
Qed.

(** Two pods, sorted by name on the host that compares code units. *)
Lemma sortResults_by_name_sorted_witness :
  let results := [ Sample.pod (Sample.named "web-2") 1.0 "exact substring match in name" 0;
                   Sample.pod (Sample.named "web-1") 1.0 "exact substring match in name" 0 ] in
  StronglySorted
    (fun r1 r2 => (MiniRegExp.codeUnitCompare (Result.name r1) (Result.name r2) <= 0)%Z)
    (sortResults (H := MiniRegExp.host) results "name")
  /\ StronglySorted
       (fun r1 r2 =>
          (MiniRegExp.codeUnitCompare (Result.namespace r1) (Result.namespace r2) <= 0)%Z)
       (sortResults (H := MiniRegExp.host) results "namespace").
Proof.
  cbv zeta. apply (sortResults_by_name_sorted (H := MiniRegExp.host)).
  - intros a b. cbn [localeCompare MiniRegExp.host]. unfold MiniRegExp.codeUnitCompare.
    rewrite (String.compare_antisym a b). destruct (String.compare b a); cbn; lia.
  - intros a b c. cbn [localeCompare MiniRegExp.host]. unfold MiniRegExp.codeUnitCompare.
    pose proof (string_compare_le_trans a b c) as Ht.
    destruct (String.compare a b), (String.compare b c), (String.compare a c);
      try lia; intros; exfalso; apply Ht; congruence.
Defined.

(** ** The labels strategy *)

Section LabelFacts.

Context {H : Host}.

Lemma labelMatches_first (before rest : list (string * string)) (k v queryLower : string)
    (s : float) :
  (forall k' v', In (k', v') before ->
     Js.includes (Js.toLowerCase (k' ++ "=" ++ v')) queryLower = false) ->
  Js.includes (Js.toLowerCase (k ++ "=" ++ v)) queryLower = true ->
  labelMatches (before ++ (k, v) :: rest)%list queryLower s
  = [ {| score := s; reason := "label match (" ++ k ++ "=" ++ v ++ ")"; distance := 0 |} ].
Proof.
  intros Hb Hk. induction before as [|[k' v'] before IH]; cbn [app labelMatches].
  - rewrite Hk. reflexivity.
  - rewrite (Hb k' v') by (left; reflexivity). apply IH.
    intros k'' v'' Hi. apply Hb. right. exact Hi.
Qed.

Lemma labelMatches_none (entries : list (string * string)) (queryLower : string) (s : float) :
  (forall k v, In (k, v) entries ->
     Js.includes (Js.toLowerCase (k ++ "=" ++ v)) queryLower = false) ->
  labelMatches entries queryLower s = [].
Proof.
  intro Hn. induction entries as [|[k v] entries IH]; cbn [labelMatches]; [reflexivity|].
  rewrite (Hn k v) by (left; reflexivity). apply IH.
  intros k' v' Hi. apply Hn. right. exact Hi.
Qed.

(** X20. Under the labels strategy the deep scan matches a candidate by its
    labels alone: the first label whose lower-cased [key=value] text
    contains the query gives the match, with score 1.0 and a reason that
    names that label; a candidate none of whose labels contains the query,
    or without labels, gives no match, whatever its name. *)
Theorem resourceMatches_labels (resource : Resource.t) (queryLower sel : string)
    (cfg : SearchConfig) (includeLabels : bool) :
  let matchesOf := resourceMatches resource queryLower {| type := "labels"; selector := sel |}
                     cfg includeLabels in
  (forall before k v rest,
      Resource.labels (Resource.meta resource) = Some (before ++ (k, v) :: rest)%list ->
      (forall k' v', In (k', v') before ->
         Js.includes (Js.toLowerCase (k' ++ "=" ++ v')) queryLower = false) ->
      Js.includes (Js.toLowerCase (k ++ "=" ++ v)) queryLower = true ->
      matchesOf = inr [ {| score := 1.0;
                           reason := "label match (" ++ k ++ "=" ++ v ++ ")";
                           distance := 0 |} ])
  /\ (forall entries,
        Resource.labels (Resource.meta resource) = Some entries ->
        (forall k v, In (k, v) entries ->
           Js.includes (Js.toLowerCase (k ++ "=" ++ v)) queryLower = false) ->
        matchesOf = inr [])
  /\ (Resource.labels (Resource.meta resource) = None -> matchesOf = inr []).
Proof.
  cbv zeta. unfold resourceMatches. cbn [type]. change (String.eqb "labels" "labels") with true.
  cbv iota. split; [|split].
  - intros before k v rest -> Hb Hk. rewrite labelMatches_first by assumption. reflexivity.
  - intros entries -> Hn. rewrite labelMatches_none by assumption. reflexivity.
  - intros ->. reflexivity.
Qed.

End LabelFacts.

(** A pod labelled [tier=data], [env=prod] and the query [prod]. *)
Lemma resourceMatches_labels_witness :
  resourceMatches (H := MiniRegExp.host)
    (Sample.labelled "db" [ ("tier", "data"); ("env", "prod") ]) "prod"
    {| type := "labels"; selector := "prod" |} (getFuzzyConfig "moderate") true
  = inr [ {| score := 1.0; reason := "label match (env=prod)"; distance := 0 |} ].
Proof.
  apply (proj1 (resourceMatches_labels (H := MiniRegExp.host)
                  (Sample.labelled "db" [ ("tier", "data"); ("env", "prod") ]) "prod" "prod"
                  (getFuzzyConfig "moderate") true)
           [ ("tier", "data") ] "env" "prod" []).
  - reflexivity.
  - intros k' v' [E|[]]. injection E as <- <-. reflexivity.
  - reflexivity.
Defined.

(** ** Ages *)

(** Linear arithmetic with division and remainder by constants. *)
Ltac div_lia := Z.to_euclidean_division_equations; lia.

(** X21. For an object created in the past the age is shown in the largest
    unit that is not zero: whole days from one day on, else whole hours
    (1 to 23) from one hour on, else whole minutes (0 to 59). *)
Theorem getResourceAge_units (now created : Z) :
  let d := (now - created)%Z in
  (0 <= d)%Z ->
  ((d < 3600000)%Z ->
     getResourceAge now created = Js.showNat (Z.to_nat (d / 60000)) ++ "m"
     /\ (d / 60000 < 60)%Z)
  /\ ((3600000 <= d < 86400000)%Z ->
        getResourceAge now created = Js.showNat (Z.to_nat (d / 3600000)) ++ "h"
        /\ (1 <= d / 3600000 < 24)%Z)
  /\ ((86400000 <= d)%Z ->
        getResourceAge now created = Js.showNat (Z.to_nat (d / 86400000)) ++ "d"
        /\ (1 <= d / 86400000)%Z).
Proof.
  cbv zeta. intro Hd. unfold getResourceAge. cbv zeta.
  change (1000 * 60 * 60 * 24)%Z with 86400000%Z.
  change (1000 * 60 * 60)%Z with 3600000%Z.
  change (1000 * 60)%Z with 60000%Z.
  rewrite !Z.rem_mod_nonneg by lia.
  generalize dependent (now - created)%Z. intros d Hd.
  split; [|split]; intro Hs.
  - destruct (Z.ltb_spec 0 (d / 86400000)); [div_lia|].
    rewrite (Z.mod_small d 86400000), (Z.mod_small d 3600000) by lia.
    destruct (Z.ltb_spec 0 (d / 3600000)); [div_lia|].
    split; [|div_lia]. unfold showZ.
    destruct (Z.ltb_spec (d / 60000) 0); [div_lia|reflexivity].
  - destruct (Z.ltb_spec 0 (d / 86400000)); [div_lia|].
    rewrite (Z.mod_small d 86400000) by lia.
    destruct (Z.ltb_spec 0 (d / 3600000)); [|div_lia].
    split; [|div_lia]. unfold showZ.
    destruct (Z.ltb_spec (d / 3600000) 0); [div_lia|reflexivity].
  - destruct (Z.ltb_spec 0 (d / 86400000)); [|div_lia].
    split; [|div_lia]. unfold showZ.
    destruct (Z.ltb_spec (d / 86400000) 0); [div_lia|reflexivity].
Qed.

(** An object created 90 minutes ago. *)
Lemma getResourceAge_units_witness :
  getResourceAge 1700005400000 1700000000000 = "1h".
Proof.
  refine (proj1 (proj1 (proj2 (getResourceAge_units 1700005400000 1700000000000 _)) _));
    cbv zeta; lia.
Defined.

(** X22. An object whose creation time lies in the future is always shown
    in minutes, with a count from -60 to 0, however far ahead it lies. *)
Theorem getResourceAge_future (now created : Z) :
  (now < created)%Z ->
  exists m, (-60 <= m <= 0)%Z /\ getResourceAge now created = showZ m ++ "m".
Proof.
  intro Hf. unfold getResourceAge. cbv zeta.
  change (1000 * 60 * 60 * 24)%Z with 86400000%Z.
  change (1000 * 60 * 60)%Z with 3600000%Z.
  change (1000 * 60)%Z with 60000%Z.
  assert (Hd : (now - created < 0)%Z) by lia.
  generalize dependent (now - created)%Z. intros d Hd.
  destruct (Z.ltb_spec 0 (d / 86400000)); [div_lia|].
  destruct (Z.ltb_spec 0 (Z.rem d 86400000 / 3600000)); [div_lia|].
  exists (Z.rem d 3600000 / 60000)%Z. split; [div_lia|reflexivity].
Qed.

(** An object created one day and one millisecond ahead of now. *)
Lemma getResourceAge_future_witness :
  exists m, (-60 <= m <= 0)%Z /\ getResourceAge 1700000000000 1700086400001 = showZ m ++ "m".
Proof. apply getResourceAge_future. lia. Defined.

(** ** Namespaces as resources *)

Section NamespaceSearchFacts.

Context {H : Host}.

Lemma namespaceMatches_fuzzy (queryLower namespace sel : string) (cfg : SearchConfig) :
  exists matches,
    namespaceMatches queryLower namespace {| type := "fuzzy"; selector := sel |} cfg
    = inr matches
    /\ (Js.includes (Js.toLowerCase namespace) queryLower = true -> matches <> []).
Proof.
  unfold namespaceMatches. cbn [type]. change (String.eqb "fuzzy" "fuzzy") with true.
  cbv iota zeta.
  destruct (Js.includes (Js.toLowerCase namespace) queryLower);
    destruct (_ <=? _)%nat; try destruct (_ <=? _)%float;
    eexists; (split; [reflexivity|]); intro; discriminate.
Qed.

Lemma searchNamespacesLoop_fuzzy (queryLower sel now : string) (namespaces : list string)
    (cfg : SearchConfig) (results : list Result.t) :
  exists added,
    searchNamespacesLoop queryLower namespaces {| type := "fuzzy"; selector := sel |} cfg now
      results = inr (results ++ added)%list
    /\ (forall r, In r added ->
          In (Result.namespace r) namespaces /\ Result.resourceType r = "namespace"
          /\ Result.name r = Result.namespace r)
    /\ (forall ns, In ns namespaces ->
          Js.includes (Js.toLowerCase ns) queryLower = true ->
          exists r, In r added /\ Result.namespace r = ns).
Proof.
  revert results. induction namespaces as [|ns rest IH]; intro results.
  - exists []. cbn [searchNamespacesLoop]. rewrite app_nil_r.
    split; [reflexivity|]. split; [intros r []|intros ns []].
  - cbn [searchNamespacesLoop].
    destruct (namespaceMatches_fuzzy queryLower ns sel cfg) as [ms [-> Hm]].
    destruct ms as [|m ms].
    + destruct (IH results) as [added [-> [Hin Hall]]]. exists added.
      split; [reflexivity|]. split.
      * intros r Hr. destruct (Hin r Hr) as [? [? ?]]. repeat split; auto. right. assumption.
      * intros ns' [<-|Hn] Hi; [exfalso; apply (Hm Hi); reflexivity|]. apply Hall; assumption.
    + match goal with
      | |- context [ searchNamespacesLoop _ _ _ _ _ (results ++ [ ?new ])%list ] =>
          destruct (IH (results ++ [ new ])%list) as [added [-> [Hin Hall]]];
          exists (new :: added)
      end.
      split; [rewrite <- app_assoc; reflexivity|]. split.
      * intros r [<-|Hr]; [cbn; auto|].
        destruct (Hin r Hr) as [? [? ?]]. repeat split; auto. right. assumption.
      * intros ns' [<-|Hn] Hi.
        -- eexists. split; [left; reflexivity|reflexivity].
        -- destruct (Hall ns' Hn Hi) as [r [Hr E]]. exists r. split; [right; exact Hr|exact E].
Qed.

(** X23. The search over namespace names, under the fuzzy strategy, never
    throws; its results are for namespaces of the given list, of kind
    [namespace], and every namespace whose lower-cased name contains the
    lower-cased query is among them.  Under a strategy other than fuzzy
    and exact it finds nothing. *)
Theorem searchNamespaces_results (query sel now : string) (namespaces : list string)
    (cfg : SearchConfig) :
  (exists results,
     searchNamespaces query namespaces {| type := "fuzzy"; selector := sel |} cfg now
     = inr results
     /\ (forall r, In r results ->
           In (Result.namespace r) namespaces /\ Result.resourceType r = "namespace"
           /\ Result.name r = Result.namespace r)
     /\ (forall ns, In ns namespaces ->
           Js.includes (Js.toLowerCase ns) (Js.toLowerCase query) = true ->
           exists r, In r results /\ Result.namespace r = ns))
  /\ (forall mode, mode <> "fuzzy" -> mode <> "exact" ->
        searchNamespaces query namespaces {| type := mode; selector := sel |} cfg now = inr []).
Proof.
  split.
  - unfold searchNamespaces.
    destruct (searchNamespacesLoop_fuzzy (Js.toLowerCase query) sel now namespaces cfg [])
      as [added [E [Hin Hall]]].
    exists added. cbn [app] in E. auto.
  - intros mode Hf He. unfold searchNamespaces.
    induction namespaces as [|ns rest IH]; [reflexivity|].
    cbn [searchNamespacesLoop]. unfold namespaceMatches at 1. cbn [type].
    destruct (String.eqb_spec mode "fuzzy"); [contradiction|].
    destruct (String.eqb_spec mode "exact"); [contradiction|]. exact IH.
Qed.

End NamespaceSearchFacts.

(** The query [prod] over three namespaces. *)
Lemma searchNamespaces_results_witness :
  searchNamespaces (H := MiniRegExp.host) "prod" [ "shop-prod"; "default"; "prod-db" ]
    {| type := "labels"; selector := "prod" |} (getFuzzyConfig "moderate") "2024-05-01T10:00:00Z"
  = inr [].
Proof.
  apply (proj2 (searchNamespaces_results (H := MiniRegExp.host) "prod" "prod"
                  "2024-05-01T10:00:00Z" [ "shop-prod"; "default"; "prod-db" ]
                  (getFuzzyConfig "moderate"))); discriminate.
Defined.

(** ** The cluster overview *)

Lemma fold_sum_shift {A} (f : A -> Z) (l : list A) (a : Z) :
  fold_left (fun sum x => (sum + f x)%Z) l a = (a + fold_left (fun sum x => (sum + f x)%Z) l 0)%Z.
Proof.
  revert a. induction l as [|x l IH]; intro a; cbn [fold_left]; [lia|].
  rewrite (IH (a + f x)%Z), (IH (0 + f x)%Z). lia.
Qed.

Lemma sumValues_cons (k : string) (v : Z) (o : list (string * Z)) :
  sumValues ((k, v) :: o) = (v + sumValues o)%Z.
Proof. unfold sumValues. cbn [fold_left snd]. rewrite fold_sum_shift. lia. Qed.

Lemma sumValues_setKey (k : string) (v : Z) (o : list (string * Z)) :
  sumValues (setKey k v o)
  = (sumValues o - match getKey k o with Some old => old | None => 0 end + v)%Z.
Proof.
  induction o as [|[k0 v0] o IH]; cbn [setKey getKey].
  - rewrite sumValues_cons. unfold sumValues. cbn. lia.
  - destruct (String.eqb k0 k); rewrite !sumValues_cons; [lia|]. rewrite IH. lia.
Qed.

Lemma getKey_setKey {V} (k k' : string) (v : V) (o : list (string * V)) :
  getKey k' (setKey k v o) = if String.eqb k' k then Some v else getKey k' o.
Proof.
  induction o as [|[k0 v0] o IH]; cbn [setKey getKey].
  - rewrite (String.eqb_sym k k'). reflexivity.
  - destruct (String.eqb_spec k0 k) as [->|Hn]; cbn [getKey].
    + rewrite (String.eqb_sym k k'). destruct (String.eqb k' k); reflexivity.
    + rewrite IH. destruct (String.eqb_spec k0 k') as [->|Hn'];
        [destruct (String.eqb_spec k' k); [contradiction|reflexivity]|reflexivity].
Qed.

Lemma setKey_absent {V} (k : string) (v : V) (o : list (string * V)) :
  getKey k o = None -> setKey k v o = (o ++ [ (k, v) ])%list.
Proof.
  induction o as [|[k0 v0] o IH]; cbn [setKey getKey app]; [reflexivity|].
  destruct (String.eqb k0 k); [discriminate|]. intro Hn. rewrite (IH Hn). reflexivity.
Qed.

Lemma sumTotals_app (a b : list (string * NsData)) :
  sumTotals (a ++ b)%list = (sumTotals a + sumTotals b)%Z.
Proof. unfold sumTotals. rewrite fold_left_app, fold_sum_shift. reflexivity. Qed.

Lemma countTypes_sums (counting : Counting) (namespace : string) (types : list string)
    (counts resources : list (string * Z)) (calls : nat) :
  NoDup types ->
  (forall t, In t types -> getKey t resources = None) ->
  (sumValues (fst (fst (countTypes counting namespace types (counts, resources, calls))))
   - sumValues counts
   = sumValues (snd (fst (countTypes counting namespace types (counts, resources, calls))))
     - sumValues resources)%Z.
Proof.
  revert counts resources calls. induction types as [|t types IH];
    intros counts resources calls Hd Hn; cbn [countTypes fst snd]; [lia|].
  inversion Hd as [|? ? Ht Hd']; subst.
  set (count := getResourceCount (counting calls t namespace)).
  unfold setProperty. destruct (String.eqb t "__proto__").
  { apply IH; [exact Hd'|]. intros t' Ht'. apply Hn. right. exact Ht'. }
  set (counts1 := setKey t _ counts).
  set (resources1 := setKey t count resources).
  assert (Hn1 : forall t', In t' types -> getKey t' resources1 = None).
  { intros t' Ht'. subst resources1. rewrite getKey_setKey.
    destruct (String.eqb_spec t' t) as [->|]; [contradiction|].
    apply Hn. right. exact Ht'. }
  pose proof (IH counts1 resources1 (S calls) Hd' Hn1) as E.
  assert (E1 : sumValues counts1 = (sumValues counts + count)%Z)
    by (subst counts1; rewrite sumValues_setKey; lia).
  assert (E2 : sumValues resources1 = (sumValues resources + count)%Z)
    by (subst resources1; rewrite sumValues_setKey, (Hn t) by (left; reflexivity); lia).
  lia.
Qed.

Lemma countNamespaces_sums (counting : Counting) (types namespaces : list string)
    (counts : list (string * Z)) (breakdown : list (string * NsData)) (calls : nat) :
  NoDup types -> NoDup namespaces ->
  (forall n, In n namespaces -> getKey n breakdown = None) ->
  let out := countNamespaces counting types namespaces (counts, breakdown, calls) in
  (sumValues (fst (fst out)) - sumValues counts
   = sumTotals (snd (fst out)) - sumTotals breakdown)%Z
  /\ map fst (snd (fst out)) = (map fst breakdown ++ namespaces)%list.
Proof.
  cbv zeta. intro Ht. revert counts breakdown calls.
  induction namespaces as [|n namespaces IH]; intros counts breakdown calls Hd Hn.
  - cbn [countNamespaces fst snd]. rewrite app_nil_r. split; [lia|reflexivity].
  - inversion Hd as [|? ? Hni Hd']; subst. cbn [countNamespaces].
    pose proof (countTypes_sums counting n types counts [] calls Ht (fun _ _ => eq_refl)) as Hc.
    destruct (countTypes counting n types (counts, [], calls)) as [[counts1 resources1] calls1].
    cbn [fst snd] in Hc.
    rewrite (setKey_absent n) by (apply Hn; left; reflexivity).
    specialize (IH counts1
                  (breakdown ++ [ (n, {| ns_name := n; ns_resources := resources1;
                                         ns_total := sumValues resources1 |}) ])%list
                  calls1 Hd').
    destruct IH as [Hs Hm].
    + intros n' Hn'. rewrite <- (setKey_absent n) by (apply Hn; left; reflexivity).
      rewrite getKey_setKey. destruct (String.eqb_spec n' n) as [->|]; [contradiction|].
      apply Hn. right. exact Hn'.
    + split.
      * rewrite sumTotals_app in Hs. unfold sumTotals at 3 in Hs. cbn in Hs.
        change (sumValues []) with 0%Z in Hc. lia.
      * rewrite Hm, map_app, <- app_assoc. reflexivity.
Qed.

Lemma zeroCounts_sum (types : list string) : sumValues (zeroCounts types) = 0%Z.
Proof.
  unfold zeroCounts.
  enough (Hg : forall o : list (string * Z),
             (sumValues o = 0 /\ forall k v, getKey k o = Some v -> v = 0)%Z ->
             sumValues (fold_left (fun counts rt => setProperty rt 0%Z counts) types o) = 0%Z).
  { apply Hg. split; [reflexivity|]. intros k v. discriminate. }
  induction types as [|t types IH]; intros o [Hs Hz]; cbn [fold_left]; [exact Hs|].
  apply IH. unfold setProperty. destruct (String.eqb t "__proto__"); [split; assumption|]. split.
  - rewrite sumValues_setKey. destruct (getKey t o) as [old|] eqn:E; [rewrite (Hz t old E)|]; lia.
  - intros k v. rewrite getKey_setKey. destruct (String.eqb k t); [congruence|apply Hz].
Qed.

Section OverviewFacts.

Context {H : Host}.

(** X24. When the resource types are distinct and the cluster lists each
    namespace once, the overview adds up: it has one record per namespace,
    in the order of the listing, the total of a namespace is the sum of its
    counts, and the cluster-wide counts sum to the totals of the
    namespaces.  The overview itself never fails once the namespaces are
    known: a counting command that fails counts as 0. *)
Theorem kubectlClusterOverview_adds_up (discovery : Exec string) (counting : Counting)
    (includeSystemNamespaces : option bool) (namespacePattern : option string)
    (types : option (list string)) (showTop : option Z) (namespaces : list string) :
  getFilteredNamespaces discovery namespacePattern (orDefault includeSystemNamespaces false)
    = inr namespaces ->
  NoDup namespaces ->
  NoDup (orDefault types [ "pods"; "deployments"; "services"; "configmaps"; "secrets" ]) ->
  exists overview top,
    kubectlClusterOverview discovery counting includeSystemNamespaces namespacePattern
      types showTop = inr (overview, top)
    /\ totalNamespaces overview = List.length namespaces
    /\ map fst (namespaceBreakdown overview) = namespaces
    /\ sumValues (resourceCounts overview) = sumTotals (namespaceBreakdown overview).
Proof.
  intros Hf Hn Ht. unfold kubectlClusterOverview. rewrite Hf. cbv zeta.
  destruct (countNamespaces_sums counting
              (orDefault types [ "pods"; "deployments"; "services"; "configmaps"; "secrets" ])
              namespaces (zeroCounts
                            (orDefault types
                               [ "pods"; "deployments"; "services"; "configmaps"; "secrets" ]))
              [] 0 Ht Hn (fun _ _ => eq_refl)) as [Hs Hm].
  destruct (countNamespaces _ _ _ _) as [[counts breakdown] calls].
  cbn [fst snd] in Hs, Hm. eexists; eexists. split; [reflexivity|].
  cbn [totalNamespaces namespaceBreakdown resourceCounts].
  split; [reflexivity|]. split; [exact Hm|].
  rewrite zeroCounts_sum in Hs. unfold sumTotals at 2 in Hs. cbn in Hs. lia.
Qed.

Lemma sortBy_ext {A} (f g : A -> A -> bool) (l : list A) :
  (forall a b, f a b = g a b) -> sortBy f l = sortBy g l.
Proof.
  intro E. induction l as [|x l IH]; [reflexivity|]. cbn [sortBy]. rewrite IH.
  generalize (sortBy g l). intro s. induction s as [|y s IHs]; [reflexivity|].
  cbn [insertSorted]. rewrite E, IHs. reflexivity.
Qed.

Lemma StronglySorted_firstn {A} (R : A -> A -> Prop) (n : nat) (l : list A) :
  StronglySorted R l -> StronglySorted R (firstn n l).
Proof.
  revert n. induction l as [|x l IH]; intros [|n] Hs; cbn [firstn]; try constructor.
  - inversion Hs; subst. apply IH. assumption.
  - inversion Hs as [|? ? _ Hall]; subst. rewrite Forall_forall in *.
    intros y Hy. apply Hall. eapply In_firstn. exact Hy.
Qed.

Lemma StronglySorted_impl {A} (R R' : A -> A -> Prop) (l : list A) :
  (forall a b, R a b -> R' a b) -> StronglySorted R l -> StronglySorted R' l.
Proof.
  intros Hi Hs. induction Hs as [|x l _ IH Hall]; constructor; [exact IH|].
  eapply Forall_impl; [|exact Hall]. apply Hi.
Qed.

(** X25. The namespaces an overview shows are records of its breakdown,
    listed by falling total, and at most [showTop] of them when [showTop]
    is not negative. *)
Theorem topNamespaces_sorted (overview : Overview) (showTop : Z) :
  StronglySorted (fun a b => (ns_total b <= ns_total a)%Z) (topNamespaces overview showTop)
  /\ (forall d, In d (topNamespaces overview showTop) ->
        In d (map snd (namespaceBreakdown overview)))
  /\ ((0 <= showTop)%Z ->
      (Z.of_nat (List.length (topNamespaces overview showTop)) <= showTop)%Z).
Proof.
  unfold topNamespaces. split; [|split].
  - rewrite (sortBy_ext _ (fun a b => (0 <? (- ns_total a) - (- ns_total b))%Z))
      by (intros a b; f_equal; lia).
    pose proof (sortBy_key_sorted (fun d => (- ns_total d)%Z)
                  (map snd (namespaceBreakdown overview))) as Hs.
    assert (Hs' : StronglySorted (fun a b => (ns_total b <= ns_total a)%Z)
                    (sortBy (fun a b => (0 <? - ns_total a - - ns_total b)%Z)
                       (map snd (namespaceBreakdown overview)))).
    { eapply StronglySorted_impl; [|exact Hs]. cbv beta. intros; lia. }
    unfold Js.slice0. destruct (showTop <? 0)%Z; apply StronglySorted_firstn; exact Hs'.
  - intros d Hd. apply slice0_In in Hd. eapply Permutation_in; [apply sortBy_perm|exact Hd].
  - apply slice0_length.
Qed.

(** X26. The overview resolves its namespaces exactly as the search does
    when the search is given no namespace set and no maximum: the same
    listing, the same deny-list (applied unless system namespaces are asked
    for), the same pattern, the same error. *)
Theorem getFilteredNamespaces_as_search (discovery : Exec string)
    (namespacePattern : option string) (includeSystemNamespaces : bool)
    (query : option string) :
  getFilteredNamespaces discovery namespacePattern includeSystemNamespaces
  = getTargetNamespaces discovery None namespacePattern (negb includeSystemNamespaces)
      query None.
Proof.
  unfold getFilteredNamespaces, getTargetNamespaces, discoverNamespaces, bounded.
  destruct discovery as [e|out]; [reflexivity|].
  destruct namespacePattern as [[|c pat]|]; reflexivity.
Qed.

End OverviewFacts.

(** A cluster with the namespaces [shop] and [billing], three objects of
    every kind in [shop] and none that can be counted in [billing]. *)
Lemma kubectlClusterOverview_adds_up_witness :
  exists overview top,
    kubectlClusterOverview (H := MiniRegExp.host)
      (Yields "namespace/shop
namespace/billing
")
      (fun _ _ ns => if String.eqb ns "shop" then Yields "3
" else Throws "Error: Command failed")
      None None (Some [ "pods"; "services" ]) None = inr (overview, top)
    /\ totalNamespaces overview = List.length [ "shop"; "billing" ]
    /\ map fst (namespaceBreakdown overview) = [ "shop"; "billing" ]
    /\ sumValues (resourceCounts overview) = sumTotals (namespaceBreakdown overview).
Proof.
  apply (kubectlClusterOverview_adds_up (H := MiniRegExp.host)).
  - vm_compute. reflexivity.
  - repeat constructor; cbn; intuition discriminate.
  - repeat constructor; cbn; intuition discriminate.
Defined.

(** ** Reading a count *)

Lemma string_of_uint_digits (d : Decimal.uint) : allDigits (NilEmpty.string_of_uint d) = true.
Proof. induction d; cbn; auto. Qed.

Lemma readDigits_uint (d : Decimal.uint) (a : nat) :
  readDigits 10 (NilEmpty.string_of_uint d) (Some (Z.of_nat a))
  = Some (Z.of_nat (Nat.of_uint_acc d a)).
Proof.
  revert a. induction d; intro a; cbn [NilEmpty.string_of_uint readDigits Nat.of_uint_acc];
    [reflexivity|..];
    (match goal with
     | |- context [digitOf 10 ?c] =>
         let v := eval vm_compute in (digitOf 10 c) in change (digitOf 10 c) with v
     end; cbv iota;
     match goal with
     | |- readDigits 10 _ (Some ?z) = Some (Z.of_nat (Nat.of_uint_acc _ ?n)) =>
         replace z with (Z.of_nat n) by (rewrite ?Nat.tail_mul_spec; lia)
     end; apply IHd).
Qed.

Lemma isDecimalDigit_plain (c : ascii) :
  isDecimalDigit c = true ->
  Js.isSpace c = false /\ Ascii.eqb c "-" = false /\ Ascii.eqb c "+" = false
  /\ Ascii.eqb c "x" = false /\ Ascii.eqb c "X" = false.
Proof.
  unfold isDecimalDigit, Js.isSpace. intro Hd. apply andb_true_iff in Hd.
  destruct Hd as [H1 H2]. apply Nat.leb_le in H1, H2.
  repeat split;
    try (destruct (Ascii.eqb_spec c "-") as [->|]; [cbn in *; lia|reflexivity]);
    try (destruct (Ascii.eqb_spec c "+") as [->|]; [cbn in *; lia|reflexivity]);
    try (destruct (Ascii.eqb_spec c "x") as [->|]; [cbn in *; lia|reflexivity]);
    try (destruct (Ascii.eqb_spec c "X") as [->|]; [cbn in *; lia|reflexivity]).
  destruct (Nat.leb_spec 9 (nat_of_ascii c)), (Nat.leb_spec (nat_of_ascii c) 13),
    (Nat.eqb_spec (nat_of_ascii c) 32), (Nat.eqb_spec (nat_of_ascii c) 160);
    cbn; try reflexivity; lia.
Qed.

Lemma allDigits_noSpace (s : string) : allDigits s = true -> noSpace s = true.
Proof.
  induction s as [|c s IH]; [reflexivity|]. cbn [allDigits noSpace].
  intro Hd. apply andb_true_iff in Hd. destruct Hd as [Hc Hs].
  destruct (isDecimalDigit_plain c Hc) as [-> _]. rewrite (IH Hs). reflexivity.
Qed.

Lemma parseInt_digits (s : string) :
  allDigits s = true -> parseInt s = readDigits 10 s None.
Proof.
  destruct s as [|c s]; [reflexivity|]. cbn [allDigits]. intro Hd.
  apply andb_true_iff in Hd. destruct Hd as [Hc Hs].
  destruct (isDecimalDigit_plain c Hc) as [Hsp [Hm [Hp _]]].
  unfold parseInt. cbn [Js.trimStart]. rewrite Hsp. cbv zeta. rewrite Hm, Hp. cbn [fst snd].
  assert (Hb : match s with
               | String x rest =>
                   if Ascii.eqb c "0" && (Ascii.eqb x "x" || Ascii.eqb x "X")
                   then (16%Z, rest) else (10%Z, String c s)
               | EmptyString => (10%Z, String c s)
               end = (10%Z, String c s)).
  { destruct s as [|x rest]; [reflexivity|]. cbn [allDigits] in Hs.
    apply andb_true_iff in Hs. destruct Hs as [Hx _].
    destruct (isDecimalDigit_plain x Hx) as [_ [_ [_ [-> ->]]]].
    rewrite andb_false_r. reflexivity. }
  rewrite Hb. cbn [fst snd].
  destruct (readDigits 10 (String c s) None) as [z|]; cbn [option_map]; [|reflexivity].
  f_equal. lia.
Qed.

Lemma to_uint_not_nil (n : nat) : Nat.to_uint n <> Decimal.Nil.
Proof.
  intro E. pose proof (DecimalNat.Unsigned.to_of (Nat.to_uint n)) as Hn.
  rewrite DecimalNat.Unsigned.of_to, E in Hn. discriminate.
Qed.

Lemma parseInt_showNat (n : nat) : parseInt (Js.showNat n) = Some (Z.of_nat n).
Proof.
  unfold Js.showNat. rewrite parseInt_digits by apply string_of_uint_digits.
  pose proof (to_uint_not_nil n) as Hnil.
  pose proof (DecimalNat.Unsigned.of_to n) as Hof. unfold Nat.of_uint in Hof.
  rewrite <- Hof at 2.
  destruct (Nat.to_uint n) as [|d|d|d|d|d|d|d|d|d|d]; [contradiction|..];
    cbn [NilEmpty.string_of_uint readDigits Nat.of_uint_acc];
    (match goal with
     | |- context [digitOf 10 ?c] =>
         let v := eval vm_compute in (digitOf 10 c) in change (digitOf 10 c) with v
     end; cbv iota;
     match goal with
     | |- readDigits 10 _ (Some ?z) = Some (Z.of_nat (Nat.of_uint_acc _ ?m)) =>
         replace z with (Z.of_nat m) by (rewrite ?Nat.tail_mul_spec; lia)
     end; apply readDigits_uint).
Qed.

(** X27. A count is read back as it was printed: for the output of the
    counting command, the decimal digits of a number followed by a line
    break, [getResourceCount] is that number. *)
Theorem getResourceCount_printed (n : nat) :
  getResourceCount (Yields (Js.showNat n ++ String "010" "")) = Z.of_nat n.
Proof.
  unfold getResourceCount, parseIntOr0, Js.trim.
  pose proof (string_of_uint_digits (Nat.to_uint n)) as Hd. fold (Js.showNat n) in Hd.
  pose proof (to_uint_not_nil n) as Hnil.
  assert (Hs : Js.trimStart (Js.showNat n ++ String "010" "") = Js.showNat n ++ String "010" "").
  { unfold Js.showNat in *. destruct (Nat.to_uint n); [contradiction|..]; reflexivity. }
  rewrite Hs, trimEnd_newline, trimEnd_noSpace by (apply allDigits_noSpace, Hd).
  rewrite parseInt_showNat. reflexivity.
Qed.

(** ** Completeness on one unit *)

Section SingleUnit.

Context {H : Host}.





End SingleUnit.


(** ** Wildcard patterns, character by character *)

(** X29. For every pattern, the source of the regular expression is the
    pattern with each [*] replaced by an escaped dot under a star, each [?]
    and each dot by an escaped dot, and every other character kept: the
    fourth replacement changes nothing, and a pattern without [*], [?] and
    [.] is compiled to itself. *)
Theorem wildcardSource_per_character (pattern : string) :
  wildcardSource pattern = perChar wildcardChar pattern
  /\ ((forall c, In c (list_ascii_of_string pattern) ->
         Ascii.eqb c "*" = false /\ Ascii.eqb c "?" = false /\ Ascii.eqb c "." = false) ->
      wildcardSource pattern = pattern).
Proof.
  split; [apply wildcardSource_chars|].
  rewrite wildcardSource_chars. induction pattern as [|c pattern IH]; [reflexivity|].
  intro Hp. cbn [perChar]. rewrite IH by (intros c' Hc'; apply Hp; right; exact Hc').
  unfold wildcardChar. destruct (Hp c (or_introl eq_refl)) as [-> [-> ->]]. reflexivity.
Qed.

(** ** Parameters without effect *)

(** X30. The parameters [recent] and [includeAnnotations] have no effect on
    what the search finds, on the reason it reports or on whether it
    throws: [recent] is handed to the streaming search and
    [includeAnnotations] on to the deep scan, and neither is read there. *)
Theorem kubectlUnifiedSearch_unused_parameters {H : Host} (discovery : Exec string)
    (listing : Listing) (input : Input) (recent' includeAnnotations' : option bool) :
  kubectlUnifiedSearch discovery listing
    {| query := query input;
       resourceTypes := resourceTypes input;
       namespaces := namespaces input;
       namespacePattern := namespacePattern input;
       excludeSystemNamespaces := excludeSystemNamespaces input;
       searchMode := searchMode input;
       fuzzyTolerance := fuzzyTolerance input;
       limit := limit input;
       includeLabels := includeLabels input;
       includeAnnotations := includeAnnotations';
       sortKey := sortKey input;
       output := output input;
       recent := recent' |}
  = kubectlUnifiedSearch discovery listing input.
Proof.
  unfold kubectlUnifiedSearch. cbn [query namespaces namespacePattern excludeSystemNamespaces].
  destruct (isBlank (query input)); [reflexivity|].
  destruct (getTargetNamespaces _ _ _ _ _ _) as [m|targetNamespaces]; [reflexivity|].
  destruct (List.length targetNamespaces =? 0)%nat; [reflexivity|].
  cbn [searchMode fuzzyTolerance resourceTypes limit includeLabels sortKey
       includeAnnotations recent query].
  f_equal. f_equal. unfold streamingSearch. cbv zeta. cbn [p_limit p_query]. f_equal. f_equal.
  set (p1 := {| p_query := query input; p_recent := orDefault recent' false |}).
  set (p2 := {| p_query := query input; p_recent := orDefault (recent input) false |}).
  assert (Hu : forall rt ns rs found, namespaceResults p1 rt ns rs found
                                      = namespaceResults p2 rt ns rs found) by reflexivity.
  assert (Hb : forall rt batch found calls,
            batchResults listing p1 rt batch found calls
            = batchResults listing p2 rt batch found calls).
  { intros rt batch found. induction batch as [|ns batch IH]; intro calls; [reflexivity|].
    cbn [batchResults]. rewrite Hu, IH. reflexivity. }
  assert (Hl : forall rt batches state,
            batchLoop listing p1 rt batches state = batchLoop listing p2 rt batches state).
  { intros rt batches. induction batches as [|b batches IH]; intros [results calls];
      [reflexivity|].
    cbn [batchLoop]. rewrite Hb. change (p_limit p1) with (p_limit p2).
    destruct (lengthAtLeast results (p_limit p2)); [reflexivity|].
    destruct (lengthAtLeast _ (p_limit p2)); [reflexivity|]. apply IH. }
  generalize (@nil Result.t, 0). generalize (prioritizeNamespaces targetNamespaces (query input)).
  generalize (prioritizeResourceTypes
                (orDefault (resourceTypes input) [ "pods"; "deployments"; "services" ])
                (query input)).
  intros types nss. induction types as [|rt types IH]; intro state; [reflexivity|].
  cbn [typeLoop]. rewrite Hl. change (p_limit p1) with (p_limit p2).
  destruct (lengthAtLeast (fst state) (p_limit p2)); [reflexivity|].
  destruct (lengthAtLeast _ (p_limit p2)); [reflexivity|]. apply IH.
Qed.
